(** * Unified statistics reporter (lib/Basic/Statistic.cpp)

    A shallow embedding of the reporter of [Statistic.cpp]: the file-name
    helpers, the always-on counter domains, the frontend tracer objects with
    their entry and exit flushes, the exit-status setter and the teardown
    performed by the reporter's destructor, followed by the properties
    established about them.

    Conventions of the embedding.
    - [size_t] and [uint64_t] values are integers of [Z] in [0, 2^64), every
      arithmetic operation of the source is followed by its wrap-around.
    - A counter structure ([AlwaysOnFrontendCounters], [AlwaysOnDriverCounters])
      is a finite map from field name to value; a field that was never written
      reads as 0, as in the value-initialised structure of the source.  The
      field lists come from [Statistics.def], which is taken as a parameter.
    - [std::unique_ptr] members are options, [nullptr] being [None].
    - The clock, the resource usage probe, the file system, LLVM's timer and
      statistics printers and the entity printers are collaborators: their
      results are read from a [World] record. *)

From Stdlib Require Import Ascii String.
From stdpp Require Import gmap strings list fin_maps pretty.

Open Scope Z_scope.

(** ** Machine integers *)

Definition size_t_bits : Z := 64.

Definition wrap (z : Z) : Z := z mod 2 ^ size_t_bits.

Definition in_range (z : Z) : Prop := 0 <= z < 2 ^ size_t_bits.

(** ** File-name helpers *)

Module FileNames.

(** The byte value of a character; the comparisons of [cleanName] are made on
    it.  (Where [char] is signed the bytes from 128 on are negative: they fall
    outside the three intervals in both readings.) *)
Definition code (c : ascii) : N := N_of_ascii c.

Definition between (lo c hi : ascii) : bool :=
  ((code lo <=? code c) && (code c <=? code hi))%N.

(** The condition of the [if] in the loop of [cleanName]. *)
Definition keeps (c : ascii) : bool :=
  between "a" c "z" || between "A" c "Z" || between "0" c "9"
  || bool_decide (c = "."%char).

Definition underscore : ascii := "_"%char.

(** [for (auto c : n) { if (...) tmp += c; else tmp += '_'; }] with [tmp] the
    string built so far. *)
Fixpoint cleanName_loop (tmp n : string) : string :=
  match n with
  | EmptyString => tmp
  | String c rest =>
      if keeps c
      then cleanName_loop (tmp +:+ String c EmptyString) rest
      else cleanName_loop (tmp +:+ String underscore EmptyString) rest
  end.

Definition cleanName (n : string) : string := cleanName_loop EmptyString n.

(** Number of characters of a string that satisfy a test. *)
Fixpoint count_chars (p : ascii → bool) (s : string) : nat :=
  match s with
  | EmptyString => O
  | String c rest => ((if p c then 1 else 0) + count_chars p rest)%nat
  end.

Definition is_underscore (c : ascii) : bool := bool_decide (c = underscore).

(** The character written for [c], and a string transformed character by
    character: what the loop of [cleanName] amounts to. *)
Definition clean_char (c : ascii) : ascii := if keeps c then c else underscore.

Fixpoint map_chars (f : ascii → ascii) (s : string) : string :=
  match s with
  | EmptyString => EmptyString
  | String c rest => String (f c) (map_chars f rest)
  end.

(** [StringRef::front], [StringRef::substr(1)] and [StringRef::empty]. *)
Definition front (s : string) : option ascii :=
  match s with EmptyString => None | String c _ => Some c end.

Definition substr1 (s : string) : string :=
  match s with EmptyString => EmptyString | String _ rest => rest end.

Definition empty (s : string) : bool :=
  match s with EmptyString => true | _ => false end.

Section AuxName.

(** [llvm::sys::path::filename], a collaborator. *)
Variable path_filename : string → string.

Definition auxName (ModuleName InputName TripleName OutputType OptType : string)
  : string :=
  let InputName := if empty InputName then "all"%string else InputName in
  let InputName := path_filename InputName in
  let OptType := if empty OptType then "Onone"%string else OptType in
  let OutputType :=
    if negb (empty OutputType) && bool_decide (front OutputType = Some "."%char)
    then substr1 OutputType else OutputType in
  let OptType :=
    if negb (empty OptType) && bool_decide (front OptType = Some "-"%char)
    then substr1 OptType else OptType in
  cleanName ModuleName
    +:+ "-" +:+ cleanName InputName
    +:+ "-" +:+ cleanName TripleName
    +:+ "-" +:+ cleanName OutputType
    +:+ "-" +:+ cleanName OptType.

End AuxName.

(** [makeFileName]: [usec] is the reading of the system clock in microseconds
    and [rnd] the value of [Process::GetRandomNumber()]. *)
Definition makeFileName (usec rnd : Z) (Prefix ProgramName AuxName Suffix : string)
  : string :=
  Prefix +:+ "-" +:+ pretty usec +:+ "-" +:+ ProgramName +:+ "-" +:+ AuxName
    +:+ "-" +:+ pretty rnd +:+ "." +:+ Suffix.

Definition makeStatsFileName (usec rnd : Z) (ProgramName AuxName : string) :=
  makeFileName usec rnd "stats" ProgramName AuxName "json".

Definition makeTraceFileName (usec rnd : Z) (ProgramName AuxName : string) :=
  makeFileName usec rnd "trace" ProgramName AuxName "csv".

End FileNames.

(** ** Data model *)

(** [Statistics.def]: the frontend statistics, each with the group [TY] it is
    printed under and the field [NAME] that holds it, and the names of the
    driver statistics, in the order of the file. *)
Record StatisticsDef := {
  FRONTEND_STATISTIC : list (string * string);
  DRIVER_STATISTIC : list string;
}.

(** A counter structure: the value of each field, 0 where nothing was
    written. *)
Abbreviation Counters := (gmap string Z).

Definition field (C : Counters) (NAME : string) : Z := default 0 (C !! NAME).

Definition set_field (C : Counters) (NAME : string) (v : Z) : Counters :=
  <[NAME := v]> C.

(** [make_unique<AlwaysOnFrontendCounters>()]: every field is 0. *)
Definition zeroed : Counters := ∅.

(** [llvm::TimeRecord]; of a record the reporter reads the process time only,
    and the tracer reads it as [uint64_t(1000000.0 * getProcessTime())], the
    value kept here. *)
Record TimeRecord := { ProcessTimeUS : Z }.

(** The two readings of the clock made while a tracer is constructed with
    a reporter: the one kept in [SavedTime] and the one the entry flush
    makes. *)
Record Entry := { Saved : TimeRecord; Flushed : TimeRecord }.

(** [TraceEntity], a union of four pointers, possibly null. *)
Inductive TraceEntity :=
  | NoEntity
  | ADecl (p : N)
  | AnExpr (p : N)
  | AClangDecl (p : N)
  | ASILFunction (p : N).

Module FrontendStatsEvent.
Record t := {
  TimeUSec : Z;
  LiveUSec : Z;
  IsEntry : bool;
  EventName : string;
  CounterName : string;
  CounterDelta : Z;
  CounterValue : Z;
  Entity : TraceEntity;
}.
End FrontendStatsEvent.

Module FrontendStatsTracer.
(** [Reporter] is the pointer to the reporter ([true]) or [nullptr]. *)
Record t := {
  Reporter : bool;
  SavedTime : TimeRecord;
  EventName : string;
  Entity : TraceEntity;
}.
End FrontendStatsTracer.

Definition EXIT_SUCCESS : Z := 0.
Definition EXIT_FAILURE : Z := 1.

Record NamedRegionTimer := {
  TimerName : string;
  TimerDescription : string;
  GroupName : string;
  GroupDescription : string;
}.

Record UnifiedStatsReporter := {
  currentProcessExitStatusSet : bool;
  currentProcessExitStatus : Z;
  StatsFilename : string;
  TraceFilename : string;
  StartedTime : TimeRecord;
  Timer : option NamedRegionTimer;
  SourceMgr : bool;
  ClangSourceMgr : bool;
  FrontendCounters : option Counters;
  DriverCounters : option Counters;
  LastTracedFrontendCounters : option Counters;
  FrontendStatsEvents : list FrontendStatsEvent.t;
}.

(** Assignments to the members of a reporter. *)
Definition with_exit (R : UnifiedStatsReporter) (set : bool) (status : Z) :=
  {| currentProcessExitStatusSet := set;
     currentProcessExitStatus := status;
     StatsFilename := StatsFilename R;
     TraceFilename := TraceFilename R;
     StartedTime := StartedTime R;
     Timer := Timer R;
     SourceMgr := SourceMgr R;
     ClangSourceMgr := ClangSourceMgr R;
     FrontendCounters := FrontendCounters R;
     DriverCounters := DriverCounters R;
     LastTracedFrontendCounters := LastTracedFrontendCounters R;
     FrontendStatsEvents := FrontendStatsEvents R |}.

Definition with_Timer (R : UnifiedStatsReporter) (T : option NamedRegionTimer) :=
  {| currentProcessExitStatusSet := currentProcessExitStatusSet R;
     currentProcessExitStatus := currentProcessExitStatus R;
     StatsFilename := StatsFilename R;
     TraceFilename := TraceFilename R;
     StartedTime := StartedTime R;
     Timer := T;
     SourceMgr := SourceMgr R;
     ClangSourceMgr := ClangSourceMgr R;
     FrontendCounters := FrontendCounters R;
     DriverCounters := DriverCounters R;
     LastTracedFrontendCounters := LastTracedFrontendCounters R;
     FrontendStatsEvents := FrontendStatsEvents R |}.

Definition with_FrontendCounters (R : UnifiedStatsReporter) (C : option Counters) :=
  {| currentProcessExitStatusSet := currentProcessExitStatusSet R;
     currentProcessExitStatus := currentProcessExitStatus R;
     StatsFilename := StatsFilename R;
     TraceFilename := TraceFilename R;
     StartedTime := StartedTime R;
     Timer := Timer R;
     SourceMgr := SourceMgr R;
     ClangSourceMgr := ClangSourceMgr R;
     FrontendCounters := C;
     DriverCounters := DriverCounters R;
     LastTracedFrontendCounters := LastTracedFrontendCounters R;
     FrontendStatsEvents := FrontendStatsEvents R |}.

Definition with_DriverCounters (R : UnifiedStatsReporter) (C : option Counters) :=
  {| currentProcessExitStatusSet := currentProcessExitStatusSet R;
     currentProcessExitStatus := currentProcessExitStatus R;
     StatsFilename := StatsFilename R;
     TraceFilename := TraceFilename R;
     StartedTime := StartedTime R;
     Timer := Timer R;
     SourceMgr := SourceMgr R;
     ClangSourceMgr := ClangSourceMgr R;
     FrontendCounters := FrontendCounters R;
     DriverCounters := C;
     LastTracedFrontendCounters := LastTracedFrontendCounters R;
     FrontendStatsEvents := FrontendStatsEvents R |}.

Definition with_trace (R : UnifiedStatsReporter) (Last : option Counters)
    (events : list FrontendStatsEvent.t) :=
  {| currentProcessExitStatusSet := currentProcessExitStatusSet R;
     currentProcessExitStatus := currentProcessExitStatus R;
     StatsFilename := StatsFilename R;
     TraceFilename := TraceFilename R;
     StartedTime := StartedTime R;
     Timer := Timer R;
     SourceMgr := SourceMgr R;
     ClangSourceMgr := ClangSourceMgr R;
     FrontendCounters := FrontendCounters R;
     DriverCounters := DriverCounters R;
     LastTracedFrontendCounters := Last;
     FrontendStatsEvents := events |}.

(** ** The reporter *)

Module Reporter.

(** The constructor.  [path_append] is [llvm::sys::path::append], [usec] and
    [rnd] are what [makeFileName] reads from the system clock and from the
    random number generator (once for each of the two names), [Now] is
    [llvm::TimeRecord::getCurrentTime()].  [EnableStatistics] and
    [enableCompilationTimers] set switches of LLVM that the reporter does not
    read back. *)
Definition construct (path_append : string → string → string)
    (usec1 rnd1 usec2 rnd2 : Z) (Now : TimeRecord)
    (ProgramName AuxName Directory : string) (SM CSM TraceEvents : bool)
  : UnifiedStatsReporter :=
  {| currentProcessExitStatusSet := false;
     currentProcessExitStatus := EXIT_FAILURE;
     StatsFilename :=
       path_append Directory
         (FileNames.makeStatsFileName usec1 rnd1 ProgramName AuxName);
     TraceFilename :=
       path_append Directory
         (FileNames.makeTraceFileName usec2 rnd2 ProgramName AuxName);
     StartedTime := Now;
     Timer := Some {| TimerName := AuxName;
                      TimerDescription := "Building Target";
                      GroupName := ProgramName;
                      GroupDescription := "Running Program" |};
     SourceMgr := SM;
     ClangSourceMgr := CSM;
     FrontendCounters := None;
     DriverCounters := None;
     LastTracedFrontendCounters := if TraceEvents then Some zeroed else None;
     FrontendStatsEvents := [] |}.

(** The constructor that takes the names of the module, the input, the
    target, the output type and the optimization level: it delegates to the
    one above with the auxiliary name made of them.  [path_filename] is
    [llvm::sys::path::filename]. *)
Definition construct_from_names (path_filename : string → string)
    (path_append : string → string → string)
    (usec1 rnd1 usec2 rnd2 : Z) (Now : TimeRecord)
    (ProgramName ModuleName InputName TripleName OutputType OptType
       Directory : string) (SM CSM TraceEvents : bool)
  : UnifiedStatsReporter :=
  construct path_append usec1 rnd1 usec2 rnd2 Now ProgramName
    (FileNames.auxName path_filename ModuleName InputName TripleName
       OutputType OptType)
    Directory SM CSM TraceEvents.

(** [getDriverCounters] and [getFrontendCounters] allocate the structure on
    first use; they give the reporter after the call and the structure the
    returned reference designates. *)
Definition getDriverCounters (R : UnifiedStatsReporter)
  : UnifiedStatsReporter * Counters :=
  match DriverCounters R with
  | Some C => (R, C)
  | None => (with_DriverCounters R (Some zeroed), zeroed)
  end.

Definition getFrontendCounters (R : UnifiedStatsReporter)
  : UnifiedStatsReporter * Counters :=
  match FrontendCounters R with
  | Some C => (R, C)
  | None => (with_FrontendCounters R (Some zeroed), zeroed)
  end.

(** What stops a run before its end. *)
Inductive Halt :=
  | AssertionFailed (condition : string)
  | NoSuchObject (address : nat)
  | AddressInUse (address : nat).

Inductive Outcome (A : Type) :=
  | Returns (a : A)
  | Halts (h : Halt).
Arguments Returns {A} a.
Arguments Halts {A} h.

(** [assert(c)]: checked unless the build defines [NDEBUG]. *)
Definition assert (NDEBUG : bool) (c : bool) (text : string) : Outcome unit :=
  if NDEBUG then Returns tt
  else if c then Returns tt else Halts (AssertionFailed text).

Definition noteCurrentProcessExitStatus (NDEBUG : bool)
    (R : UnifiedStatsReporter) (status : Z) : Outcome UnifiedStatsReporter :=
  match assert NDEBUG (negb (currentProcessExitStatusSet R))
          "!currentProcessExitStatusSet" with
  | Halts h => Halts h
  | Returns _ => Returns (with_exit R true status)
  end.

(** One expansion of [FRONTEND_STATISTIC(TY, NAME)] in
    [saveAnyFrontendStatsEvents]: [C] is the frontend structure, the state is
    the last traced structure and the event list. *)
Definition trace_statistic (NowUS LiveUS : Z) (IsEntry : bool)
    (T : FrontendStatsTracer.t) (C : Counters)
    (st : Counters * list FrontendStatsEvent.t) (stat : string * string)
  : Counters * list FrontendStatsEvent.t :=
  let '(TY, NAME) := stat in
  let '(Last, Events) := st in
  let total := field C NAME in
  let delta := wrap (field C NAME - field Last NAME) in
  let name := TY +:+ "." +:+ NAME in
  if bool_decide (delta ≠ 0) then
    (set_field Last NAME (field C NAME),
     Events ++ [ {| FrontendStatsEvent.TimeUSec := NowUS;
                    FrontendStatsEvent.LiveUSec := LiveUS;
                    FrontendStatsEvent.IsEntry := IsEntry;
                    FrontendStatsEvent.EventName := FrontendStatsTracer.EventName T;
                    FrontendStatsEvent.CounterName := name;
                    FrontendStatsEvent.CounterDelta := delta;
                    FrontendStatsEvent.CounterValue := total;
                    FrontendStatsEvent.Entity := FrontendStatsTracer.Entity T |} ])
  else (Last, Events).

Section Flush.

Variable Def : StatisticsDef.

(** [Now] is the reading of [llvm::TimeRecord::getCurrentTime()]. *)
Definition saveAnyFrontendStatsEvents (R : UnifiedStatsReporter)
    (T : FrontendStatsTracer.t) (IsEntry : bool) (Now : TimeRecord)
  : UnifiedStatsReporter :=
  match LastTracedFrontendCounters R with
  | None => R
  | Some Last =>
      let StartUS := ProcessTimeUS (FrontendStatsTracer.SavedTime T) in
      let NowUS := ProcessTimeUS Now in
      let LiveUS := if IsEntry then 0 else wrap (NowUS - StartUS) in
      let '(R1, C) := getFrontendCounters R in
      let '(Last', Events') :=
        foldl (trace_statistic NowUS LiveUS IsEntry T C)
          (Last, FrontendStatsEvents R1) (FRONTEND_STATISTIC Def) in
      with_trace R1 (Some Last') Events'
  end.

End Flush.

End Reporter.

(** ** Tracer objects *)

Module Tracing.
Import Reporter.

(** A call of [saveAnyFrontendStatsEvents]: the address of the tracer that
    made it, its [IsEntry] argument and the events it appended.  The list of
    the calls made so far is kept next to the state; the code does not read
    it. *)
Record FlushCall := {
  caller : nat;
  atEntry : bool;
  appended : list FrontendStatsEvent.t;
}.

(** The reporter of the process and the tracer objects alive, by address. *)
Record Process := {
  reporter : UnifiedStatsReporter;
  tracers : gmap nat FrontendStatsTracer.t;
  calls : list FlushCall;
}.

Definition with_reporter (P : Process) (R : UnifiedStatsReporter) : Process :=
  {| reporter := R; tracers := tracers P; calls := calls P |}.

Definition with_tracers (P : Process) (ts : gmap nat FrontendStatsTracer.t)
  : Process :=
  {| reporter := reporter P; tracers := ts; calls := calls P |}.

(** What the program around the reporter does with it. *)
Inductive Cmd :=
  (** [auto t = Reporter.getStatsTracer(EventName, E);], for any of the four
      overloads; the tracer returned is built in place at [t] *)
  | GetStatsTracer (t : nat) (EventName : string) (E : TraceEntity)
      (Now : Entry)
  (** [FrontendStatsTracer t(EventName, E, Reporter);] with [Reporter] the
      reporter ([true]) or [nullptr] *)
  | NewTracer (t : nat) (EventName : string) (E : TraceEntity)
      (Reporter : bool) (Now : Entry)
  (** [FrontendStatsTracer t;] *)
  | NewInertTracer (t : nat)
  (** [FrontendStatsTracer t(std::move(other));] *)
  | MoveConstruct (t other : nat)
  (** [t = std::move(other);] *)
  | MoveAssign (t other : nat)
  (** the end of the lifetime of [t] *)
  | Destroy (t : nat) (Now : TimeRecord)
  (** [Reporter.getFrontendCounters().NAME++;] *)
  | Increment (NAME : string)
  (** [Reporter.getFrontendCounters().NAME = v;] *)
  | Assign (NAME : string) (v : Z)
  (** [Reporter.getDriverCounters().NAME++;] *)
  | IncrementDriver (NAME : string)
  (** [Reporter.getDriverCounters().NAME = v;] *)
  | AssignDriver (NAME : string) (v : Z)
  (** [Reporter.noteCurrentProcessExitStatus(status);] *)
  | NoteExitStatus (status : Z).

Definition inert : FrontendStatsTracer.t :=
  {| FrontendStatsTracer.Reporter := false;
     FrontendStatsTracer.SavedTime := {| ProcessTimeUS := 0 |};
     FrontendStatsTracer.EventName := EmptyString;
     FrontendStatsTracer.Entity := NoEntity |}.

(** [other.Reporter = nullptr]. *)
Definition released (T : FrontendStatsTracer.t) : FrontendStatsTracer.t :=
  {| FrontendStatsTracer.Reporter := false;
     FrontendStatsTracer.SavedTime := FrontendStatsTracer.SavedTime T;
     FrontendStatsTracer.EventName := FrontendStatsTracer.EventName T;
     FrontendStatsTracer.Entity := FrontendStatsTracer.Entity T |}.

Definition mutate_frontend (f : Counters → Counters) (P : Process) : Process :=
  let '(R1, C) := getFrontendCounters (reporter P) in
  with_reporter P (with_FrontendCounters R1 (Some (f C))).

Definition mutate_driver (f : Counters → Counters) (P : Process) : Process :=
  let '(R1, C) := getDriverCounters (reporter P) in
  with_reporter P (with_DriverCounters R1 (Some (f C))).

Definition plus_plus (NAME : string) (C : Counters) : Counters :=
  set_field C NAME (wrap (field C NAME + 1)).

Definition store (NAME : string) (v : Z) (C : Counters) : Counters :=
  set_field C NAME (wrap v).

Section Exec.

Variable Def : StatisticsDef.
Variable NDEBUG : bool.

(** The tracer at [t], whose members are [T], calls
    [saveAnyFrontendStatsEvents] of its reporter on itself. *)
Definition flush (t : nat) (T : FrontendStatsTracer.t) (IsEntry : bool)
    (Now : TimeRecord) (P : Process) : Process :=
  let R' := saveAnyFrontendStatsEvents Def (reporter P) T IsEntry Now in
  {| reporter := R';
     tracers := tracers P;
     calls := calls P
       ++ [ {| caller := t; atEntry := IsEntry;
               appended := drop (length (FrontendStatsEvents (reporter P)))
                             (FrontendStatsEvents R') |} ] |}.

(** The three-argument constructor of [FrontendStatsTracer], for an object
    at [t]. *)
Definition new_tracer (t : nat) (EventName : string) (E : TraceEntity)
    (Rep : bool) (Now : Entry) (P : Process) : Process :=
  let T := {| FrontendStatsTracer.Reporter := Rep;
              FrontendStatsTracer.SavedTime := Saved Now;
              FrontendStatsTracer.EventName := EventName;
              FrontendStatsTracer.Entity := E |} in
  let P := with_tracers P (<[t := T]> (tracers P)) in
  if Rep then flush t T true (Flushed Now) P else P.

Definition fresh (t : nat) (P : Process) (k : Outcome Process)
  : Outcome Process :=
  match tracers P !! t with
  | None => k
  | Some _ => Halts (AddressInUse t)
  end.

Definition at_address (t : nat) (P : Process)
    (k : FrontendStatsTracer.t → Outcome Process) : Outcome Process :=
  match tracers P !! t with
  | Some T => k T
  | None => Halts (NoSuchObject t)
  end.

Definition exec (c : Cmd) (P : Process) : Outcome Process :=
  match c with
  | GetStatsTracer t EventName E Now =>
      fresh t P
        (if bool_decide (is_Some (LastTracedFrontendCounters (reporter P)))
         then Returns (new_tracer t EventName E true Now P)
         else Returns (with_tracers P (<[t := inert]> (tracers P))))
  | NewTracer t EventName E Rep Now =>
      fresh t P (Returns (new_tracer t EventName E Rep Now P))
  | NewInertTracer t =>
      fresh t P (Returns (with_tracers P (<[t := inert]> (tracers P))))
  | MoveConstruct t other =>
      fresh t P
        (at_address other P (λ O,
           let P := with_tracers P (<[t := O]> (tracers P)) in
           at_address other P (λ O',
             Returns (with_tracers P (<[other := released O']> (tracers P))))))
  | MoveAssign t other =>
      at_address t P (λ _,
        at_address other P (λ O,
          let P := with_tracers P (<[t := O]> (tracers P)) in
          at_address other P (λ O',
            Returns (with_tracers P (<[other := released O']> (tracers P))))))
  | Destroy t Now =>
      at_address t P (λ T,
        let P := if FrontendStatsTracer.Reporter T
                 then flush t T false Now P else P in
        Returns (with_tracers P (delete t (tracers P))))
  | Increment NAME => Returns (mutate_frontend (plus_plus NAME) P)
  | Assign NAME v => Returns (mutate_frontend (store NAME v) P)
  | IncrementDriver NAME => Returns (mutate_driver (plus_plus NAME) P)
  | AssignDriver NAME v => Returns (mutate_driver (store NAME v) P)
  | NoteExitStatus status =>
      match noteCurrentProcessExitStatus NDEBUG (reporter P) status with
      | Returns R => Returns (with_reporter P R)
      | Halts h => Halts h
      end
  end.

Fixpoint run (cs : list Cmd) (P : Process) : Outcome Process :=
  match cs with
  | [] => Returns P
  | c :: cs =>
      match exec c P with
      | Returns P' => run cs P'
      | Halts h => Halts h
      end
  end.

End Exec.

(** The process right after the construction of its reporter. *)
Definition start (R : UnifiedStatsReporter) : Process :=
  {| reporter := R; tracers := ∅; calls := [] |}.

(** The addresses a command names. *)
Definition addresses (c : Cmd) : list nat :=
  match c with
  | GetStatsTracer t _ _ _ => [t]
  | NewTracer t _ _ _ _ => [t]
  | NewInertTracer t => [t]
  | MoveConstruct t other => [t; other]
  | MoveAssign t other => [t; other]
  | Destroy t _ => [t]
  | _ => []
  end.

(** A command that only changes counters. *)
Definition is_mutation (c : Cmd) : bool :=
  match c with
  | Increment _ | Assign _ _ | IncrementDriver _ | AssignDriver _ _ => true
  | _ => false
  end.

(** The status of the last [NoteExitStatus] of a program, if there is one. *)
Fixpoint noted_status (cs : list Cmd) : option Z :=
  match cs with
  | [] => None
  | c :: cs =>
      match noted_status cs with
      | Some s => Some s
      | None => match c with NoteExitStatus s => Some s | _ => None end
      end
  end.

End Tracing.

(** ** Teardown *)

Module Teardown.
Import Reporter.

(** The build: whether [NDEBUG] and [LLVM_ENABLE_STATS] are defined. *)
Record Build := { NDEBUG : bool; LLVM_ENABLE_STATS : bool }.

(** What the destructor reads from its collaborators.  The two quantities
    computed in floating point are read from here as well: whether the
    elapsed process time differs from 0.0, and the quotient of a line count
    by the elapsed process time, converted to [size_t]. *)
Record World := {
  HAVE_GETRUSAGE : bool;
  ru_maxrss : Z;
  ElapsedProcessTimeNonzero : bool;
  SourceLinesPerSecond : Z → Z;
  OpenSucceeds : string → bool;
  printAllJSONValues : string → string;
  PrintStatisticsJSON : list (string * string * Z) → string;
  ClangNamedDeclName : N → option string;
  ValueDeclFullName : N → option string;
  SILFunctionName : N → string;
  ClangShortLoc : N → bool → option string;
  DeclRange : N → string;
  ExprRange : N → string;
  SILFunctionRange : N → string;
}.

Definition getChildrenMaxResidentSetSize (W : World) : Z :=
  if HAVE_GETRUSAGE W then wrap (ru_maxrss W) else 0.

(** The two streams of the destructor, and what it does to the outside. *)
Inductive Stream := ostream | tstream.

Inductive Effect :=
  | Open (s : Stream) (path : string) (ok : bool)
  | Write (s : Stream) (text : string)
  | Errs (text : string)
  | Publish (stat : string * string * Z).

Definition stream_of (e : Effect) : option Stream :=
  match e with
  | Open s _ _ => Some s
  | Write s _ => Some s
  | Errs _ => None
  | Publish _ => None
  end.

Definition chr (n : nat) : string := String (ascii_of_nat n) EmptyString.
Definition dquote : string := chr 34.
Definition newline : string := chr 10.
Definition tab : string := chr 9.

(** One expansion of the printing macro: [delim], a tab, the quoted name
    [TY.NAME], a colon, a space and the value are written, and [delim]
    becomes a comma and a line break.  The state is the pair of the text
    written so far and [delim]. *)
Definition print_statistic (C : Counters) (st : string * string)
    (stat : string * string) : string * string :=
  let '(OS, delim) := st in
  let '(TY, NAME) := stat in
  (OS +:+ delim +:+ tab +:+ dquote +:+ TY +:+ "." +:+ NAME +:+ dquote +:+ ": "
      +:+ pretty (field C NAME),
   "," +:+ newline).

Definition as_driver (NAME : string) : string * string := ("Driver"%string, NAME).

Section Destructor.

Variable Def : StatisticsDef.
Variable B : Build.
Variable W : World.

Definition printAlwaysOnStatsAndTimers (R : UnifiedStatsReporter) : string :=
  let st := ("{" +:+ newline, EmptyString) in
  let st :=
    match FrontendCounters R with
    | Some C => foldl (print_statistic C) st (FRONTEND_STATISTIC Def)
    | None => st
    end in
  let st :=
    match DriverCounters R with
    | Some C => foldl (print_statistic C) st (as_driver <$> DRIVER_STATISTIC Def)
    | None => st
    end in
  let '(OS, delim) := st in
  OS +:+ printAllJSONValues W delim +:+ newline +:+ "}" +:+ newline.

(** [publishAlwaysOnStatsToLLVM]: the additions to LLVM's statistics. *)
Definition publishAlwaysOnStatsToLLVM (R : UnifiedStatsReporter)
  : list (string * string * Z) :=
  match FrontendCounters R with
  | Some C => (λ '(TY, NAME), (TY, NAME, field C NAME)) <$> FRONTEND_STATISTIC Def
  | None => []
  end
  ++
  match DriverCounters R with
  | Some C => (λ NAME, ("Driver"%string, NAME, field C NAME)) <$> DRIVER_STATISTIC Def
  | None => []
  end.

Definition printTraceEntityName (E : TraceEntity) : string :=
  match E with
  | AClangDecl p => default EmptyString (ClangNamedDeclName W p)
  | ADecl p => default EmptyString (ValueDeclFullName W p)
  | AnExpr _ => EmptyString
  | ASILFunction p => SILFunctionName W p
  | NoEntity => EmptyString
  end.

Definition printClangShortLoc (p : N) (atEnd : bool) : string :=
  default EmptyString (ClangShortLoc W p atEnd).

Definition printTraceEntityLoc (CSM : bool) (E : TraceEntity) : string :=
  match E with
  | AClangDecl p =>
      if CSM
      then printClangShortLoc p false +:+ "-" +:+ printClangShortLoc p true
      else EmptyString
  | ADecl p => DeclRange W p
  | AnExpr p => ExprRange W p
  | ASILFunction p => SILFunctionRange W p
  | NoEntity => EmptyString
  end.

Definition trace_header : string :=
  "Time,Live,IsEntry,EventName,CounterName,"
    +:+ "CounterDelta,CounterValue,EntityName,EntityRange" +:+ newline.

Definition trace_row (CSM : bool) (E : FrontendStatsEvent.t) : string :=
  pretty (FrontendStatsEvent.TimeUSec E) +:+ ","
    +:+ pretty (FrontendStatsEvent.LiveUSec E) +:+ ","
    +:+ (if FrontendStatsEvent.IsEntry E
         then dquote +:+ "entry" +:+ dquote +:+ ","
         else dquote +:+ "exit" +:+ dquote +:+ ",")
    +:+ dquote +:+ FrontendStatsEvent.EventName E +:+ dquote +:+ ","
    +:+ dquote +:+ FrontendStatsEvent.CounterName E +:+ dquote +:+ ","
    +:+ pretty (FrontendStatsEvent.CounterDelta E) +:+ ","
    +:+ pretty (FrontendStatsEvent.CounterValue E) +:+ ","
    +:+ dquote +:+ printTraceEntityName (FrontendStatsEvent.Entity E)
    +:+ dquote +:+ ","
    +:+ dquote +:+ printTraceEntityLoc CSM (FrontendStatsEvent.Entity E)
    +:+ dquote +:+ newline.

Definition trace_text (R : UnifiedStatsReporter) : string :=
  foldl (λ OS E, OS +:+ trace_row (ClangSourceMgr R) E) trace_header
    (FrontendStatsEvents R).

(** The steps of [~UnifiedStatsReporter], in the order of the source. *)

Definition markFailure (R : UnifiedStatsReporter) : UnifiedStatsReporter :=
  if bool_decide (currentProcessExitStatus R ≠ EXIT_SUCCESS) then
    match FrontendCounters R with
    | Some _ =>
        let '(R1, C) := getFrontendCounters R in
        with_FrontendCounters R1
          (Some (set_field C "NumProcessFailures"
                   (wrap (field C "NumProcessFailures" + 1))))
    | None =>
        let '(R1, C) := getDriverCounters R in
        with_DriverCounters R1
          (Some (set_field C "NumProcessFailures"
                   (wrap (field C "NumProcessFailures" + 1))))
    end
  else R.

Definition recordChildrenMaxRSS (R : UnifiedStatsReporter) : UnifiedStatsReporter :=
  match DriverCounters R with
  | Some C =>
      with_DriverCounters R
        (Some (set_field C "ChildrenMaxRSS" (getChildrenMaxResidentSetSize W)))
  | None => R
  end.

Definition recordLinesPerSecond (R : UnifiedStatsReporter) : UnifiedStatsReporter :=
  match FrontendCounters R with
  | Some C =>
      if bool_decide (field C "NumSourceLines" ≠ 0) && ElapsedProcessTimeNonzero W
      then with_FrontendCounters R
             (Some (set_field C "NumSourceLinesPerSecond"
                      (SourceLinesPerSecond W (field C "NumSourceLines"))))
      else R
  | None => R
  end.

(** The counters as the output steps find them. *)
Definition settle (R : UnifiedStatsReporter) : UnifiedStatsReporter :=
  recordLinesPerSecond (recordChildrenMaxRSS (with_Timer (markFailure R) None)).

Definition writeStats (R : UnifiedStatsReporter) : list Effect :=
  if negb (NDEBUG B) || LLVM_ENABLE_STATS B then
    (Publish <$> publishAlwaysOnStatsToLLVM R)
      ++ [Write ostream (PrintStatisticsJSON W (publishAlwaysOnStatsToLLVM R))]
  else [Write ostream (printAlwaysOnStatsAndTimers R)].

Definition writeTrace (R : UnifiedStatsReporter) : list Effect :=
  if bool_decide (is_Some (LastTracedFrontendCounters R)) && SourceMgr R then
    if OpenSucceeds W (TraceFilename R) then
      [Open tstream (TraceFilename R) true; Write tstream (trace_text R)]
    else
      [Open tstream (TraceFilename R) false;
       Errs ("Error opening -trace-stats-events file '" +:+ TraceFilename R
               +:+ "' for writing" +:+ newline)]
  else [].

(** [~UnifiedStatsReporter]: the reporter as the destructor leaves it and
    what the destructor did to the outside. *)
Definition destroy (R : UnifiedStatsReporter)
  : UnifiedStatsReporter * list Effect :=
  let R := settle R in
  if OpenSucceeds W (StatsFilename R) then
    (R, [Open ostream (StatsFilename R) true] ++ writeStats R ++ writeTrace R)
  else
    (R, [Open ostream (StatsFilename R) false;
         Errs ("Error opening -stats-output-dir file '" +:+ TraceFilename R
                 +:+ "' for writing" +:+ newline)]).

End Destructor.

End Teardown.

(** ** Reading the trace *)

Module Reading.
Import Reporter.

(** The printed name of a statistic. *)
Definition label (stat : string * string) : string :=
  stat.1 +:+ "." +:+ stat.2.

(** The difference the flush computes for a field. *)
Definition delta_of (C Last : Counters) (NAME : string) : Z :=
  wrap (field C NAME - field Last NAME).

Definition live_of (IsEntry : bool) (T : FrontendStatsTracer.t) (Now : TimeRecord)
  : Z :=
  if IsEntry then 0
  else wrap (ProcessTimeUS Now - ProcessTimeUS (FrontendStatsTracer.SavedTime T)).

(** The event of a flush for a statistic. *)
Definition event_of (T : FrontendStatsTracer.t) (IsEntry : bool) (Now : TimeRecord)
    (C Last : Counters) (stat : string * string) : FrontendStatsEvent.t :=
  {| FrontendStatsEvent.TimeUSec := ProcessTimeUS Now;
     FrontendStatsEvent.LiveUSec := live_of IsEntry T Now;
     FrontendStatsEvent.IsEntry := IsEntry;
     FrontendStatsEvent.EventName := FrontendStatsTracer.EventName T;
     FrontendStatsEvent.CounterName := label stat;
     FrontendStatsEvent.CounterDelta := delta_of C Last stat.2;
     FrontendStatsEvent.CounterValue := field C stat.2;
     FrontendStatsEvent.Entity := FrontendStatsTracer.Entity T |}.

(** The current value of a frontend counter: 0 before the structure exists,
    as the flush finds it after allocating the structure. *)
Definition current (R : UnifiedStatsReporter) (NAME : string) : Z :=
  field (default zeroed (FrontendCounters R)) NAME.

Definition baseline (R : UnifiedStatsReporter) (NAME : string) : Z :=
  field (default zeroed (LastTracedFrontendCounters R)) NAME.

(** The statistics whose value differs from the baseline, in the order of
    the table, and the events a flush is expected to append for them. *)
Definition changed (stats : list (string * string)) (C Last : Counters)
  : list (string * string) :=
  filter (λ stat, delta_of C Last stat.2 ≠ 0) stats.

Definition flush_events (Def : StatisticsDef) (R : UnifiedStatsReporter)
    (T : FrontendStatsTracer.t) (IsEntry : bool) (Now : TimeRecord)
  : list FrontendStatsEvent.t :=
  match LastTracedFrontendCounters R with
  | None => []
  | Some Last =>
      let C := default zeroed (FrontendCounters R) in
      event_of T IsEntry Now C Last <$> changed (FRONTEND_STATISTIC Def) C Last
  end.

(** The table of [Statistics.def] declares each field once and prints each
    statistic under a name of its own. *)
Definition well_formed (Def : StatisticsDef) : Prop :=
  NoDup (FRONTEND_STATISTIC Def).*2 ∧ NoDup (label <$> FRONTEND_STATISTIC Def).

(** The baseline after the loop of the flush. *)
Definition synced (stats : list (string * string)) (C Last : Counters) : Counters :=
  foldl (λ L stat,
           if bool_decide (delta_of C L stat.2 ≠ 0)
           then set_field L stat.2 (field C stat.2) else L)
        Last stats.

(** The events recorded under a counter name. *)
Definition named (name : string) (events : list FrontendStatsEvent.t)
  : list FrontendStatsEvent.t :=
  filter (λ E, FrontendStatsEvent.CounterName E = name) events.

(** The sum of the deltas of the events recorded under a counter name. *)
Definition sum_deltas (name : string) (events : list FrontendStatsEvent.t) : Z :=
  foldr (λ E acc,
           if bool_decide (FrontendStatsEvent.CounterName E = name)
           then FrontendStatsEvent.CounterDelta E + acc else acc)
        0 events.

(** The lines of the snapshot: printed name and value, frontend first. *)
Definition snapshot_rows (Def : StatisticsDef) (R : UnifiedStatsReporter)
  : list (string * Z) :=
  match FrontendCounters R with
  | Some C => (λ stat, (label stat, field C stat.2)) <$> FRONTEND_STATISTIC Def
  | None => []
  end
  ++
  match DriverCounters R with
  | Some C =>
      (λ NAME, (label ("Driver"%string, NAME), field C NAME)) <$> DRIVER_STATISTIC Def
  | None => []
  end.

(** The rows of one structure. *)
Definition rows_of (C : Counters) (stats : list (string * string))
  : list (string * Z) :=
  (λ stat, (label stat, field C stat.2)) <$> stats.

Definition row_text (row : string * Z) : string :=
  Teardown.tab +:+ Teardown.dquote +:+ row.1 +:+ Teardown.dquote +:+ ": "
    +:+ pretty row.2.

(** The rows separated by a comma and a line break, and the separator that
    follows them. *)
Fixpoint rows_text (delim : string) (rows : list (string * Z)) : string :=
  match rows with
  | [] => EmptyString
  | row :: rows =>
      delim +:+ row_text row +:+ rows_text ("," +:+ Teardown.newline) rows
  end.

Definition delim_after (rows : list (string * Z)) : string :=
  match rows with
  | [] => EmptyString
  | _ => "," +:+ Teardown.newline
  end.

(** The calls a tracer made, and the events of a list of calls. *)
Definition flushes_of (a : nat) (calls : list Tracing.FlushCall)
  : list Tracing.FlushCall :=
  filter (λ k, Tracing.caller k = a) calls.

Definition events_of (calls : list Tracing.FlushCall) : list FrontendStatsEvent.t :=
  concat (Tracing.appended <$> calls).

(** [P'] comes after [P]: the calls [new] were made in between and the events
    appended in between are theirs. *)
Definition extends (P P' : Tracing.Process) (new : list Tracing.FlushCall) : Prop :=
  Tracing.calls P' = Tracing.calls P ++ new
  ∧ FrontendStatsEvents (Tracing.reporter P')
    = FrontendStatsEvents (Tracing.reporter P) ++ events_of new.

(** The call a tracer makes. *)
Definition call_of (Def : StatisticsDef) (t : nat) (T : FrontendStatsTracer.t)
    (IsEntry : bool) (Now : TimeRecord) (P : Tracing.Process) : Tracing.FlushCall :=
  {| Tracing.caller := t; Tracing.atEntry := IsEntry;
     Tracing.appended :=
       drop (length (FrontendStatsEvents (Tracing.reporter P)))
         (FrontendStatsEvents
            (saveAnyFrontendStatsEvents Def (Tracing.reporter P) T IsEntry Now)) |}.

(** Every field of a structure holds a [size_t]. *)
Definition fields_in_range (C : Counters) : Prop := ∀ NAME, in_range (field C NAME).

Definition keeps_range (f : Counters → Counters) : Prop :=
  ∀ C, fields_in_range C → fields_in_range (f C).

(** What one command does to the reporter. *)
Inductive reporter_step (Def : StatisticsDef)
  : UnifiedStatsReporter → UnifiedStatsReporter → Prop :=
  | step_none R : reporter_step Def R R
  | step_flush R T IsEntry Now :
      reporter_step Def R (saveAnyFrontendStatsEvents Def R T IsEntry Now)
  | step_frontend R f :
      keeps_range f →
      reporter_step Def R
        (with_FrontendCounters R (Some (f (default zeroed (FrontendCounters R)))))
  | step_driver R f :
      keeps_range f →
      reporter_step Def R
        (with_DriverCounters R (Some (f (default zeroed (DriverCounters R)))))
  | step_exit R status : reporter_step Def R (with_exit R true status).

(** The members of the tracer that [getStatsTracer] builds when the reporter
    traces. *)
Definition live_tracer (EventName : string) (E : TraceEntity) (Now : Entry)
  : FrontendStatsTracer.t :=
  {| FrontendStatsTracer.Reporter := true;
     FrontendStatsTracer.SavedTime := Saved Now;
     FrontendStatsTracer.EventName := EventName;
     FrontendStatsTracer.Entity := E |}.

(** The scope of a tracer [A] that encloses the scope of a tracer [B], with
    changes of counters in between: [A.begin, B.begin, B.end, A.end]. *)
Definition nested (A B : nat) (nameA nameB : string) (EA EB : TraceEntity)
    (beginA beginB : Entry) (endB endA : TimeRecord)
    (m1 m2 m3 : list Tracing.Cmd)
  : list Tracing.Cmd :=
  Tracing.GetStatsTracer A nameA EA beginA :: m1
    ++ Tracing.GetStatsTracer B nameB EB beginB :: m2
    ++ Tracing.Destroy B endB :: m3
    ++ [Tracing.Destroy A endA].

(** The scope of one tracer around a program. *)
Definition scope (a : nat) (EventName : string) (E : TraceEntity)
    (Begin : Entry) (End : TimeRecord) (body : list Tracing.Cmd)
  : list Tracing.Cmd :=
  Tracing.GetStatsTracer a EventName E Begin :: body ++ [Tracing.Destroy a End].

(** The sum recorded for a statistic so far, less its baseline, as a
    [size_t]: what no step of the reporter changes. *)
Definition balance (R : UnifiedStatsReporter) (stat : string * string) : Z :=
  wrap (sum_deltas (label stat) (FrontendStatsEvents R) - baseline R stat.2).

(** Delta conservation over the scope of a tracer, the events of the entry
    flush included: the deltas recorded for the statistic while the scope
    runs add up to the growth of its value over the scope. *)
Definition conserved_with_entry (Def : StatisticsDef) (NDEBUG : bool)
    (P : Tracing.Process) (a : nat) (EventName : string) (E : TraceEntity)
    (Begin : Entry) (End : TimeRecord) (body : list Tracing.Cmd)
    (stat : string * string) : Prop :=
  ∀ P', Tracing.run Def NDEBUG (scope a EventName E Begin End body) P
        = Returns P' →
        sum_deltas (label stat)
          (drop (length (FrontendStatsEvents (Tracing.reporter P)))
             (FrontendStatsEvents (Tracing.reporter P')))
        = current (Tracing.reporter P') stat.2 - current (Tracing.reporter P) stat.2.

(** The values the flush compares for a field are [size_t] values. *)
Definition sized (R : UnifiedStatsReporter) (NAME : string) : Prop :=
  fields_in_range (default zeroed (FrontendCounters R))
  ∧ in_range (baseline R NAME).

(** While the program runs from [P], the value of the field never goes
    down. *)
Fixpoint never_decreases (Def : StatisticsDef) (NDEBUG : bool) (NAME : string)
    (cs : list Tracing.Cmd) (P : Tracing.Process) : Prop :=
  match cs with
  | [] => True
  | c :: cs =>
      match Tracing.exec Def NDEBUG c P with
      | Returns P' =>
          current (Tracing.reporter P) NAME ≤ current (Tracing.reporter P') NAME
          ∧ never_decreases Def NDEBUG NAME cs P'
      | Halts _ => True
      end
  end.

(** The addresses a program names. *)
Definition mentioned (cs : list Tracing.Cmd) : list nat :=
  concat (Tracing.addresses <$> cs).

(** [c] moves the tracer at [src] to [dst], by construction or by
    assignment. *)
Definition moves (c : Tracing.Cmd) (dst src : nat) : Prop :=
  c = Tracing.MoveConstruct dst src ∨ c = Tracing.MoveAssign dst src.

(** The failures counted in each domain; 0 where the domain is not
    allocated. *)
Definition failures_frontend (R : UnifiedStatsReporter) : Z :=
  field (default zeroed (FrontendCounters R)) "NumProcessFailures".

Definition failures_driver (R : UnifiedStatsReporter) : Z :=
  field (default zeroed (DriverCounters R)) "NumProcessFailures".

Definition counters_in_range (R : UnifiedStatsReporter) : Prop :=
  fields_in_range (default zeroed (FrontendCounters R))
  ∧ fields_in_range (default zeroed (DriverCounters R)).

(** Calling the setter of the exit status a second time fails, whatever the
    build. *)
Definition second_call_fails (NDEBUG : bool) (R : UnifiedStatsReporter)
    (first second : Z) : Prop :=
  ∀ R1, noteCurrentProcessExitStatus NDEBUG R first = Returns R1 →
        ∃ h, noteCurrentProcessExitStatus NDEBUG R1 second = Halts h.

(** A command, or a program, leaves the object at [a] alone. *)
Definition away_from (a : nat) (cs : list Tracing.Cmd) : Prop :=
  Forall (λ c, a ∉ Tracing.addresses c) cs.

End Reading.

(** ** Further readings of the state *)

Module Further.
Import Reporter Tracing Teardown Reading.

(** Every character of a string satisfies a test. *)
Fixpoint all_chars (p : ascii → bool) (s : string) : bool :=
  match s with
  | EmptyString => true
  | String c rest => p c && all_chars p rest
  end.

(** The characters of a cleaned name: letters, digits, dots and underscores;
    and those of an auxiliary name, which has hyphens as well. *)
Definition clean (c : ascii) : bool :=
  FileNames.keeps c || FileNames.is_underscore c.

Definition is_hyphen (c : ascii) : bool := bool_decide (c = "-"%char).

Definition is_slash (c : ascii) : bool := bool_decide (c = "/"%char).

Definition aux_char (c : ascii) : bool := clean c || is_hyphen c.

(** The members of a reporter that are set at construction. *)
Definition same_setup (R R' : UnifiedStatsReporter) : Prop :=
  StatsFilename R' = StatsFilename R
  ∧ TraceFilename R' = TraceFilename R
  ∧ StartedTime R' = StartedTime R
  ∧ SourceMgr R' = SourceMgr R
  ∧ ClangSourceMgr R' = ClangSourceMgr R.

(** What was allocated in [R] is allocated in [R'], and the two trace or do
    not trace alike. *)
Definition keeps_domains (R R' : UnifiedStatsReporter) : Prop :=
  (is_Some (FrontendCounters R) → is_Some (FrontendCounters R'))
  ∧ (is_Some (DriverCounters R) → is_Some (DriverCounters R'))
  ∧ (is_Some (LastTracedFrontendCounters R')
     ↔ is_Some (LastTracedFrontendCounters R)).

(** An event as the flush records them: under the printed name of a
    statistic of the table, with a delta that is a [size_t] other than 0,
    and with no live time when it is an entry. *)
Definition well_logged (Def : StatisticsDef) (E : FrontendStatsEvent.t) : Prop :=
  0 < FrontendStatsEvent.CounterDelta E < 2 ^ size_t_bits
  ∧ (∃ stat, stat ∈ FRONTEND_STATISTIC Def
             ∧ FrontendStatsEvent.CounterName E = label stat)
  ∧ (FrontendStatsEvent.IsEntry E = true → FrontendStatsEvent.LiveUSec E = 0).

(** The number of calls of the setter of the exit status in a program. *)
Fixpoint count_notes (cs : list Cmd) : nat :=
  match cs with
  | [] => O
  | NoteExitStatus _ :: cs => S (count_notes cs)
  | _ :: cs => count_notes cs
  end.

(** The value last recorded under a counter name, 0 when there is none. *)
Definition last_value (name : string) (events : list FrontendStatsEvent.t) : Z :=
  default 0 (FrontendStatsEvent.CounterValue <$> last (named name events)).

(** The rows of a trace, one after the other. *)
Definition trace_rows (W : World) (CSM : bool) (events : list FrontendStatsEvent.t)
  : string :=
  foldr (λ E rest, trace_row W CSM E +:+ rest) EmptyString events.


End Further.

(** ** A sample run *)

Module Sample.
Import Reporter Tracing Teardown Reading.

(** A table in the format of [Statistics.def]. *)
Definition table : StatisticsDef :=
  {| FRONTEND_STATISTIC :=
       [ ("Frontend", "NumSourceLines");
         ("Frontend", "NumSourceLinesPerSecond");
         ("Frontend", "NumProcessFailures");
         ("Sema", "NumTypesDeserialized") ]%string;
     DRIVER_STATISTIC :=
       [ "NumDriverJobsRun"; "ChildrenMaxRSS"; "NumProcessFailures" ]%string |}.

Definition lines : string * string := ("Frontend", "NumSourceLines")%string.

Definition at_time (us : Z) : TimeRecord := {| ProcessTimeUS := us |}.

(** A tracer constructed at [us], whose entry flush reads the clock one
    microsecond later. *)
Definition entering (us : Z) : Entry :=
  {| Saved := at_time us; Flushed := at_time (us + 1) |}.

Definition path_append (Directory name : string) : string :=
  Directory +:+ "/" +:+ name.

(** A reporter as its constructor leaves it. *)
Definition fresh_reporter (SM TraceEvents : bool) : UnifiedStatsReporter :=
  construct path_append 1000 7 1001 8 (at_time 10) "swift" "m-all-x86_64-o-Onone"
    "out" SM false TraceEvents.

Definition world (open : string → bool) : World :=
  {| HAVE_GETRUSAGE := true;
     ru_maxrss := 4096;
     ElapsedProcessTimeNonzero := true;
     SourceLinesPerSecond := λ n, n / 2;
     OpenSucceeds := open;
     printAllJSONValues := λ delim, delim +:+ "timers";
     PrintStatisticsJSON := λ _, "{}"%string;
     ClangNamedDeclName := λ _, None;
     ValueDeclFullName := λ _, Some "f"%string;
     SILFunctionName := λ _, "g"%string;
     ClangShortLoc := λ _ _, None;
     DeclRange := λ _, "a.swift:1:1"%string;
     ExprRange := λ _, "a.swift:2:1"%string;
     SILFunctionRange := λ _, "a.swift:3:1"%string |}.

Definition release : Build := {| NDEBUG := true; LLVM_ENABLE_STATS := false |}.
Definition debug : Build := {| NDEBUG := false; LLVM_ENABLE_STATS := false |}.

(** The result of a program, or the process it started from when it halts. *)
Definition result (cs : list Cmd) (P : Process) : Process :=
  match run table false cs P with
  | Returns P' => P'
  | Halts _ => P
  end.

(** A tracing process in which 5 lines were counted before any tracer. *)
Definition counted : Process :=
  result [Assign "NumSourceLines" 5] (start (fresh_reporter true true)).

(** A fresh tracing process, and the same with 100 lines counted. *)
Definition tracing : Process := start (fresh_reporter true true).

Definition parsed : Process := result [Assign "NumSourceLines" 100] tracing.

Definition parse : FrontendStatsTracer.t :=
  live_tracer "parse" (ADecl 1) (entering 20).

(** The scope of a tracer around 100 lines counted, from a fresh tracing
    process. *)
Definition traced : Process :=
  result (scope 0 "parse" (ADecl 1) (entering 20) (at_time 50)
            [Assign "NumSourceLines" 100]) tracing.

(** Every file opens but the one named. *)
Definition all_but (path : string) : string → bool :=
  λ p, bool_decide (p ≠ path).

End Sample.

(** * Properties *)

Module FileNamesFacts.
Import FileNames.

Lemma app_nil_l (t : string) : EmptyString +:+ t = t.
Proof. reflexivity. Qed.

Lemma app_cons (c : ascii) (s t : string) :
  String c s +:+ t = String c (s +:+ t).
Proof. reflexivity. Qed.

Lemma app_empty_r (s : string) : s +:+ EmptyString = s.
Proof.
  induction s as [|c s IH]; [done |]. by rewrite app_cons, IH.
Qed.

Lemma app_assoc (a b c : string) : (a +:+ b) +:+ c = a +:+ (b +:+ c).
Proof.
  induction a as [|x a IH]; [done |]. by rewrite !app_cons, IH.
Qed.

(** The accumulating loop appends the image of every character. *)
Lemma cleanName_loop_spec (n tmp : string) :
  cleanName_loop tmp n = tmp +:+ map_chars clean_char n.
Proof.
  revert tmp. induction n as [|c n IH]; intros tmp; simpl.
  - by rewrite app_empty_r.
  - unfold clean_char at 1.
    destruct (keeps c); by rewrite IH, app_assoc, app_cons, app_nil_l.
Qed.

Lemma cleanName_map (n : string) : cleanName n = map_chars clean_char n.
Proof. unfold cleanName. by rewrite cleanName_loop_spec. Qed.

Lemma keeps_not_underscore (c : ascii) : keeps c = true → is_underscore c = false.
Proof.
  intros Hk. unfold is_underscore. apply bool_decide_eq_false. intros ->.
  vm_compute in Hk. discriminate.
Qed.

Lemma underscore_not_kept : keeps underscore = false.
Proof. reflexivity. Qed.

Lemma get_map_chars (f : ascii → ascii) (s : string) (i : nat) :
  String.get i (map_chars f s) = f <$> String.get i s.
Proof.
  revert i. induction s as [|c s IH]; intros [|i]; simpl; done.
Qed.

Lemma length_map_chars (f : ascii → ascii) (s : string) :
  String.length (map_chars f s) = String.length s.
Proof. induction s as [|c s IH]; simpl; [done | by f_equal]. Qed.

Lemma count_underscores (s : string) :
  count_chars is_underscore (map_chars clean_char s)
  = count_chars (λ c, negb (keeps c)) s.
Proof.
  induction s as [|c s IH]; simpl; [done |]. rewrite IH. f_equal.
  unfold clean_char. destruct (keeps c) eqn:Hk; simpl.
  - by rewrite (keeps_not_underscore c Hk).
  - reflexivity.
Qed.

(** C8. [cleanName] returns a string of the length of its argument; each of
    its characters is a letter, a digit, a dot or an underscore; the letters,
    digits and dots of the argument stay where they are; and the underscores
    of the result are as many as the characters of the argument that are not
    a letter, a digit or a dot. *)
Theorem cleanName_sanitizes (s : string) :
  String.length (cleanName s) = String.length s
  ∧ (∀ i c, String.get i (cleanName s) = Some c →
            keeps c = true ∨ c = underscore)
  ∧ (∀ i c, String.get i s = Some c → keeps c = true →
            String.get i (cleanName s) = Some c)
  ∧ count_chars is_underscore (cleanName s)
    = count_chars (λ c, negb (keeps c)) s.
Proof.
  rewrite cleanName_map. split; [apply length_map_chars |].
  split; [| split].
  - intros i c. rewrite get_map_chars.
    destruct (String.get i s) as [d|]; simpl; [| done].
    intros [= <-]. unfold clean_char. destruct (keeps d) eqn:Hd; auto.
  - intros i c Hget Hk. rewrite get_map_chars, Hget. simpl.
    unfold clean_char. by rewrite Hk.
  - apply count_underscores.
Qed.

Example cleanName_triple :
  cleanName "x86_64-apple-macosx10.9" = "x86_64_apple_macosx10.9"%string.
Proof. reflexivity. Qed.

Example cleanName_path : cleanName "a/b c.swift" = "a_b_c.swift"%string.
Proof. reflexivity. Qed.

End FileNamesFacts.

(** ** The flush *)

Module FlushFacts.
Import Reporter Reading.

Lemma field_set_eq (C : Counters) (NAME : string) (v : Z) :
  field (set_field C NAME v) NAME = v.
Proof. unfold field, set_field. by rewrite lookup_insert_eq. Qed.

Lemma field_set_ne (C : Counters) (NAME NAME' : string) (v : Z) :
  NAME ≠ NAME' → field (set_field C NAME v) NAME' = field C NAME'.
Proof. intros. unfold field, set_field. by rewrite lookup_insert_ne. Qed.

Lemma field_zeroed (NAME : string) : field zeroed NAME = 0.
Proof. reflexivity. Qed.

Lemma synced_absent (stats : list (string * string)) (C Last : Counters)
    (NAME : string) :
  NAME ∉ stats.*2 → field (synced stats C Last) NAME = field Last NAME.
Proof.
  revert Last. induction stats as [|[TY N] stats IH]; intros Last Hn; [done |].
  apply not_elem_of_cons in Hn as [Hne Hn]. simpl in *.
  unfold synced in *. simpl. rewrite IH by done.
  case_bool_decide; [by rewrite field_set_ne | done].
Qed.

Lemma synced_present (stats : list (string * string)) (C Last : Counters)
    (NAME : string) :
  NoDup stats.*2 → NAME ∈ stats.*2 →
  field (synced stats C Last) NAME
  = if bool_decide (delta_of C Last NAME ≠ 0) then field C NAME
    else field Last NAME.
Proof.
  revert Last. induction stats as [|[TY N] stats IH]; intros Last Hnd Hin.
  - by apply elem_of_nil in Hin.
  - simpl in *. apply NoDup_cons in Hnd as [Hfresh Hnd].
    change (synced ((TY, N) :: stats) C Last)
      with (synced stats C
              (if bool_decide (delta_of C Last N ≠ 0)
               then set_field Last N (field C N) else Last)).
    destruct (decide (NAME = N)) as [->|Hne].
    + rewrite synced_absent by done.
      case_bool_decide; [by rewrite field_set_eq | done].
    + apply elem_of_cons in Hin as [? | Hin]; [done |].
      rewrite IH by done. unfold delta_of.
      destruct (bool_decide (wrap (field C N - field Last N) ≠ 0));
        [by rewrite field_set_ne by done | done].
Qed.

Lemma synced_unchanged (stats : list (string * string)) (C Last : Counters) :
  (∀ stat, stat ∈ stats → delta_of C Last stat.2 = 0) →
  synced stats C Last = Last.
Proof.
  induction stats as [|stat stats IH]; intros Hz; [done |].
  unfold synced in *. simpl.
  rewrite bool_decide_eq_false_2.
  - apply IH. intros s Hs. apply Hz. by right.
  - intros Hne. apply Hne, Hz. by left.
Qed.

Lemma changed_none (stats : list (string * string)) (C Last : Counters) :
  (∀ stat, stat ∈ stats → delta_of C Last stat.2 = 0) →
  changed stats C Last = [].
Proof.
  unfold changed. induction stats as [|stat stats IH]; intros Hz; [done |].
  rewrite filter_cons_False.
  - apply IH. intros s Hs. apply Hz. by right.
  - intros Hne. apply Hne, Hz. by left.
Qed.

Lemma changed_agree (stats : list (string * string)) (C L1 L2 : Counters) :
  (∀ stat, stat ∈ stats → field L1 stat.2 = field L2 stat.2) →
  changed stats C L1 = changed stats C L2.
Proof.
  unfold changed. induction stats as [|stat stats IH]; intros Hag; [done |].
  assert (Hd : delta_of C L1 stat.2 = delta_of C L2 stat.2).
  { unfold delta_of. rewrite (Hag stat); [done | by left]. }
  rewrite !filter_cons, IH by (intros; apply Hag; by right).
  repeat case_decide; congruence.
Qed.

Lemma events_agree (T : FrontendStatsTracer.t) (IsEntry : bool) (Now : TimeRecord)
    (stats : list (string * string)) (C L1 L2 : Counters) :
  (∀ stat, stat ∈ stats → field L1 stat.2 = field L2 stat.2) →
  event_of T IsEntry Now C L1 <$> stats = event_of T IsEntry Now C L2 <$> stats.
Proof.
  intros Hag. apply Forall_fmap_ext_1, Forall_forall. intros stat Hin.
  unfold event_of, delta_of. by rewrite Hag.
Qed.

(** The loop of the flush, statistic by statistic against the baseline that
    the earlier iterations left, appends the events of the statistics that
    differ from the baseline the flush started with. *)
Lemma trace_loop (T : FrontendStatsTracer.t) (IsEntry : bool) (Now : TimeRecord)
    (C : Counters) (stats : list (string * string))
    (Last : Counters) (Events : list FrontendStatsEvent.t) :
  NoDup stats.*2 →
  foldl (trace_statistic (ProcessTimeUS Now) (live_of IsEntry T Now) IsEntry T C)
    (Last, Events) stats
  = (synced stats C Last,
     Events ++ (event_of T IsEntry Now C Last <$> changed stats C Last)).
Proof.
  revert Last Events.
  induction stats as [|[TY N] stats IH]; intros Last Events Hnd.
  - simpl. by rewrite app_nil_r.
  - simpl in Hnd. apply NoDup_cons in Hnd as [Hfresh Hnd].
    assert (Hrest : ∀ v stat, stat ∈ stats →
              field (set_field Last N v) stat.2 = field Last stat.2).
    { intros v stat Hin. apply field_set_ne. intros ->. apply Hfresh.
      apply list_elem_of_fmap. by exists stat. }
    cbn [foldl]. unfold trace_statistic at 2. unfold changed.
    rewrite filter_cons. cbn [snd]. fold (delta_of C Last N).
    unfold synced. cbn [foldl snd]. fold (synced stats C).
    destruct (decide (delta_of C Last N ≠ 0)) as [Hd|Hd].
    + rewrite !bool_decide_eq_true_2 by done.
      rewrite IH by done. f_equal.
      rewrite fmap_cons, <- app_assoc. cbn [app]. do 2 f_equal.
      rewrite (changed_agree stats C _ Last) by (intros; by apply Hrest).
      apply events_agree. intros stat Hin. apply Hrest.
      by eapply list_elem_of_filter.
    + rewrite !bool_decide_eq_false_2 by done. by rewrite IH.
Qed.

(** What a flush of a tracing reporter leaves. *)
Lemma save_spec (Def : StatisticsDef) (R : UnifiedStatsReporter)
    (T : FrontendStatsTracer.t) (IsEntry : bool) (Now : TimeRecord)
    (Last : Counters) :
  NoDup (FRONTEND_STATISTIC Def).*2 →
  LastTracedFrontendCounters R = Some Last →
  saveAnyFrontendStatsEvents Def R T IsEntry Now
  = with_trace (getFrontendCounters R).1
      (Some (synced (FRONTEND_STATISTIC Def) (default zeroed (FrontendCounters R)) Last))
      (FrontendStatsEvents R ++ flush_events Def R T IsEntry Now).
Proof.
  intros Hnd HL. unfold saveAnyFrontendStatsEvents, flush_events. rewrite HL.
  pose proof (trace_loop T IsEntry Now) as Hloop. unfold live_of in Hloop.
  unfold getFrontendCounters.
  destruct (FrontendCounters R) as [C|] eqn:HC; cbn [fst default];
    by rewrite Hloop.
Qed.

Lemma save_disabled (Def : StatisticsDef) (R : UnifiedStatsReporter)
    (T : FrontendStatsTracer.t) (IsEntry : bool) (Now : TimeRecord) :
  LastTracedFrontendCounters R = None →
  saveAnyFrontendStatsEvents Def R T IsEntry Now = R.
Proof. intros HL. unfold saveAnyFrontendStatsEvents. by rewrite HL. Qed.

(** The flush leaves the rest of the reporter as it is; it allocates the
    frontend structure, where that is missing, with zeros. *)
Lemma save_frame (Def : StatisticsDef) (R : UnifiedStatsReporter)
    (T : FrontendStatsTracer.t) (IsEntry : bool) (Now : TimeRecord) :
  let R' := saveAnyFrontendStatsEvents Def R T IsEntry Now in
  currentProcessExitStatus R' = currentProcessExitStatus R
  ∧ currentProcessExitStatusSet R' = currentProcessExitStatusSet R
  ∧ DriverCounters R' = DriverCounters R
  ∧ default zeroed (FrontendCounters R') = default zeroed (FrontendCounters R).
Proof.
  unfold saveAnyFrontendStatsEvents.
  destruct (LastTracedFrontendCounters R) as [Last|]; [| done].
  unfold getFrontendCounters.
  destruct (FrontendCounters R) as [C|] eqn:HC;
    match goal with
    | |- context [foldl ?f ?a ?l] => destruct (foldl f a l) as [L' E']
    end; cbn; by rewrite ?HC.
Qed.

(** A flush appends, whatever the table. *)
Lemma trace_loop_appends (NowUS LiveUS : Z) (IsEntry : bool)
    (T : FrontendStatsTracer.t) (C : Counters) (stats : list (string * string))
    (Last : Counters) (Events : list FrontendStatsEvent.t) :
  ∃ new, (foldl (trace_statistic NowUS LiveUS IsEntry T C) (Last, Events) stats).2
         = Events ++ new.
Proof.
  revert Last Events. induction stats as [|[TY N] stats IH]; intros Last Events.
  - exists []. simpl. by rewrite app_nil_r.
  - cbn [foldl]. unfold trace_statistic at 2. case_bool_decide.
    + edestruct IH as [new ->]. eexists. by rewrite <- app_assoc.
    + apply IH.
Qed.

Lemma save_appends (Def : StatisticsDef) (R : UnifiedStatsReporter)
    (T : FrontendStatsTracer.t) (IsEntry : bool) (Now : TimeRecord) :
  FrontendStatsEvents R
    `prefix_of` FrontendStatsEvents (saveAnyFrontendStatsEvents Def R T IsEntry Now).
Proof.
  unfold saveAnyFrontendStatsEvents.
  destruct (LastTracedFrontendCounters R) as [Last|]; [| done].
  destruct (getFrontendCounters R) as [R1 C] eqn:HG.
  assert (FrontendStatsEvents R1 = FrontendStatsEvents R) as HE.
  { unfold getFrontendCounters in HG.
    destruct (FrontendCounters R); by inversion HG. }
  match goal with
  | |- context [foldl ?f ?a ?l] =>
      destruct (trace_loop_appends (ProcessTimeUS Now)
                  (if IsEntry then 0
                   else wrap (ProcessTimeUS Now
                              - ProcessTimeUS (FrontendStatsTracer.SavedTime T)))
                  IsEntry T C l Last (FrontendStatsEvents R1)) as [new Hnew];
      destruct (foldl f a l) as [L' E'] eqn:Hf
  end.
  cbn [snd] in Hnew. subst E'. cbn. rewrite HE. by exists new.
Qed.

Lemma NoDup_fmap_eq {A B : Type} (f : A → B) (l : list A) (x y : A) :
  NoDup (f <$> l) → x ∈ l → y ∈ l → f x = f y → x = y.
Proof.
  induction l as [|a l IH]; intros Hnd Hx Hy Hf; [by apply elem_of_nil in Hx |].
  rewrite fmap_cons in Hnd. apply NoDup_cons in Hnd as [Hfresh Hnd].
  apply elem_of_cons in Hx as [-> | Hx]; apply elem_of_cons in Hy as [-> | Hy].
  - done.
  - exfalso. apply Hfresh. rewrite Hf. by apply list_elem_of_fmap_2.
  - exfalso. apply Hfresh. rewrite <- Hf. by apply list_elem_of_fmap_2.
  - by apply IH.
Qed.

(** The events a flush records under the name of a statistic. *)
Lemma named_events (T : FrontendStatsTracer.t) (IsEntry : bool) (Now : TimeRecord)
    (C Last : Counters) (stats : list (string * string)) (stat : string * string) :
  NoDup stats →
  (∀ s, s ∈ stats → label s = label stat → s = stat) →
  named (label stat) (event_of T IsEntry Now C Last <$> stats)
  = if decide (stat ∈ stats) then [event_of T IsEntry Now C Last stat] else [].
Proof.
  unfold named. induction stats as [|s stats IH]; intros Hnd Hid.
  - rewrite decide_False; [done | apply not_elem_of_nil].
  - apply NoDup_cons in Hnd as [Hfresh Hnd].
    rewrite fmap_cons, filter_cons. cbn [event_of FrontendStatsEvent.CounterName].
    rewrite IH by (done || (intros; apply Hid; [by right | done])).
    destruct (decide (label s = label stat)) as [Hl|Hl].
    + assert (s = stat) as -> by (apply Hid; [by left | done]).
      rewrite (decide_False (P := stat ∈ stats)) by done.
      rewrite decide_True by (by left). done.
    + destruct (decide (stat ∈ stats)) as [Hin|Hni].
      * rewrite decide_True by (by right). done.
      * rewrite decide_False; [done |].
        intros [-> | ?]%elem_of_cons; done.
Qed.

Lemma named_flush_events (Def : StatisticsDef) (R : UnifiedStatsReporter)
    (T : FrontendStatsTracer.t) (IsEntry : bool) (Now : TimeRecord)
    (Last : Counters) (stat : string * string) :
  well_formed Def →
  LastTracedFrontendCounters R = Some Last →
  stat ∈ FRONTEND_STATISTIC Def →
  named (label stat) (flush_events Def R T IsEntry Now)
  = if decide (wrap (current R stat.2 - baseline R stat.2) ≠ 0)
    then [event_of T IsEntry Now (default zeroed (FrontendCounters R)) Last stat]
    else [].
Proof.
  intros [Hnames Hlabels] HL Hin.
  set (C := default zeroed (FrontendCounters R)).
  assert (wrap (current R stat.2 - baseline R stat.2) = delta_of C Last stat.2)
    as -> by (unfold baseline, current, delta_of; by rewrite HL).
  unfold flush_events. rewrite HL. fold C.
  assert (NoDup (FRONTEND_STATISTIC Def)) as Hnd by by eapply NoDup_fmap_1.
  rewrite named_events.
  - unfold changed. destruct (decide (delta_of C Last stat.2 ≠ 0)) as [Hd|Hd].
    + rewrite decide_True; [done |]. by apply list_elem_of_filter.
    + rewrite decide_False; [done |]. by intros [? _]%list_elem_of_filter.
  - by apply NoDup_filter.
  - intros s [_ Hs]%list_elem_of_filter Hlab.
    by eapply (NoDup_fmap_eq label).
Qed.

(** C2. A flush of a reporter that traces appends to the event list, for each
    statistic of the frontend table, an event if and only if the current
    value minus the baseline is not zero; the event carries that difference,
    the current value and the [IsEntry] flag of the flush, with a live time
    of 0 on entry, and the baseline of the statistic becomes the current
    value.  A statistic whose difference is zero gets no event and keeps its
    baseline, and when every difference is zero the event list and the
    baseline stay as they were. *)
Theorem flush_records_each_change (Def : StatisticsDef)
    (R : UnifiedStatsReporter) (T : FrontendStatsTracer.t) (IsEntry : bool)
    (Now : TimeRecord) (stat : string * string) :
  well_formed Def →
  is_Some (LastTracedFrontendCounters R) →
  stat ∈ FRONTEND_STATISTIC Def →
  let R' := saveAnyFrontendStatsEvents Def R T IsEntry Now in
  let delta := wrap (current R stat.2 - baseline R stat.2) in
  ∃ new,
    FrontendStatsEvents R' = FrontendStatsEvents R ++ new
    ∧ (delta ≠ 0 →
       ∃ E, named (label stat) new = [E]
            ∧ FrontendStatsEvent.CounterDelta E = delta
            ∧ FrontendStatsEvent.CounterValue E = current R stat.2
            ∧ FrontendStatsEvent.IsEntry E = IsEntry
            ∧ (IsEntry = true → FrontendStatsEvent.LiveUSec E = 0)
            ∧ baseline R' stat.2 = current R stat.2)
    ∧ (delta = 0 →
       named (label stat) new = [] ∧ baseline R' stat.2 = baseline R stat.2)
    ∧ ((∀ s, s ∈ FRONTEND_STATISTIC Def →
             wrap (current R s.2 - baseline R s.2) = 0) →
       FrontendStatsEvents R' = FrontendStatsEvents R
       ∧ LastTracedFrontendCounters R' = LastTracedFrontendCounters R).
Proof.
  intros Hwf [Last HL] Hin R' delta.
  assert (Hnames : NoDup (FRONTEND_STATISTIC Def).*2) by apply Hwf.
  subst R'. rewrite (save_spec Def R T IsEntry Now Last Hnames HL).
  exists (flush_events Def R T IsEntry Now).
  cbn [with_trace FrontendStatsEvents LastTracedFrontendCounters].
  rewrite (named_flush_events Def R T IsEntry Now Last stat Hwf HL Hin).
  fold delta.
  assert (Hbase : ∀ L, baseline (with_trace (getFrontendCounters R).1 (Some L)
                                   (FrontendStatsEvents R
                                    ++ flush_events Def R T IsEntry Now)) stat.2
                       = field L stat.2) by done.
  rewrite Hbase, synced_present by (done || by apply list_elem_of_fmap_2).
  assert (Hd : delta_of (default zeroed (FrontendCounters R)) Last stat.2 = delta).
  { unfold delta, delta_of, current, baseline. by rewrite HL. }
  rewrite Hd.
  split; [done |]. split; [| split].
  - intros Hnz. rewrite decide_True by done. rewrite bool_decide_eq_true_2 by done.
    eexists. split; [done |]. cbn. rewrite Hd.
    repeat split; try done. intros ->. done.
  - intros Hz. rewrite decide_False by (by intros ?).
    rewrite bool_decide_eq_false_2 by (by intros ?).
    split; [done |]. unfold baseline. by rewrite HL.
  - intros Hall. unfold flush_events. rewrite HL.
    assert (Hzero : ∀ s, s ∈ FRONTEND_STATISTIC Def →
              delta_of (default zeroed (FrontendCounters R)) Last s.2 = 0).
    { intros s Hs. specialize (Hall s Hs).
      unfold current, baseline in Hall. by rewrite HL in Hall. }
    rewrite synced_unchanged by done. split; [| done].
    rewrite changed_none by done. by rewrite app_nil_r.
Qed.

End FlushFacts.

(** ** Programs around the reporter *)

Module ProcessFacts.
Import Reporter Tracing Reading FlushFacts.

(** Case analysis on a command that returns. *)
Ltac exec_cases H :=
  unfold exec, fresh, at_address, new_tracer in H;
  repeat match type of H with
    | context [tracers ?P !! ?t] =>
        let E := fresh "Hlook" in destruct (tracers P !! t) eqn:E
    | context [<[?t := ?O]> ?m !! ?a] =>
        let E := fresh "Hlook" in destruct (<[t := O]> m !! a) eqn:E
    | context [bool_decide ?Q] => destruct (bool_decide Q)
    | context [noteCurrentProcessExitStatus ?n ?R ?s] =>
        let E := fresh "Hnote" in
        destruct (noteCurrentProcessExitStatus n R s) eqn:E
    | context [if ?b then _ else _] => destruct b
    end;
  simplify_eq.

Section Run.

Variable Def : StatisticsDef.
Variable NDEBUG : bool.

Lemma extends_refl (P : Process) : extends P P [].
Proof. split; [by rewrite app_nil_r |]. unfold events_of. by rewrite app_nil_r. Qed.

Lemma extends_trans (P1 P2 P3 : Process) (n1 n2 : list FlushCall) :
  extends P1 P2 n1 → extends P2 P3 n2 → extends P1 P3 (n1 ++ n2).
Proof.
  intros [Hc1 He1] [Hc2 He2]. split.
  - by rewrite Hc2, Hc1, <- app_assoc.
  - rewrite He2, He1. unfold events_of. by rewrite fmap_app, concat_app, <- app_assoc.
Qed.

Lemma extends_same (P P' : Process) :
  calls P' = calls P →
  FrontendStatsEvents (reporter P') = FrontendStatsEvents (reporter P) →
  extends P P' [].
Proof.
  intros Hc He. split; [by rewrite Hc, app_nil_r |].
  unfold events_of. by rewrite He, app_nil_r.
Qed.

Lemma flush_extends (t : nat) (T : FrontendStatsTracer.t) (IsEntry : bool)
    (Now : TimeRecord) (P0 P : Process) :
  calls P = calls P0 → reporter P = reporter P0 →
  extends P0 (flush Def t T IsEntry Now P) [call_of Def t T IsEntry Now P0].
Proof.
  intros Hc Hr. unfold call_of. rewrite <- Hr.
  split; [cbn; by rewrite Hc |]. cbn.
  destruct (save_appends Def (reporter P) T IsEntry Now) as [new Hnew].
  rewrite Hnew, drop_app_length, app_nil_r. by rewrite Hr.
Qed.

Lemma mutate_frontend_eq (f : Counters → Counters) (P : Process) :
  mutate_frontend f P
  = with_reporter P
      (with_FrontendCounters (reporter P)
         (Some (f (default zeroed (FrontendCounters (reporter P)))))).
Proof.
  unfold mutate_frontend, getFrontendCounters.
  by destruct (FrontendCounters (reporter P)).
Qed.

Lemma mutate_driver_eq (f : Counters → Counters) (P : Process) :
  mutate_driver f P
  = with_reporter P
      (with_DriverCounters (reporter P)
         (Some (f (default zeroed (DriverCounters (reporter P)))))).
Proof.
  unfold mutate_driver, getDriverCounters.
  by destruct (DriverCounters (reporter P)).
Qed.

Lemma wrap_in_range (z : Z) : in_range (wrap z).
Proof. unfold in_range, wrap. apply Z.mod_pos_bound. done. Qed.

Lemma plus_plus_keeps_range (NAME : string) : keeps_range (plus_plus NAME).
Proof.
  intros C HC N. unfold plus_plus.
  destruct (decide (NAME = N)) as [->|Hne].
  - rewrite field_set_eq. apply wrap_in_range.
  - by rewrite field_set_ne.
Qed.

Lemma store_keeps_range (NAME : string) (v : Z) : keeps_range (store NAME v).
Proof.
  intros C HC N. unfold store.
  destruct (decide (NAME = N)) as [->|Hne].
  - rewrite field_set_eq. apply wrap_in_range.
  - by rewrite field_set_ne.
Qed.

(** The two moves leave the members of [other] at [t] and release
    [other]; when [t] and [other] are one object, that object is released. *)
Lemma exec_MoveConstruct (t other : nat) (O : FrontendStatsTracer.t) (P : Process) :
  tracers P !! t = None → tracers P !! other = Some O →
  exec Def NDEBUG (MoveConstruct t other) P
  = Returns (with_tracers P (<[other := released O]> (<[t := O]> (tracers P)))).
Proof.
  intros Ht Ho. unfold exec, fresh, at_address. rewrite Ht, Ho. cbn.
  rewrite lookup_insert_ne by congruence. by rewrite Ho.
Qed.

Lemma exec_MoveAssign (t other : nat) (T O : FrontendStatsTracer.t) (P : Process) :
  tracers P !! t = Some T → tracers P !! other = Some O →
  exec Def NDEBUG (MoveAssign t other) P
  = Returns (with_tracers P (<[other := released O]> (<[t := O]> (tracers P)))).
Proof.
  intros Ht Ho. unfold exec, at_address. rewrite Ht, Ho. cbn.
  destruct (decide (t = other)) as [->|Hne].
  - by rewrite lookup_insert_eq.
  - rewrite lookup_insert_ne by done. by rewrite Ho.
Qed.

Lemma note_returns (R R' : UnifiedStatsReporter) (status : Z) :
  noteCurrentProcessExitStatus NDEBUG R status = Returns R' →
  R' = with_exit R true status.
Proof.
  unfold noteCurrentProcessExitStatus.
  destruct (assert _ _ _); by intros [= <-].
Qed.

(** What a command does to the reporter. *)
Lemma exec_reporter (c : Cmd) (P P' : Process) :
  exec Def NDEBUG c P = Returns P' →
  reporter_step Def (reporter P) (reporter P').
Proof.
  intros H. destruct c; exec_cases H; cbn;
    rewrite ?mutate_frontend_eq, ?mutate_driver_eq; cbn;
    try (by constructor).
  - apply step_frontend, plus_plus_keeps_range.
  - apply step_frontend, store_keeps_range.
  - apply step_driver, plus_plus_keeps_range.
  - apply step_driver, store_keeps_range.
  - apply note_returns in Hnote as ->. constructor.
Qed.

(** The calls a command makes are made by an object it names; the objects
    it does not name stay as they are. *)
Lemma exec_extends (c : Cmd) (P P' : Process) :
  exec Def NDEBUG c P = Returns P' →
  ∃ new, extends P P' new
         ∧ Forall (λ k, caller k ∈ addresses c) new
         ∧ ∀ a, a ∉ addresses c → tracers P' !! a = tracers P !! a.
Proof.
  intros H. destruct c; exec_cases H; cbn [addresses];
    rewrite ?mutate_frontend_eq, ?mutate_driver_eq;
    try (eexists; split; [by apply flush_extends |];
         split; [repeat constructor; cbn; set_solver |];
         intros a Ha; cbn;
         rewrite ?lookup_delete_ne, ?lookup_insert_ne by set_solver; done);
    try (exists []; split; [by apply extends_same |];
         split; [constructor |];
         intros a Ha; cbn;
         rewrite ?lookup_delete_ne, ?lookup_insert_ne by set_solver; done).
  exists []. split; [| split; [constructor | done]].
  apply note_returns in Hnote as ->. by apply extends_same.
Qed.

Lemma run_app (cs1 cs2 : list Cmd) (P : Process) :
  run Def NDEBUG (cs1 ++ cs2) P
  = match run Def NDEBUG cs1 P with
    | Returns P1 => run Def NDEBUG cs2 P1
    | Halts h => Halts h
    end.
Proof.
  revert P. induction cs1 as [|c cs1 IH]; intros P; [done |].
  cbn. destruct (exec Def NDEBUG c P); [apply IH | done].
Qed.

Lemma run_cons (c : Cmd) (cs : list Cmd) (P P1 : Process) :
  exec Def NDEBUG c P = Returns P1 →
  run Def NDEBUG (c :: cs) P = run Def NDEBUG cs P1.
Proof. intros H. cbn. by rewrite H. Qed.

(** A program only appends to the event list, through the calls of its
    tracers. *)
Lemma run_extends (cs : list Cmd) (P P' : Process) :
  run Def NDEBUG cs P = Returns P' → ∃ new, extends P P' new.
Proof.
  revert P. induction cs as [|c cs IH]; intros P H.
  - injection H as <-. exists []. apply extends_refl.
  - cbn in H. destruct (exec Def NDEBUG c P) as [P1|] eqn:Hc; [| done].
    destruct (exec_extends _ _ _ Hc) as (n1 & H1 & _).
    destruct (IH _ H) as (n2 & H2).
    exists (n1 ++ n2). by eapply extends_trans.
Qed.

Lemma run_appends (cs : list Cmd) (P P' : Process) :
  run Def NDEBUG cs P = Returns P' →
  FrontendStatsEvents (reporter P) `prefix_of` FrontendStatsEvents (reporter P').
Proof.
  intros H. destruct (run_extends _ _ _ H) as (new & _ & He).
  rewrite He. by eexists.
Qed.

(** A program that does not name [a] leaves the object at [a] as it is, and
    none of the calls it makes is a call of [a]. *)
Lemma run_away (a : nat) (cs : list Cmd) (P P' : Process) :
  away_from a cs →
  run Def NDEBUG cs P = Returns P' →
  tracers P' !! a = tracers P !! a
  ∧ ∃ new, extends P P' new ∧ flushes_of a new = [].
Proof.
  revert P. induction cs as [|c cs IH]; intros P Ha H.
  - injection H as <-. split; [done |]. exists []. split; [apply extends_refl | done].
  - apply Forall_cons in Ha as [Hc Ha]. cbn in H.
    destruct (exec Def NDEBUG c P) as [P1|] eqn:Hx; [| done].
    destruct (exec_extends _ _ _ Hx) as (n1 & H1 & Hby & Hfr).
    destruct (IH _ Ha H) as (Ht & n2 & H2 & Hn2).
    split; [by rewrite Ht, Hfr |].
    exists (n1 ++ n2). split; [by eapply extends_trans |].
    unfold flushes_of in *. rewrite filter_app, Hn2, app_nil_r.
    clear -Hby Hc. induction Hby as [|k n1 Hk Hby IHn]; [done |].
    rewrite filter_cons_False; [done |]. intros <-. done.
Qed.

(** Commands that only change counters make no call and keep the objects,
    the event list and the baseline. *)
Lemma run_mutations (cs : list Cmd) (P : Process) :
  Forall (λ c, is_mutation c = true) cs →
  ∃ P', run Def NDEBUG cs P = Returns P'
        ∧ calls P' = calls P
        ∧ tracers P' = tracers P
        ∧ FrontendStatsEvents (reporter P') = FrontendStatsEvents (reporter P)
        ∧ LastTracedFrontendCounters (reporter P')
          = LastTracedFrontendCounters (reporter P).
Proof.
  revert P. induction cs as [|c cs IH]; intros P Hm.
  - by exists P.
  - apply Forall_cons in Hm as [Hc Hm].
    assert (∃ P1, exec Def NDEBUG c P = Returns P1
                  ∧ calls P1 = calls P ∧ tracers P1 = tracers P
                  ∧ FrontendStatsEvents (reporter P1)
                    = FrontendStatsEvents (reporter P)
                  ∧ LastTracedFrontendCounters (reporter P1)
                    = LastTracedFrontendCounters (reporter P))
      as (P1 & Hx & Hc1 & Ht1 & He1 & Hl1).
    { destruct c; try discriminate Hc; cbn;
        rewrite ?mutate_frontend_eq, ?mutate_driver_eq; by eexists. }
    destruct (IH P1 Hm) as (P' & Hr & Hc' & Ht' & He' & Hl').
    exists P'. rewrite (run_cons _ _ _ _ Hx).
    repeat split; congruence.
Qed.

Lemma run_steps (cs : list Cmd) (P P' : Process) :
  run Def NDEBUG cs P = Returns P' →
  rtc (reporter_step Def) (reporter P) (reporter P').
Proof.
  revert P. induction cs as [|c cs IH]; intros P H.
  - by injection H as <-.
  - cbn in H. destruct (exec Def NDEBUG c P) as [P1|] eqn:Hc; [| done].
    eapply rtc_l; [by eapply exec_reporter | by apply IH].
Qed.

(** A flush of a tracing reporter, seen from the process. *)
Lemma flush_spec (t : nat) (T : FrontendStatsTracer.t) (IsEntry : bool)
    (Now : TimeRecord) (P0 P : Process) :
  NoDup (FRONTEND_STATISTIC Def).*2 →
  is_Some (LastTracedFrontendCounters (reporter P0)) →
  calls P = calls P0 → reporter P = reporter P0 →
  let new := flush_events Def (reporter P0) T IsEntry Now in
  let P' := flush Def t T IsEntry Now P in
  FrontendStatsEvents (reporter P') = FrontendStatsEvents (reporter P0) ++ new
  ∧ calls P' = calls P0 ++ [ {| caller := t; atEntry := IsEntry; appended := new |} ]
  ∧ tracers P' = tracers P
  ∧ is_Some (LastTracedFrontendCounters (reporter P')).
Proof.
  intros Hnd [Last HL] Hc Hr. cbn. rewrite Hr, Hc.
  rewrite (save_spec Def _ T IsEntry Now Last Hnd HL). cbn.
  by rewrite drop_app_length.
Qed.

Lemma exec_GetStatsTracer (t : nat) (EventName : string) (E : TraceEntity)
    (Now : Entry) (P : Process) :
  is_Some (LastTracedFrontendCounters (reporter P)) →
  tracers P !! t = None →
  exec Def NDEBUG (GetStatsTracer t EventName E Now) P
  = Returns (flush Def t (live_tracer EventName E Now) true (Flushed Now)
               (with_tracers P (<[t := live_tracer EventName E Now]> (tracers P)))).
Proof.
  intros HL Ht. unfold exec, fresh. rewrite Ht.
  by rewrite bool_decide_eq_true_2.
Qed.

Lemma exec_Destroy (t : nat) (T : FrontendStatsTracer.t) (Now : TimeRecord)
    (P : Process) :
  tracers P !! t = Some T →
  exec Def NDEBUG (Destroy t Now) P
  = Returns (let P1 := if FrontendStatsTracer.Reporter T
                       then flush Def t T false Now P else P in
             with_tracers P1 (delete t (tracers P1))).
Proof. intros Ht. unfold exec, at_address. by rewrite Ht. Qed.

Lemma exec_Destroy_live (t : nat) (T : FrontendStatsTracer.t) (Now : TimeRecord)
    (P : Process) :
  tracers P !! t = Some T → FrontendStatsTracer.Reporter T = true →
  exec Def NDEBUG (Destroy t Now) P
  = Returns (with_tracers (flush Def t T false Now P) (delete t (tracers P))).
Proof. intros Ht HT. rewrite (exec_Destroy t T) by done. by rewrite HT. Qed.

Lemma exec_Destroy_inert (t : nat) (T : FrontendStatsTracer.t) (Now : TimeRecord)
    (P : Process) :
  tracers P !! t = Some T → FrontendStatsTracer.Reporter T = false →
  exec Def NDEBUG (Destroy t Now) P
  = Returns (with_tracers P (delete t (tracers P))).
Proof. intros Ht HT. rewrite (exec_Destroy t T) by done. by rewrite HT. Qed.

(** C6. The event list only grows, and the events of two nested tracers are
    in the order of their four flushes: with a tracing reporter, for the
    scope of [A] around the scope of [B] and changes of counters in between,
    the program returns, its four calls are made in the order [A] entry,
    [B] entry, [B] exit, [A] exit, and the event list ends with the events
    of these four flushes in that order. *)
Theorem nested_tracers_log_in_order (P : Process) (A B : nat)
    (nameA nameB : string) (EA EB : TraceEntity)
    (beginA beginB : Entry) (endB endA : TimeRecord) (m1 m2 m3 : list Cmd) :
  NoDup (FRONTEND_STATISTIC Def).*2 →
  is_Some (LastTracedFrontendCounters (reporter P)) →
  tracers P !! A = None → tracers P !! B = None → A ≠ B →
  Forall (λ c, is_mutation c = true) m1 →
  Forall (λ c, is_mutation c = true) m2 →
  Forall (λ c, is_mutation c = true) m3 →
  (∀ cs Q Q', run Def NDEBUG cs Q = Returns Q' →
              FrontendStatsEvents (reporter Q)
                `prefix_of` FrontendStatsEvents (reporter Q'))
  ∧ ∃ P1 P2 P3 P4,
      run Def NDEBUG (GetStatsTracer A nameA EA beginA :: m1) P = Returns P1
      ∧ run Def NDEBUG (GetStatsTracer B nameB EB beginB :: m2) P1 = Returns P2
      ∧ run Def NDEBUG (Destroy B endB :: m3) P2 = Returns P3
      ∧ run Def NDEBUG [Destroy A endA] P3 = Returns P4
      ∧ run Def NDEBUG
          (nested A B nameA nameB EA EB beginA beginB endB endA m1 m2 m3) P
        = Returns P4
      ∧ let TA := live_tracer nameA EA beginA in
        let TB := live_tracer nameB EB beginB in
        let entryA := flush_events Def (reporter P) TA true (Flushed beginA) in
        let entryB := flush_events Def (reporter P1) TB true (Flushed beginB) in
        let exitB := flush_events Def (reporter P2) TB false endB in
        let exitA := flush_events Def (reporter P3) TA false endA in
        FrontendStatsEvents (reporter P4)
        = FrontendStatsEvents (reporter P) ++ entryA ++ entryB ++ exitB ++ exitA
        ∧ calls P4
          = calls P
            ++ [ {| caller := A; atEntry := true; appended := entryA |};
                 {| caller := B; atEntry := true; appended := entryB |};
                 {| caller := B; atEntry := false; appended := exitB |};
                 {| caller := A; atEntry := false; appended := exitA |} ].
Proof.
  intros Hnd HL HA HB Hne Hm1 Hm2 Hm3. split; [apply run_appends |].
  set (TA := live_tracer nameA EA beginA).
  set (TB := live_tracer nameB EB beginB).
  (* A.begin *)
  pose proof (exec_GetStatsTracer A nameA EA beginA P HL HA) as HxA. fold TA in HxA.
  set (Pa := flush Def A TA true (Flushed beginA) _) in HxA.
  destruct (flush_spec A TA true (Flushed beginA) P
              (with_tracers P (<[A := TA]> (tracers P))) Hnd HL eq_refl eq_refl)
    as (HeA & HcA & HtA & HlA). fold Pa in HeA, HcA, HtA, HlA.
  change (tracers Pa = <[A := TA]> (tracers P)) in HtA.
  destruct (run_mutations m1 Pa Hm1) as (P1 & Hr1 & Hc1 & Ht1 & He1 & Hl1).
  (* B.begin *)
  assert (HL1 : is_Some (LastTracedFrontendCounters (reporter P1)))
    by (by rewrite Hl1).
  assert (HB1 : tracers P1 !! B = None).
  { rewrite Ht1, HtA, lookup_insert_ne by done. done. }
  pose proof (exec_GetStatsTracer B nameB EB beginB P1 HL1 HB1) as HxB. fold TB in HxB.
  set (Pb := flush Def B TB true (Flushed beginB) _) in HxB.
  destruct (flush_spec B TB true (Flushed beginB) P1
              (with_tracers P1 (<[B := TB]> (tracers P1))) Hnd HL1 eq_refl eq_refl)
    as (HeB & HcB & HtB & HlB). fold Pb in HeB, HcB, HtB, HlB.
  change (tracers Pb = <[B := TB]> (tracers P1)) in HtB.
  destruct (run_mutations m2 Pb Hm2) as (P2 & Hr2 & Hc2 & Ht2 & He2 & Hl2).
  (* B.end *)
  assert (HL2 : is_Some (LastTracedFrontendCounters (reporter P2)))
    by (by rewrite Hl2).
  assert (HB2 : tracers P2 !! B = Some TB).
  { rewrite Ht2, HtB. apply lookup_insert_eq. }
  pose proof (exec_Destroy_live B TB endB P2 HB2 eq_refl) as HxB'.
  destruct (flush_spec B TB false endB P2 P2 Hnd HL2 eq_refl eq_refl)
    as (HeB' & HcB' & HtB' & HlB').
  set (Pb' := with_tracers _ _) in HxB'.
  destruct (run_mutations m3 Pb' Hm3) as (P3 & Hr3 & Hc3 & Ht3 & He3 & Hl3).
  (* A.end *)
  assert (HL3 : is_Some (LastTracedFrontendCounters (reporter P3)))
    by (by rewrite Hl3).
  assert (HA3 : tracers P3 !! A = Some TA).
  { rewrite Ht3. subst Pb'. cbn. rewrite lookup_delete_ne by done.
    rewrite Ht2, HtB, lookup_insert_ne by done.
    rewrite Ht1, HtA. apply lookup_insert_eq. }
  pose proof (exec_Destroy_live A TA endA P3 HA3 eq_refl) as HxA'.
  destruct (flush_spec A TA false endA P3 P3 Hnd HL3 eq_refl eq_refl)
    as (HeA' & HcA' & HtA' & HlA').
  set (Pa' := with_tracers _ _) in HxA'.
  exists P1, P2, P3, Pa'.
  assert (R1 : run Def NDEBUG (GetStatsTracer A nameA EA beginA :: m1) P = Returns P1)
    by (by rewrite (run_cons _ _ _ _ HxA)).
  assert (R2 : run Def NDEBUG (GetStatsTracer B nameB EB beginB :: m2) P1 = Returns P2)
    by (by rewrite (run_cons _ _ _ _ HxB)).
  assert (R3 : run Def NDEBUG (Destroy B endB :: m3) P2 = Returns P3)
    by (by rewrite (run_cons _ _ _ _ HxB')).
  assert (R4 : run Def NDEBUG [Destroy A endA] P3 = Returns Pa')
    by (by rewrite (run_cons _ _ _ _ HxA')).
  split; [done |]. split; [done |]. split; [done |]. split; [done |].
  split.
  { unfold nested.
    change (GetStatsTracer A nameA EA beginA :: m1 ++ ?rest)
      with ((GetStatsTracer A nameA EA beginA :: m1) ++ rest).
    rewrite run_app, R1.
    change (GetStatsTracer B nameB EB beginB :: m2 ++ ?rest)
      with ((GetStatsTracer B nameB EB beginB :: m2) ++ rest).
    rewrite run_app, R2.
    change (Destroy B endB :: m3 ++ ?rest)
      with ((Destroy B endB :: m3) ++ rest).
    by rewrite run_app, R3. }
  cbn zeta. subst Pa'. cbn [reporter calls with_tracers].
  rewrite HeA', HcA', He3, Hc3. subst Pb'. cbn [reporter calls with_tracers].
  rewrite HeB', HcB', He2, Hc2, HeB, HcB, He1, Hc1, HeA, HcA.
  by rewrite <- !app_assoc.
Qed.

(** The calls of a program are made by objects it names. *)
Lemma run_calls (cs : list Cmd) (P P' : Process) :
  run Def NDEBUG cs P = Returns P' →
  ∃ new, extends P P' new ∧ Forall (λ k, caller k ∈ mentioned cs) new.
Proof.
  revert P. induction cs as [|c cs IH]; intros P H.
  - injection H as <-. exists []. split; [apply extends_refl | constructor].
  - cbn in H. destruct (exec Def NDEBUG c P) as [P1|] eqn:Hx; [| done].
    destruct (exec_extends _ _ _ Hx) as (n1 & H1 & Hby & _).
    destruct (IH _ H) as (n2 & H2 & Hn2).
    exists (n1 ++ n2). split; [by eapply extends_trans |].
    unfold mentioned. rewrite fmap_cons, concat_cons.
    apply Forall_app. split.
    + eapply Forall_impl; [done |]. cbn. intros k Hk.
      apply elem_of_app. by left.
    + eapply Forall_impl; [done |]. cbn. intros k Hk.
      apply elem_of_app. by right.
Qed.

Lemma mentioned_mutations (cs : list Cmd) :
  Forall (λ c, is_mutation c = true) cs → mentioned cs = [].
Proof.
  induction 1 as [|c cs Hc _ IH]; [done |].
  unfold mentioned in *. rewrite fmap_cons, concat_cons, IH.
  by destruct c.
Qed.

Lemma away_not_mentioned (a : nat) (cs : list Cmd) :
  away_from a cs → a ∉ mentioned cs.
Proof.
  induction 1 as [|c cs Hc _ IH]; [apply not_elem_of_nil |].
  unfold mentioned in *. rewrite fmap_cons, concat_cons.
  by apply not_elem_of_app.
Qed.

Lemma no_flushes_of (a : nat) (l : list nat) (new : list FlushCall) :
  a ∉ l → Forall (λ k, caller k ∈ l) new → flushes_of a new = [].
Proof.
  intros Ha. unfold flushes_of. induction 1 as [|k new Hk _ IH]; [done |].
  rewrite filter_cons_False; [done |]. by intros <-.
Qed.

(** The lifetime of an inert tracer at [a]: once the object at [a] is
    inert, a program that leaves it alone and its release make no call of
    [a], and the release changes neither the reporter nor the calls. *)
Lemma inert_lifetime (a : nat) (T : FrontendStatsTracer.t) (body : list Cmd)
    (End : TimeRecord) (P P1 : Process) :
  tracers P !! a = Some T → FrontendStatsTracer.Reporter T = false →
  away_from a body →
  run Def NDEBUG body P = Returns P1 →
  ∃ P2 new,
    run Def NDEBUG [Destroy a End] P1 = Returns P2
    ∧ reporter P2 = reporter P1 ∧ calls P2 = calls P1
    ∧ extends P P1 new ∧ flushes_of a new = []
    ∧ (Forall (λ c, is_mutation c = true) body → new = []).
Proof.
  intros Ha HT Haway Hrun.
  destruct (run_away a body P P1 Haway Hrun) as (Ht & _).
  destruct (run_calls body P P1 Hrun) as (new & Hext & Hby).
  rewrite Ha in Ht.
  eexists _, new. split.
  { cbn [run]. by rewrite (exec_Destroy_inert a T End P1 Ht HT). }
  split; [done |]. split; [done |]. split; [done |]. split.
  - eapply no_flushes_of; [by apply away_not_mentioned | done].
  - intros Hm. rewrite (mentioned_mutations body Hm) in Hby.
    destruct Hby as [|k new Hk _]; [done |]. by apply elem_of_nil in Hk.
Qed.

(** After a move between two objects the members of the source are at
    the destination and the source is released. *)
Lemma exec_moves (c : Cmd) (dst src : nat) (T : FrontendStatsTracer.t)
    (P P1 : Process) :
  moves c dst src → dst ≠ src →
  tracers P !! src = Some T →
  exec Def NDEBUG c P = Returns P1 →
  P1 = with_tracers P (<[src := released T]> (<[dst := T]> (tracers P))).
Proof.
  intros [-> | ->] Hne Hs Hx.
  - destruct (tracers P !! dst) as [D|] eqn:Hd.
    + unfold exec, fresh in Hx. by rewrite Hd in Hx.
    + rewrite (exec_MoveConstruct dst src T P Hd Hs) in Hx. by injection Hx.
  - destruct (tracers P !! dst) as [D|] eqn:Hd.
    + rewrite (exec_MoveAssign dst src D T P Hd Hs) in Hx. by injection Hx.
    + unfold exec, at_address in Hx. by rewrite Hd in Hx.
Qed.

(** C7. A default-constructed tracer and a tracer that was moved from, by
    construction or by assignment, are inert: over their lifetime, around
    any program that leaves them alone, they make no call of the flush,
    neither at creation nor at release, so that no event is theirs, and
    when the program only changes counters nothing is appended at all.
    After a move of a live tracer to another object, the release of the
    destination makes the exit flush, with the members moved. *)
Theorem inert_tracers_never_flush :
  (∀ (P P1 : Process) (a : nat) (body : list Cmd) (End : TimeRecord),
     tracers P !! a = None →
     away_from a body →
     run Def NDEBUG (NewInertTracer a :: body) P = Returns P1 →
     ∃ P2 new,
       run Def NDEBUG [Destroy a End] P1 = Returns P2
       ∧ reporter P2 = reporter P1 ∧ calls P2 = calls P1
       ∧ extends P P1 new ∧ flushes_of a new = []
       ∧ (Forall (λ c, is_mutation c = true) body → new = []))
  ∧ (∀ (P P1 : Process) (c : Cmd) (dst src : nat) (T : FrontendStatsTracer.t)
       (body : list Cmd) (End : TimeRecord),
       moves c dst src → dst ≠ src →
       tracers P !! src = Some T →
       away_from src body →
       run Def NDEBUG (c :: body) P = Returns P1 →
       ∃ P2 new,
         run Def NDEBUG [Destroy src End] P1 = Returns P2
         ∧ reporter P2 = reporter P1 ∧ calls P2 = calls P1
         ∧ extends P P1 new ∧ flushes_of src new = []
         ∧ (Forall (λ c, is_mutation c = true) body → new = []))
  ∧ (∀ (P P1 : Process) (c : Cmd) (dst src : nat) (T : FrontendStatsTracer.t)
       (body : list Cmd) (End : TimeRecord),
       moves c dst src → dst ≠ src →
       tracers P !! src = Some T →
       FrontendStatsTracer.Reporter T = true →
       away_from dst body →
       run Def NDEBUG (c :: body) P = Returns P1 →
       ∃ P2,
         run Def NDEBUG [Destroy dst End] P1 = Returns P2
         ∧ reporter P2
           = saveAnyFrontendStatsEvents Def (reporter P1) T false End
         ∧ calls P2 = calls P1 ++ [call_of Def dst T false End P1]).
Proof.
  split; [| split].
  - intros P P1 a body End Ha Haway Hrun. cbn [run] in Hrun.
    assert (Hx : exec Def NDEBUG (NewInertTracer a) P
                 = Returns (with_tracers P (<[a := inert]> (tracers P))))
      by (unfold exec, fresh; by rewrite Ha).
    rewrite Hx in Hrun.
    destruct (inert_lifetime a inert body End _ P1
                (lookup_insert_eq _ _ _) eq_refl Haway Hrun)
      as (P2 & new & H1 & H2 & H3 & [Hc He] & H5 & H6).
    by exists P2, new.
  - intros P P1 c dst src T body End Hmv Hne Hs Haway Hrun. cbn [run] in Hrun.
    destruct (exec Def NDEBUG c P) as [Pm|] eqn:Hx; [| done].
    pose proof (exec_moves c dst src T P Pm Hmv Hne Hs Hx) as ->.
    destruct (inert_lifetime src (released T) body End _ P1
                (lookup_insert_eq _ _ _) eq_refl Haway Hrun)
      as (P2 & new & H1 & H2 & H3 & [Hc He] & H5 & H6).
    by exists P2, new.
  - intros P P1 c dst src T body End Hmv Hne Hs HT Haway Hrun. cbn [run] in Hrun.
    destruct (exec Def NDEBUG c P) as [Pm|] eqn:Hx; [| done].
    pose proof (exec_moves c dst src T P Pm Hmv Hne Hs Hx) as ->.
    destruct (run_away dst body _ P1 Haway Hrun) as (Ht & _).
    cbn [tracers with_tracers] in Ht.
    rewrite lookup_insert_ne, lookup_insert_eq in Ht by done.
    eexists. split.
    { cbn [run]. by rewrite (exec_Destroy_live dst T End P1 Ht HT). }
    done.
Qed.

End Run.

(** *** Arithmetic of [size_t] *)

Lemma wrap_eq (a b : Z) : wrap a = wrap b ↔ ∃ k, a = b + k * 2 ^ size_t_bits.
Proof.
  unfold wrap. split.
  - intros H. exists (a / 2 ^ size_t_bits - b / 2 ^ size_t_bits).
    pose proof (Z.div_mod a (2 ^ size_t_bits) ltac:(done)).
    pose proof (Z.div_mod b (2 ^ size_t_bits) ltac:(done)). lia.
  - intros [k ->]. apply Z_mod_plus_full.
Qed.

Lemma wrap_wrap (a : Z) : ∃ k, wrap a = a + k * 2 ^ size_t_bits.
Proof.
  exists (- (a / 2 ^ size_t_bits)). unfold wrap.
  pose proof (Z.div_mod a (2 ^ size_t_bits) ltac:(done)). lia.
Qed.

Lemma wrap_small (a : Z) : in_range a → wrap a = a.
Proof. intros H. unfold wrap. by apply Z.mod_small. Qed.

(** *** The sum of the deltas *)

Lemma sum_deltas_app (name : string) (l1 l2 : list FrontendStatsEvent.t) :
  sum_deltas name (l1 ++ l2) = sum_deltas name l1 + sum_deltas name l2.
Proof.
  unfold sum_deltas in *. induction l1 as [|E l1 IH]; [done |].
  rewrite <- app_comm_cons. cbn [foldr]. rewrite IH.
  case_bool_decide; lia.
Qed.

Lemma sum_deltas_named (name : string) (l : list FrontendStatsEvent.t) :
  sum_deltas name l = sum_deltas name (named name l).
Proof.
  unfold named, sum_deltas in *. induction l as [|E l IH]; [done |].
  rewrite filter_cons. cbn [foldr]. case_bool_decide as HE.
  - rewrite decide_True by done. cbn [foldr].
    rewrite bool_decide_eq_true_2 by done. lia.
  - by rewrite decide_False by done.
Qed.

Section Conservation.

Variable Def : StatisticsDef.
Variable NDEBUG : bool.
Variable stat : string * string.
Hypothesis Hwf : well_formed Def.
Hypothesis Hin : stat ∈ FRONTEND_STATISTIC Def.

(** A flush records under the name of a statistic the difference between
    its value and its baseline. *)
Lemma sum_deltas_flush (R : UnifiedStatsReporter) (T : FrontendStatsTracer.t)
    (IsEntry : bool) (Now : TimeRecord) :
  is_Some (LastTracedFrontendCounters R) →
  sum_deltas (label stat) (flush_events Def R T IsEntry Now)
  = wrap (current R stat.2 - baseline R stat.2).
Proof.
  intros [Last HL]. rewrite sum_deltas_named.
  rewrite (named_flush_events Def R T IsEntry Now Last stat Hwf HL Hin).
  case_decide as Hd.
  - cbn. rewrite bool_decide_eq_true_2 by done.
    unfold delta_of, current, baseline. rewrite HL. cbn. lia.
  - cbn. try apply dec_stable in Hd. by rewrite Hd.
Qed.

Lemma save_current (R : UnifiedStatsReporter) (T : FrontendStatsTracer.t)
    (IsEntry : bool) (Now : TimeRecord) (NAME : string) :
  current (saveAnyFrontendStatsEvents Def R T IsEntry Now) NAME = current R NAME.
Proof.
  destruct (LastTracedFrontendCounters R) as [Last|] eqn:HL.
  - rewrite (save_spec Def R T IsEntry Now Last (proj1 Hwf) HL).
    unfold current, getFrontendCounters. cbn.
    destruct (FrontendCounters R) eqn:HC; cbn; by rewrite ?HC.
  - by rewrite save_disabled.
Qed.

(** After a flush the baseline of a statistic is its value. *)
Lemma save_baseline (R : UnifiedStatsReporter) (T : FrontendStatsTracer.t)
    (IsEntry : bool) (Now : TimeRecord) :
  is_Some (LastTracedFrontendCounters R) →
  wrap (baseline (saveAnyFrontendStatsEvents Def R T IsEntry Now) stat.2)
  = wrap (current R stat.2).
Proof.
  intros [Last HL].
  rewrite (save_spec Def R T IsEntry Now Last (proj1 Hwf) HL).
  assert (Hbase : ∀ R1 L evs N,
            baseline (with_trace R1 (Some L) evs) N = field L N) by done.
  rewrite Hbase.
  rewrite synced_present by (apply Hwf || by apply list_elem_of_fmap_2).
  case_bool_decide as Hd; [done |].
  try apply dec_stable in Hd. unfold delta_of in Hd. unfold current.
  symmetry. apply wrap_eq.
  destruct (wrap_wrap (field (default zeroed (FrontendCounters R)) stat.2
                       - field Last stat.2)) as [k Hk].
  exists (- k). lia.
Qed.

Lemma step_enabled (R R' : UnifiedStatsReporter) :
  reporter_step Def R R' →
  is_Some (LastTracedFrontendCounters R) →
  is_Some (LastTracedFrontendCounters R').
Proof.
  intros Hs [Last HL]. destruct Hs; cbn; rewrite ?HL; try by eexists.
  rewrite (save_spec Def R T IsEntry Now Last (proj1 Hwf) HL). by eexists.
Qed.

(** No step of a tracing reporter changes the balance of a statistic. *)
Lemma step_balance (R R' : UnifiedStatsReporter) :
  reporter_step Def R R' →
  is_Some (LastTracedFrontendCounters R) →
  balance R' stat = balance R stat.
Proof.
  intros Hs HL. destruct Hs; try done.
  unfold balance. destruct HL as [Last HL].
  pose proof (sum_deltas_flush R T IsEntry Now (ex_intro _ _ HL)) as Hsum.
  rewrite (save_spec Def R T IsEntry Now Last (proj1 Hwf) HL).
  cbn [with_trace FrontendStatsEvents]. rewrite sum_deltas_app, Hsum.
  assert (Hbase : ∀ R1 L evs N,
            baseline (with_trace R1 (Some L) evs) N = field L N) by done.
  rewrite Hbase.
  rewrite synced_present by (apply Hwf || by apply list_elem_of_fmap_2).
  assert (Hd : delta_of (default zeroed (FrontendCounters R)) Last stat.2
               = wrap (current R stat.2 - baseline R stat.2))
    by (unfold delta_of, current, baseline; by rewrite HL).
  rewrite Hd. apply wrap_eq.
  destruct (wrap_wrap (current R stat.2 - baseline R stat.2)) as [k Hk].
  case_bool_decide as Hz.
  - exists k. unfold current in *. cbn. lia.
  - try apply dec_stable in Hz. exists 0. unfold baseline in *. rewrite HL in *.
    cbn in *. lia.
Qed.

Lemma steps_balance (R R' : UnifiedStatsReporter) :
  rtc (reporter_step Def) R R' →
  is_Some (LastTracedFrontendCounters R) →
  balance R' stat = balance R stat ∧ is_Some (LastTracedFrontendCounters R').
Proof.
  induction 1 as [R|R R1 R' Hs _ IH]; intros HL; [done |].
  destruct (IH (step_enabled _ _ Hs HL)) as [Hb HL'].
  split; [| done]. rewrite Hb. by apply step_balance.
Qed.

(** The same without wrap-around, for values that are [size_t] values and
    a baseline that is not above the value. *)
Lemma size_t_zero (z : Z) :
  - 2 ^ size_t_bits < z < 2 ^ size_t_bits → wrap z = 0 → z = 0.
Proof.
  intros Hz Hw. change (wrap z = wrap 0) in Hw. apply wrap_eq in Hw as [k Hk].
  change (2 ^ size_t_bits) with 18446744073709551616 in *. lia.
Qed.

Lemma save_baseline_sized (R : UnifiedStatsReporter) (T : FrontendStatsTracer.t)
    (IsEntry : bool) (Now : TimeRecord) :
  is_Some (LastTracedFrontendCounters R) →
  in_range (current R stat.2) → in_range (baseline R stat.2) →
  baseline (saveAnyFrontendStatsEvents Def R T IsEntry Now) stat.2
  = current R stat.2.
Proof.
  intros [Last HL] Hc Hb.
  rewrite (save_spec Def R T IsEntry Now Last (proj1 Hwf) HL).
  assert (Hbase : ∀ R1 L evs N,
            baseline (with_trace R1 (Some L) evs) N = field L N) by done.
  rewrite Hbase.
  rewrite synced_present by (apply Hwf || by apply list_elem_of_fmap_2).
  assert (Hlast : field Last stat.2 = baseline R stat.2)
    by (unfold baseline; by rewrite HL).
  case_bool_decide as Hd; [done |].
  try apply dec_stable in Hd. unfold delta_of in Hd. rewrite Hlast in *.
  fold (current R stat.2) in Hd. apply size_t_zero in Hd; [lia |].
  unfold in_range in *. lia.
Qed.

Lemma never_decreases_app (cs1 cs2 : list Cmd) (P P1 : Process) :
  never_decreases Def NDEBUG stat.2 (cs1 ++ cs2) P →
  run Def NDEBUG cs1 P = Returns P1 →
  never_decreases Def NDEBUG stat.2 cs1 P
  ∧ never_decreases Def NDEBUG stat.2 cs2 P1.
Proof.
  revert P. induction cs1 as [|c cs1 IH]; intros P Hm Hrun.
  - by injection Hrun as <-.
  - cbn [app never_decreases run] in *.
    destruct (exec Def NDEBUG c P) as [P2|]; [| done].
    destruct Hm as [Hup Hm]. destruct (IH P2 Hm Hrun) as [H1 H2]. done.
Qed.

Lemma step_exact (R R' : UnifiedStatsReporter) :
  reporter_step Def R R' →
  is_Some (LastTracedFrontendCounters R) →
  sized R stat.2 → baseline R stat.2 ≤ current R stat.2 →
  current R stat.2 ≤ current R' stat.2 →
  (sized R' stat.2 ∧ baseline R' stat.2 ≤ current R' stat.2)
  ∧ sum_deltas (label stat) (FrontendStatsEvents R') - baseline R' stat.2
    = sum_deltas (label stat) (FrontendStatsEvents R) - baseline R stat.2.
Proof.
  intros Hs HL [HC Hb] Hle Hup.
  destruct Hs as [R|R T b now|R f Hf|R f Hf|R st]; try done.
  - assert (Hc : in_range (current R stat.2)) by apply HC.
    pose proof (save_baseline_sized R T b now HL Hc Hb) as Hbase.
    pose proof (save_current R T b now) as Hcur.
    pose proof (sum_deltas_flush R T b now HL) as Hsum.
    destruct (save_frame Def R T b now) as (_ & _ & _ & Hfr).
    destruct HL as [Last HL].
    split.
    + split; [| rewrite Hbase, Hcur; lia].
      split; [by rewrite Hfr | by rewrite Hbase].
    + rewrite Hbase.
      rewrite (save_spec Def R T b now Last (proj1 Hwf) HL) in *.
      cbn [with_trace FrontendStatsEvents]. rewrite sum_deltas_app, Hsum.
      rewrite wrap_small; [lia |]. unfold in_range in *. lia.
  - split; [| done]. split; [| by etrans].
    split; [by apply Hf | done].
Qed.

Lemma run_exact (cs : list Cmd) (P P' : Process) :
  run Def NDEBUG cs P = Returns P' →
  is_Some (LastTracedFrontendCounters (reporter P)) →
  sized (reporter P) stat.2 →
  baseline (reporter P) stat.2 ≤ current (reporter P) stat.2 →
  never_decreases Def NDEBUG stat.2 cs P →
  baseline (reporter P') stat.2 ≤ current (reporter P') stat.2
  ∧ sized (reporter P') stat.2
  ∧ sum_deltas (label stat) (FrontendStatsEvents (reporter P'))
    - baseline (reporter P') stat.2
    = sum_deltas (label stat) (FrontendStatsEvents (reporter P))
      - baseline (reporter P) stat.2.
Proof.
  revert P. induction cs as [|c cs IH]; intros P Hrun HL Hs Hle Hmono.
  - by injection Hrun as <-.
  - cbn [run never_decreases] in Hrun, Hmono.
    destruct (exec Def NDEBUG c P) as [P1|] eqn:Hx; [| done].
    destruct Hmono as [Hup Hmono].
    pose proof (exec_reporter Def NDEBUG c P P1 Hx) as Hstep.
    destruct (step_exact _ _ Hstep HL Hs Hle Hup) as [[Hs1 Hle1] He1].
    destruct (IH P1 Hrun (step_enabled _ _ Hstep HL) Hs1 Hle1 Hmono)
      as (Hle' & Hs' & He').
    split; [done |]. split; [done |]. by rewrite He', He1.
Qed.

(** C3, amended.  Over the scope of a tracer of a tracing reporter, around
    any program that leaves the tracer alone, the deltas recorded for a
    statistic after the entry flush, up to and including the exit flush,
    add up in [size_t] arithmetic to the value of the statistic at exit
    less its value at entry, and exactly to it when the value never goes down
    over the scope; with the events of the entry flush they add up to the
    value at exit less the baseline the entry flush found. *)
Theorem scope_conserves_deltas (P P' : Process) (a : nat) (EventName : string)
    (E : TraceEntity) (Begin : Entry) (End : TimeRecord) (body : list Cmd) :
  is_Some (LastTracedFrontendCounters (reporter P)) →
  tracers P !! a = None →
  away_from a body →
  run Def NDEBUG (scope a EventName E Begin End body) P = Returns P' →
  let entry :=
    flush_events Def (reporter P) (live_tracer EventName E Begin) true
      (Flushed Begin) in
  ∃ later,
    FrontendStatsEvents (reporter P')
    = FrontendStatsEvents (reporter P) ++ entry ++ later
    ∧ wrap (sum_deltas (label stat) later)
      = wrap (current (reporter P') stat.2 - current (reporter P) stat.2)
    ∧ wrap (sum_deltas (label stat) (entry ++ later))
      = wrap (current (reporter P') stat.2 - baseline (reporter P) stat.2)
    ∧ (sized (reporter P) stat.2 →
       never_decreases Def NDEBUG stat.2 (scope a EventName E Begin End body) P →
       sum_deltas (label stat) later
       = current (reporter P') stat.2 - current (reporter P) stat.2).
Proof.
  intros HL Ha Haway Hrun entry.
  set (T := live_tracer EventName E Begin) in *.
  pose proof Hrun as Hwhole.
  unfold scope in Hrun.
  pose proof (exec_GetStatsTracer Def NDEBUG a EventName E Begin P HL Ha) as Hget.
  rewrite (run_cons Def NDEBUG _ _ _ _ Hget) in Hrun.
  fold T in Hrun, Hget.
  set (Pa := flush Def a T true (Flushed Begin) _) in Hrun, Hget.
  destruct (flush_spec Def a T true (Flushed Begin) P
              (with_tracers P (<[a := T]> (tracers P)))
              (proj1 Hwf) HL eq_refl eq_refl) as (HeA & _ & HtA & HlA).
  fold Pa in HeA, HtA, HlA. fold entry in HeA.
  change (tracers Pa = <[a := T]> (tracers P)) in HtA.
  rewrite run_app in Hrun.
  destruct (run Def NDEBUG body Pa) as [Pb|] eqn:Hbody; [| done].
  destruct (run_away Def NDEBUG a body Pa Pb Haway Hbody) as (Htb & n1 & [_ He1] & _).
  rewrite HtA, lookup_insert_eq in Htb.
  pose proof (exec_Destroy_live Def NDEBUG a T End Pb Htb eq_refl) as Hdestroy.
  rewrite (run_cons Def NDEBUG _ _ _ _ Hdestroy) in Hrun.
  injection Hrun as <-. cbn [reporter with_tracers flush].
  destruct (steps_balance _ _ (run_steps Def NDEBUG body Pa Pb Hbody) HlA)
    as [Hbal HlB].
  pose proof (step_balance _ _ (step_flush Def (reporter Pb) T false End) HlB)
    as Hbal'.
  pose proof (save_baseline (reporter Pb) T false End HlB) as Hbase'.
  pose proof (save_current (reporter Pb) T false End stat.2) as Hcur'.
  pose proof (save_baseline (reporter P) T true (Flushed Begin) HL) as HbaseA.
  change (saveAnyFrontendStatsEvents Def (reporter P) T true (Flushed Begin))
    with (reporter Pa) in HbaseA.
  pose proof (sum_deltas_flush (reporter P) T true (Flushed Begin) HL) as Hentry.
  fold entry in Hentry.
  destruct (save_appends Def (reporter Pb) T false End) as [n2 He2].
  set (R' := saveAnyFrontendStatsEvents Def (reporter Pb) T false End) in *.
  exists (events_of n1 ++ n2).
  assert (Hev : FrontendStatsEvents R'
                = FrontendStatsEvents (reporter Pa) ++ events_of n1 ++ n2)
    by (by rewrite He2, He1, <- app_assoc).
  split; [by rewrite Hev, HeA, <- app_assoc |].
  split; [| split].
  - rewrite Hbal in Hbal'. unfold balance in Hbal'.
    rewrite Hev, sum_deltas_app in Hbal'. rewrite Hcur'.
    apply wrap_eq in Hbal' as [k1 Hk1].
    apply wrap_eq in Hbase' as [k2 Hk2].
    apply wrap_eq in HbaseA as [k3 Hk3].
    apply wrap_eq. exists (k1 + k2 - k3). lia.
  - rewrite Hbal in Hbal'. unfold balance in Hbal'.
    rewrite Hev, sum_deltas_app in Hbal'. rewrite Hcur'.
    apply wrap_eq in Hbal' as [k1 Hk1].
    apply wrap_eq in Hbase' as [k2 Hk2].
    apply wrap_eq in HbaseA as [k3 Hk3].
    destruct (wrap_wrap (current (reporter P) stat.2 - baseline (reporter P) stat.2))
      as [k4 Hk4].
    apply wrap_eq. rewrite sum_deltas_app, Hentry. exists (k1 + k2 - k3 + k4). lia.
  - intros [HC Hb] Hmono.
    unfold scope in Hmono. cbn [never_decreases] in Hmono.
    rewrite Hget in Hmono. destruct Hmono as [_ Hmono].
    assert (HcP : in_range (current (reporter P) stat.2)) by apply HC.
    pose proof (save_baseline_sized (reporter P) T true (Flushed Begin) HL HcP Hb)
      as HbA.
    pose proof (save_current (reporter P) T true (Flushed Begin) stat.2) as HcA.
    destruct (save_frame Def (reporter P) T true (Flushed Begin))
      as (_ & _ & _ & Hfr).
    change (saveAnyFrontendStatsEvents Def (reporter P) T true (Flushed Begin))
      with (reporter Pa) in HbA, HcA, Hfr.
    assert (HsA : sized (reporter Pa) stat.2).
    { split; [by rewrite Hfr | by rewrite HbA]. }
    assert (HleA : baseline (reporter Pa) stat.2 ≤ current (reporter Pa) stat.2)
      by (rewrite HbA, HcA; lia).
    destruct (never_decreases_app _ _ _ _ Hmono Hbody) as [Hmono1 Hmono2].
    destruct (run_exact _ _ _ Hbody HlA HsA HleA Hmono1)
      as (HleB & [HCb HbB] & HexactB).
    assert (HcB : in_range (current (reporter Pb) stat.2)) by apply HCb.
    pose proof (save_baseline_sized (reporter Pb) T false End HlB HcB HbB) as HbR.
    pose proof (sum_deltas_flush (reporter Pb) T false End HlB) as HsumR.
    fold R' in HbR.
    destruct HlB as [LastB HLB].
    assert (Hn2 : n2 = flush_events Def (reporter Pb) T false End).
    { unfold R' in He2.
      rewrite (save_spec Def _ T false End LastB (proj1 Hwf) HLB) in He2.
      cbn [with_trace FrontendStatsEvents] in He2. by apply app_inv_head in He2. }
    rewrite Hcur', sum_deltas_app, Hn2, HsumR.
    rewrite He1, sum_deltas_app in HexactB.
    rewrite wrap_small by (unfold in_range in *; lia). lia.
Qed.

End Conservation.

End ProcessFacts.

(** ** Teardown *)

Module TeardownFacts.
Import Reporter Tracing Teardown Reading FlushFacts ProcessFacts.

Section Status.

Variable Def : StatisticsDef.
Variable NDEBUG : bool.

Lemma step_in_range (R R' : UnifiedStatsReporter) :
  reporter_step Def R R' → counters_in_range R → counters_in_range R'.
Proof.
  intros Hs [HF HD]. destruct Hs as [R|R T b now|R f Hf|R f Hf|R st]; try done.
  - destruct (save_frame Def R T b now) as (_ & _ & Hd & Hfr).
    split; cbn in *; by rewrite ?Hd, ?Hfr.
  - split; [by apply Hf | done].
  - split; [done | by apply Hf].
Qed.

Lemma run_in_range (cs : list Cmd) (P P' : Process) :
  run Def NDEBUG cs P = Returns P' →
  counters_in_range (reporter P) → counters_in_range (reporter P').
Proof.
  intros Hrun. apply run_steps in Hrun.
  induction Hrun as [|R R1 R' Hs _ IH]; [done |].
  intros HR. by apply IH, (step_in_range R).
Qed.

(** The status a command leaves. *)
Lemma exec_status (c : Cmd) (P P' : Process) :
  exec Def NDEBUG c P = Returns P' →
  currentProcessExitStatus (reporter P')
  = match c with
    | NoteExitStatus status => status
    | _ => currentProcessExitStatus (reporter P)
    end.
Proof.
  intros H. destruct c as [| | | | | | | | | |status].
  all: try (exec_cases H; cbn;
            rewrite ?mutate_frontend_eq, ?mutate_driver_eq; cbn;
            try done;
            match goal with
            | |- context [saveAnyFrontendStatsEvents ?D ?R ?T ?b ?n] =>
                by destruct (save_frame D R T b n) as (-> & _)
            end).
  unfold exec in H.
  destruct (noteCurrentProcessExitStatus NDEBUG (reporter P) status) eqn:Hn;
    [| done].
  injection H as <-. by apply (note_returns NDEBUG) in Hn as ->.
Qed.

(** The status at the end of a program is the last one noted, or else the
    status the program started with. *)
Lemma run_status (cs : list Cmd) (P P' : Process) :
  run Def NDEBUG cs P = Returns P' →
  currentProcessExitStatus (reporter P')
  = default (currentProcessExitStatus (reporter P)) (noted_status cs).
Proof.
  revert P. induction cs as [|c cs IH]; intros P H.
  - by injection H as <-.
  - cbn [run] in H. destruct (exec Def NDEBUG c P) as [P1|] eqn:Hx; [| done].
    rewrite (IH _ H), (exec_status _ _ _ Hx). cbn [noted_status].
    destruct (noted_status cs); [done |]. by destruct c.
Qed.

End Status.

(** *** The counters at teardown *)

Section Settle.

Variable Def : StatisticsDef.
Variable B : Build.
Variable W : World.

Lemma settle_frame (R : UnifiedStatsReporter) :
  StatsFilename (settle W R) = StatsFilename R
  ∧ TraceFilename (settle W R) = TraceFilename R
  ∧ SourceMgr (settle W R) = SourceMgr R
  ∧ LastTracedFrontendCounters (settle W R) = LastTracedFrontendCounters R
  ∧ FrontendStatsEvents (settle W R) = FrontendStatsEvents R.
Proof.
  unfold settle, recordLinesPerSecond, recordChildrenMaxRSS, markFailure,
    getFrontendCounters, getDriverCounters.
  repeat (case_bool_decide || case_match || simplify_eq /=); done.
Qed.

(** Case analysis on the steps of the destructor that change counters. *)
Ltac settle_cases R :=
  let HF := fresh "HF" in
  let HD := fresh "HD" in
  destruct (FrontendCounters R) eqn:HF; destruct (DriverCounters R) eqn:HD;
  unfold failures_frontend, failures_driver, settle, recordLinesPerSecond,
    recordChildrenMaxRSS, markFailure, getFrontendCounters, getDriverCounters;
  repeat first
    [ progress cbn
    | rewrite HF
    | rewrite HD
    | (rewrite bool_decide_eq_true_2 by done)
    | (rewrite bool_decide_eq_false_2 by (by intros ?))
    | match goal with
      | |- context [if ?b then _ else _] => destruct b
      end ];
  rewrite ?(field_set_ne _ "ChildrenMaxRSS" "NumProcessFailures") by done;
  rewrite ?(field_set_ne _ "NumSourceLinesPerSecond" "NumProcessFailures") by done;
  rewrite ?field_set_eq;
  repeat split; eauto.

(** A run that did not succeed is counted once, in the frontend structure
    where there is one and else in the driver structure, which is allocated
    for it where it is missing. *)
Lemma settle_failed (R : UnifiedStatsReporter) :
  currentProcessExitStatus R ≠ EXIT_SUCCESS →
  (is_Some (FrontendCounters R) →
   is_Some (FrontendCounters (settle W R))
   ∧ failures_frontend (settle W R) = wrap (failures_frontend R + 1)
   ∧ failures_driver (settle W R) = failures_driver R)
  ∧ (FrontendCounters R = None →
     FrontendCounters (settle W R) = None
     ∧ is_Some (DriverCounters (settle W R))
     ∧ failures_driver (settle W R) = wrap (failures_driver R + 1)
     ∧ failures_frontend (settle W R) = failures_frontend R).
Proof.
  intros Hst. split.
  - intros [C HC]. settle_cases R; done.
  - intros HC. settle_cases R; done.
Qed.

Lemma settle_succeeded (R : UnifiedStatsReporter) :
  currentProcessExitStatus R = EXIT_SUCCESS →
  failures_frontend (settle W R) = failures_frontend R
  ∧ failures_driver (settle W R) = failures_driver R
  ∧ (is_Some (FrontendCounters (settle W R)) ↔ is_Some (FrontendCounters R))
  ∧ (is_Some (DriverCounters (settle W R)) ↔ is_Some (DriverCounters R)).
Proof.
  intros Hst. settle_cases R; done.
Qed.

Lemma destroy_reporter (R : UnifiedStatsReporter) :
  (destroy Def B W R).1 = settle W R.
Proof. unfold destroy. by destruct (OpenSucceeds W _). Qed.

(** C9. With tracing enabled and no source manager, the destructor does
    nothing on the trace stream: it neither opens nor writes the trace
    file, whatever the event list holds. *)
Theorem no_trace_without_source_manager (R : UnifiedStatsReporter) :
  is_Some (LastTracedFrontendCounters R) →
  SourceMgr R = false →
  writeTrace W (settle W R) = []
  ∧ ∀ e, e ∈ (destroy Def B W R).2 → stream_of e ≠ Some tstream.
Proof.
  intros HL HS.
  destruct (settle_frame R) as (Hsf & Htf & Hsm & Hlt & Hev).
  assert (Hw : writeTrace W (settle W R) = []).
  { unfold writeTrace. rewrite Hsm, HS. by rewrite andb_false_r. }
  split; [done |]. intros e. unfold destroy. rewrite Hw, app_nil_r.
  destruct (OpenSucceeds W (StatsFilename (settle W R))).
  - intros [-> | He]%elem_of_cons; [done |]. revert He.
    unfold writeStats. destruct (negb (NDEBUG B) || LLVM_ENABLE_STATS B).
    + intros [He | ->%list_elem_of_singleton]%elem_of_app; [| done].
      apply list_elem_of_fmap in He as (st & -> & _). done.
    + by intros ->%list_elem_of_singleton.
  - intros [-> | ->%list_elem_of_singleton]%elem_of_cons; done.
Qed.

(** What the destructor does when the stats file cannot be opened: it
    reports the failure, naming the trace file, and returns. *)
Lemma destroy_stats_unopened (R : UnifiedStatsReporter) :
  OpenSucceeds W (StatsFilename R) = false →
  (destroy Def B W R).2
  = [Open ostream (StatsFilename R) false;
     Errs ("Error opening -stats-output-dir file '" +:+ TraceFilename R
             +:+ "' for writing" +:+ newline)].
Proof.
  intros Hopen. destruct (settle_frame R) as (Hsf & Htf & _).
  unfold destroy. by rewrite Hsf, Htf, Hopen.
Qed.

(** With both files opened the destructor writes the stats and, when the
    reporter traces and has a source manager, the trace. *)
Lemma destroy_opened (R : UnifiedStatsReporter) :
  OpenSucceeds W (StatsFilename R) = true →
  (destroy Def B W R).2
  = Open ostream (StatsFilename R) true
      :: writeStats Def B W (settle W R) ++ writeTrace W (settle W R).
Proof.
  intros Hopen. destruct (settle_frame R) as (Hsf & _).
  unfold destroy. by rewrite Hsf, Hopen.
Qed.

End Settle.

(** *** The snapshot *)

Section Snapshot.

Variable Def : StatisticsDef.
Variable B : Build.
Variable W : World.

Lemma rows_text_app (delim : string) (l1 l2 : list (string * Z)) :
  rows_text delim (l1 ++ l2)
  = rows_text delim l1
      +:+ rows_text (match l1 with [] => delim | _ => "," +:+ newline end) l2.
Proof.
  destruct l1 as [|r l1]; [done |]. cbn [app rows_text].
  rewrite !FileNamesFacts.app_assoc. do 2 f_equal.
  clear r. induction l1 as [|r l1 IH]; [done |].
  cbn [app rows_text]. rewrite !FileNamesFacts.app_assoc. by rewrite IH.
Qed.

(** The loop that prints the statistics of one structure. *)
Lemma print_loop (C : Counters) (stats : list (string * string))
    (OS delim : string) :
  foldl (print_statistic C) (OS, delim) stats
  = (OS +:+ rows_text delim (rows_of C stats),
     match stats with [] => delim | _ => "," +:+ newline end).
Proof.
  revert OS delim. induction stats as [|[TY NAME] stats IH]; intros OS delim.
  - cbn. by rewrite FileNamesFacts.app_empty_r.
  - cbn [foldl print_statistic]. rewrite IH. f_equal.
    + cbn [rows_of fmap list_fmap rows_text]. unfold row_text, label. cbn [fst snd].
      by rewrite !FileNamesFacts.app_assoc.
    + by destruct stats.
Qed.

Lemma snapshot_rows_eq (R : UnifiedStatsReporter) :
  snapshot_rows Def R
  = match FrontendCounters R with
    | Some C => rows_of C (FRONTEND_STATISTIC Def)
    | None => []
    end
    ++ match DriverCounters R with
       | Some C => rows_of C (as_driver <$> DRIVER_STATISTIC Def)
       | None => []
       end.
Proof.
  unfold snapshot_rows, rows_of. f_equal.
  destruct (DriverCounters R); [| done]. by rewrite <- list_fmap_compose.
Qed.

(** The text of the snapshot: the rows of the allocated structures, the
    timers after them, between braces. *)
Lemma snapshot_text (R : UnifiedStatsReporter) :
  printAlwaysOnStatsAndTimers Def W R
  = "{" +:+ newline +:+ rows_text EmptyString (snapshot_rows Def R)
      +:+ printAllJSONValues W (delim_after (snapshot_rows Def R))
      +:+ newline +:+ "}" +:+ newline.
Proof.
  unfold printAlwaysOnStatsAndTimers. rewrite snapshot_rows_eq.
  destruct (FrontendCounters R) as [F|], (DriverCounters R) as [D|];
    rewrite ?print_loop; cbn [app]; rewrite ?app_nil_r, ?rows_text_app;
    rewrite ?FileNamesFacts.app_assoc.
  - destruct (FRONTEND_STATISTIC Def) as [|s1 l1],
             (DRIVER_STATISTIC Def) as [|s2 l2]; try done.
    all: cbn [rows_of fmap list_fmap rows_text app delim_after];
      by rewrite ?FileNamesFacts.app_empty_r.
  - by destruct (FRONTEND_STATISTIC Def).
  - by destruct (DRIVER_STATISTIC Def).
  - done.
Qed.

(** C10. When neither structure is allocated and the exit status is not
    success, the destructor allocates the driver structure and leaves 1 in
    its [NumProcessFailures], the frontend structure staying unallocated;
    the snapshot it then writes has the rows of the driver domain, with
    [Driver.NumProcessFailures] at 1. *)
Theorem teardown_allocates_driver (R : UnifiedStatsReporter) :
  FrontendCounters R = None →
  DriverCounters R = None →
  currentProcessExitStatus R ≠ EXIT_SUCCESS →
  let R' := (destroy Def B W R).1 in
  let out := (destroy Def B W R).2 in
  FrontendCounters R' = None
  ∧ (∃ D, DriverCounters R' = Some D
          ∧ field D "NumProcessFailures" = 1
          ∧ snapshot_rows Def R' = rows_of D (as_driver <$> DRIVER_STATISTIC Def))
  ∧ ("NumProcessFailures"%string ∈ DRIVER_STATISTIC Def →
     ("Driver.NumProcessFailures"%string, 1) ∈ snapshot_rows Def R'
     ∧ (OpenSucceeds W (StatsFilename R) = true →
        if negb (NDEBUG B) || LLVM_ENABLE_STATS B
        then Publish ("Driver"%string, "NumProcessFailures"%string, 1) ∈ out
        else Write ostream
               ("{" +:+ newline +:+ rows_text EmptyString (snapshot_rows Def R')
                  +:+ printAllJSONValues W (delim_after (snapshot_rows Def R'))
                  +:+ newline +:+ "}" +:+ newline) ∈ out)).
Proof.
  intros HF HD Hst R' out.
  assert (HR' : R' = settle W R) by apply destroy_reporter.
  assert (HF' : FrontendCounters R' = None).
  { rewrite HR'. by destruct (settle_failed W R Hst) as [_ [-> _]]. }
  assert (HD' : DriverCounters R'
                = Some (set_field (set_field zeroed "NumProcessFailures" (wrap (0 + 1)))
                          "ChildrenMaxRSS" (getChildrenMaxResidentSetSize W))).
  { rewrite HR'. unfold settle, recordLinesPerSecond, recordChildrenMaxRSS,
      markFailure, getDriverCounters.
    rewrite bool_decide_eq_true_2 by done. rewrite HF, HD. cbn. by rewrite HF. }
  assert (Hrows : snapshot_rows Def R'
                  = rows_of (set_field (set_field zeroed "NumProcessFailures" (wrap (0 + 1)))
                               "ChildrenMaxRSS" (getChildrenMaxResidentSetSize W))
                      (as_driver <$> DRIVER_STATISTIC Def)).
  { by rewrite snapshot_rows_eq, HF', HD'. }
  assert (Hone : ∀ C v, field (set_field (set_field C "NumProcessFailures" (wrap (0 + 1)))
                                 "ChildrenMaxRSS" v) "NumProcessFailures" = 1).
  { intros C v. rewrite field_set_ne by done. by rewrite field_set_eq. }
  split; [done |]. split; [by eexists |].
  intros Hin. split.
  - rewrite Hrows. unfold rows_of.
    apply list_elem_of_fmap. exists (as_driver "NumProcessFailures").
    split; [by rewrite Hone | by apply list_elem_of_fmap_2].
  - intros Hopen. subst out. rewrite destroy_opened by done. rewrite <- HR'.
    unfold writeStats. destruct (negb (NDEBUG B) || LLVM_ENABLE_STATS B).
    + right. apply elem_of_app. left. apply elem_of_app. left.
      apply list_elem_of_fmap_2. unfold publishAlwaysOnStatsToLLVM.
      rewrite HF', HD'. cbn [app].
      apply list_elem_of_fmap. exists "NumProcessFailures"%string.
      split; [by rewrite Hone | done].
    + right. apply elem_of_app. left. rewrite snapshot_text. by left.
Qed.

End Snapshot.

Section ExitStatus.

Variable Def : StatisticsDef.
Variable NDEBUG : bool.
Variable B : Build.
Variable W : World.

Lemma construct_in_range (path_append : string → string → string)
    (usec1 rnd1 usec2 rnd2 : Z) (Now : TimeRecord)
    (ProgramName AuxName Directory : string) (SM CSM TraceEvents : bool) :
  counters_in_range
    (construct path_append usec1 rnd1 usec2 rnd2 Now ProgramName AuxName
       Directory SM CSM TraceEvents).
Proof. split; intros NAME; cbn; rewrite field_zeroed; done. Qed.

(** C4. At the end of any program run on a reporter from its construction:
    when the exit status was never noted, or the status noted is not
    success, the destructor adds one to [NumProcessFailures], once, in the
    frontend structure where that is allocated and else in the driver
    structure, and leaves the count of the other domain as it is; when
    the status noted is success it changes neither count. *)
Theorem teardown_counts_failure (path_append : string → string → string)
    (usec1 rnd1 usec2 rnd2 : Z) (Now : TimeRecord)
    (ProgramName AuxName Directory : string) (SM CSM TraceEvents : bool)
    (cs : list Cmd) (P : Process) :
  run Def NDEBUG cs
    (start (construct path_append usec1 rnd1 usec2 rnd2 Now ProgramName
              AuxName Directory SM CSM TraceEvents))
  = Returns P →
  let R := reporter P in
  let R' := (destroy Def B W R).1 in
  (noted_status cs ≠ Some EXIT_SUCCESS →
   (is_Some (FrontendCounters R) →
    failures_frontend R' = wrap (failures_frontend R + 1)
    ∧ (failures_frontend R < 2 ^ size_t_bits - 1 →
       failures_frontend R' = failures_frontend R + 1)
    ∧ failures_driver R' = failures_driver R)
   ∧ (FrontendCounters R = None →
      failures_driver R' = wrap (failures_driver R + 1)
      ∧ (failures_driver R < 2 ^ size_t_bits - 1 →
         failures_driver R' = failures_driver R + 1)
      ∧ failures_frontend R' = failures_frontend R
      ∧ FrontendCounters R' = None))
  ∧ (noted_status cs = Some EXIT_SUCCESS →
     failures_frontend R' = failures_frontend R
     ∧ failures_driver R' = failures_driver R).
Proof.
  intros Hrun R R'. subst R'. rewrite destroy_reporter.
  pose proof (run_status Def NDEBUG cs _ P Hrun) as Hst.
  cbn [start reporter construct currentProcessExitStatus] in Hst.
  fold R in Hst.
  destruct (run_in_range Def NDEBUG cs _ P Hrun
              (construct_in_range _ _ _ _ _ _ _ _ _ _ _ _)) as [HF HD].
  fold R in HF, HD.
  split.
  - intros Hnoted.
    assert (Hfail : currentProcessExitStatus R ≠ EXIT_SUCCESS).
    { rewrite Hst. destruct (noted_status cs) as [st|]; cbn; [congruence | done]. }
    destruct (settle_failed W R Hfail) as [Hfront Hdrv]. split.
    + intros HS. destruct (Hfront HS) as (_ & H1 & H2).
      split; [done |]. split; [| done].
      intros Hlt. rewrite H1. apply wrap_small.
      specialize (HF "NumProcessFailures"%string).
      unfold failures_frontend, in_range in *. lia.
    + intros HN. destruct (Hdrv HN) as (H0 & _ & H1 & H2).
      split; [done |]. split; [| done].
      intros Hlt. rewrite H1. apply wrap_small.
      specialize (HD "NumProcessFailures"%string).
      unfold failures_driver, in_range in *. lia.
  - intros Hnoted. rewrite Hnoted in Hst.
    by destruct (settle_succeeded W R Hst) as (H1 & H2 & _).
Qed.

(** C5, amended.  On a reporter whose exit status is not set, a call of the
    setter returns, records the status and marks it as set; a second call
    fails the assertion in a build that checks assertions, and in a build
    with [NDEBUG] it returns and records the second status. *)
Theorem exit_status_set_once (R : UnifiedStatsReporter) (first second : Z) :
  currentProcessExitStatusSet R = false →
  ∃ R1,
    noteCurrentProcessExitStatus NDEBUG R first = Returns R1
    ∧ currentProcessExitStatus R1 = first
    ∧ currentProcessExitStatusSet R1 = true
    ∧ noteCurrentProcessExitStatus NDEBUG R1 second
      = if NDEBUG then Returns (with_exit R1 true second)
        else Halts (AssertionFailed "!currentProcessExitStatusSet").
Proof.
  intros Hunset. exists (with_exit R true first).
  unfold noteCurrentProcessExitStatus, assert. rewrite Hunset. cbn.
  by destruct NDEBUG.
Qed.

End ExitStatus.

End TeardownFacts.

(** ** The sample run *)

Module SampleFacts.
Import Reporter Tracing Teardown Reading Sample.
Import FileNamesFacts FlushFacts ProcessFacts TeardownFacts.

Lemma table_well_formed : well_formed table.
Proof. split; apply (bool_decide_unpack _); vm_compute; exact I. Defined.

Lemma lines_in_table : lines ∈ FRONTEND_STATISTIC table.
Proof. apply (bool_decide_unpack _). vm_compute. exact I. Defined.

Lemma tracing_enabled (P : Process) (Last : Counters) :
  LastTracedFrontendCounters (reporter P) = Some Last →
  is_Some (LastTracedFrontendCounters (reporter P)).
Proof. intros ->. by eexists. Defined.

(** The sanitizer on a target triple. *)
Lemma cleanName_sanitizes_holds :
  String.length (FileNames.cleanName "x86_64-apple-macosx10.9") = 23%nat
  ∧ FileNames.count_chars FileNames.is_underscore
      (FileNames.cleanName "x86_64-apple-macosx10.9") = 3%nat.
Proof.
  destruct (cleanName_sanitizes "x86_64-apple-macosx10.9") as (Hlen & _ & _ & Hcount).
  split; [by rewrite Hlen | by rewrite Hcount].
Defined.

(** The exit flush of the scope around 100 lines counted. *)
Lemma flush_records_each_change_holds :
  well_formed table
  ∧ is_Some (LastTracedFrontendCounters (reporter parsed))
  ∧ lines ∈ FRONTEND_STATISTIC table
  ∧ ∃ new E,
      FrontendStatsEvents
        (saveAnyFrontendStatsEvents table (reporter parsed) parse false (at_time 50))
      = FrontendStatsEvents (reporter parsed) ++ new
      ∧ named "Frontend.NumSourceLines" new = [E]
      ∧ FrontendStatsEvent.CounterDelta E = 100
      ∧ FrontendStatsEvent.CounterValue E = 100
      ∧ FrontendStatsEvent.IsEntry E = false
      ∧ baseline
          (saveAnyFrontendStatsEvents table (reporter parsed) parse false (at_time 50))
          "NumSourceLines" = 100.
Proof.
  assert (HL : is_Some (LastTracedFrontendCounters (reporter parsed)))
    by (eexists; vm_compute; reflexivity).
  split; [apply table_well_formed |]. split; [exact HL |].
  split; [apply lines_in_table |].
  destruct (flush_records_each_change table (reporter parsed) parse false (at_time 50)
              lines table_well_formed HL lines_in_table)
    as (new & Hev & Hnz & _).
  destruct Hnz as (E & HE & Hd & Hv & Hi & _ & Hb).
  { vm_compute. discriminate. }
  exists new, E. repeat split; try assumption.
Defined.

(** The claim of conservation with the entry events fails where lines were
    counted before the scope: 5 lines before it and 8 at its end, and the
    events of the scope carry 5 and 3. *)
Lemma entry_events_break_conservation :
  ¬ conserved_with_entry table false counted 0 "parse" (ADecl 1)
      (entering 20) (at_time 50) [Assign "NumSourceLines" 8] lines.
Proof.
  intros H.
  specialize (H (result (scope 0 "parse" (ADecl 1) (entering 20) (at_time 50)
                           [Assign "NumSourceLines" 8]) counted) eq_refl).
  vm_compute in H. discriminate H.
Qed.

(** Without wrap-around the sum would not follow a counter that goes down:
    from 5 to 3 the exit event carries [2^64 - 2]. *)
Lemma decrease_is_recorded_modulo :
  FrontendStatsEvent.CounterDelta
    <$> FrontendStatsEvents
          (reporter (result [Assign "NumSourceLines" 3; Destroy 0 (at_time 50)]
                       (result [GetStatsTracer 0 "parse" NoEntity (entering 20)]
                          counted)))
  = [5; 2 ^ 64 - 2].
Proof. vm_compute. reflexivity. Qed.

Lemma scope_conserves_deltas_holds :
  well_formed table
  ∧ lines ∈ FRONTEND_STATISTIC table
  ∧ is_Some (LastTracedFrontendCounters (reporter counted))
  ∧ tracers counted !! 0%nat = None
  ∧ away_from 0 [Assign "NumSourceLines" 8]
  ∧ ∃ P' later,
      run table false
        (scope 0 "parse" (ADecl 1) (entering 20) (at_time 50)
           [Assign "NumSourceLines" 8]) counted = Returns P'
      ∧ FrontendStatsEvents (reporter P')
        = FrontendStatsEvents (reporter counted)
            ++ flush_events table (reporter counted)
                 (live_tracer "parse" (ADecl 1) (entering 20)) true (at_time 21)
            ++ later
      ∧ wrap (sum_deltas "Frontend.NumSourceLines" later) = wrap (8 - 5)
      ∧ sum_deltas "Frontend.NumSourceLines" later = 8 - 5.
Proof.
  assert (HL : is_Some (LastTracedFrontendCounters (reporter counted)))
    by (eexists; vm_compute; reflexivity).
  assert (Ha : tracers counted !! 0%nat = None) by (vm_compute; reflexivity).
  assert (Haway : away_from 0 [Assign "NumSourceLines" 8]).
  { repeat constructor. cbn. apply not_elem_of_nil. }
  split; [apply table_well_formed |]. split; [apply lines_in_table |].
  split; [exact HL |]. split; [exact Ha |]. split; [exact Haway |].
  set (P' := result (scope 0 "parse" (ADecl 1) (entering 20) (at_time 50)
                       [Assign "NumSourceLines" 8]) counted).
  assert (Hrun : run table false
                   (scope 0 "parse" (ADecl 1) (entering 20) (at_time 50)
                      [Assign "NumSourceLines" 8]) counted = Returns P')
    by (vm_compute; reflexivity).
  destruct (scope_conserves_deltas table false lines table_well_formed lines_in_table
              counted P' 0 "parse" (ADecl 1) (entering 20) (at_time 50)
              [Assign "NumSourceLines" 8] HL Ha Haway Hrun)
    as (later & Hev & Hsum & _ & Hexact).
  exists P', later. split; [exact Hrun |]. split; [exact Hev |].
  split; [exact Hsum |]. apply Hexact.
  - split; [| vm_compute; split; [discriminate | reflexivity]].
    apply (run_in_range table false [Assign "NumSourceLines" 5]
             (start (fresh_reporter true true)) counted eq_refl).
    apply construct_in_range.
  - vm_compute. repeat split; discriminate.
Defined.

(** Under [NDEBUG] the second call of the setter returns. *)
Lemma second_call_returns_under_NDEBUG :
  ¬ second_call_fails true (fresh_reporter true true) 0 1.
Proof.
  intros H. destruct (H _ eq_refl) as [h Hh]. vm_compute in Hh. discriminate Hh.
Qed.

Lemma exit_status_set_once_holds :
  currentProcessExitStatusSet (fresh_reporter true true) = false
  ∧ ∃ R1,
      noteCurrentProcessExitStatus false (fresh_reporter true true) 0 = Returns R1
      ∧ currentProcessExitStatus R1 = 0
      ∧ currentProcessExitStatusSet R1 = true
      ∧ noteCurrentProcessExitStatus false R1 1
        = Halts (AssertionFailed "!currentProcessExitStatusSet").
Proof.
  split; [reflexivity |].
  destruct (exit_status_set_once false (fresh_reporter true true) 0 1 eq_refl)
    as (R1 & H1 & H2 & H3 & H4).
  exists R1. repeat split; assumption.
Defined.

(** A run that notes nothing and counts lines, so that the frontend
    structure is allocated: the destructor counts one failure there. *)
Lemma teardown_counts_failure_holds :
  run table false [Assign "NumSourceLines" 100] (start (fresh_reporter true true))
  = Returns parsed
  ∧ failures_frontend
      (destroy table release (world (λ _, true)) (reporter parsed)).1 = 1
  ∧ failures_driver
      (destroy table release (world (λ _, true)) (reporter parsed)).1 = 0.
Proof.
  assert (Hrun : run table false [Assign "NumSourceLines" 100]
                   (start (fresh_reporter true true)) = Returns parsed)
    by (vm_compute; reflexivity).
  split; [exact Hrun |].
  destruct (teardown_counts_failure table false release (world (λ _, true))
              path_append 1000 7 1001 8 (at_time 10) "swift" "m-all-x86_64-o-Onone"
              "out" true false true [Assign "NumSourceLines" 100] parsed Hrun)
    as [Hfail _].
  destruct Hfail as [Hfront _]; [discriminate |].
  destruct Hfront as (H1 & _ & H2); [eexists; vm_compute; reflexivity |].
  split; [by rewrite H1 | by rewrite H2].
Defined.

(** Two nested scopes with a change of counters before each flush. *)
Lemma nested_tracers_log_in_order_holds :
  NoDup (FRONTEND_STATISTIC table).*2
  ∧ is_Some (LastTracedFrontendCounters (reporter tracing))
  ∧ tracers tracing !! 0%nat = None
  ∧ tracers tracing !! 1%nat = None
  ∧ ∃ P4,
      run table false
        (nested 0 1 "parse" "check" (ADecl 1) (AnExpr 2)
           (entering 20) (entering 30) (at_time 40) (at_time 50)
           [Assign "NumSourceLines" 10] [Increment "NumTypesDeserialized"]
           [Assign "NumSourceLines" 30]) tracing
      = Returns P4
      ∧ (λ k, (caller k, atEntry k)) <$> calls P4
        = [(0%nat, true); (1%nat, true); (1%nat, false); (0%nat, false)]
      ∧ FrontendStatsEvents (reporter P4) = events_of (calls P4).
Proof.
  assert (Hnd : NoDup (FRONTEND_STATISTIC table).*2) by apply table_well_formed.
  assert (HL : is_Some (LastTracedFrontendCounters (reporter tracing)))
    by (eexists; vm_compute; reflexivity).
  assert (HA : tracers tracing !! 0%nat = None) by reflexivity.
  assert (HB : tracers tracing !! 1%nat = None) by reflexivity.
  split; [exact Hnd |]. split; [exact HL |]. split; [exact HA |]. split; [exact HB |].
  destruct (nested_tracers_log_in_order table false tracing 0 1 "parse" "check"
              (ADecl 1) (AnExpr 2) (entering 20) (entering 30) (at_time 40) (at_time 50)
              [Assign "NumSourceLines" 10] [Increment "NumTypesDeserialized"]
              [Assign "NumSourceLines" 30] Hnd HL HA HB)
    as (_ & P1 & P2 & P3 & P4 & _ & _ & _ & _ & Hrun & Hev & Hcalls).
  { discriminate. }
  { repeat constructor. }
  { repeat constructor. }
  { repeat constructor. }
  exists P4. split; [exact Hrun |]. rewrite Hev, Hcalls. split; [reflexivity |].
  unfold events_of. cbn. by rewrite app_nil_r.
Defined.

(** An inert tracer, a tracer moved from and the destination of the move. *)
Lemma inert_tracers_never_flush_holds :
  (∃ P2,
     run table false [Destroy 0 (at_time 50)]
       (result [NewInertTracer 0; Assign "NumSourceLines" 5] tracing)
     = Returns P2
     ∧ FrontendStatsEvents (reporter P2) = []
     ∧ calls P2 = [])
  ∧ (∃ P2,
       run table false [Destroy 0 (at_time 50)]
         (result [GetStatsTracer 0 "parse" (ADecl 1) (entering 20);
                  MoveConstruct 1 0; Assign "NumSourceLines" 7] tracing)
       = Returns P2
       ∧ calls P2
         = calls (result [GetStatsTracer 0 "parse" (ADecl 1) (entering 20)] tracing))
  ∧ (∃ P2,
       run table false [Destroy 1 (at_time 50)]
         (result [GetStatsTracer 0 "parse" (ADecl 1) (entering 20);
                  MoveConstruct 1 0; Assign "NumSourceLines" 7] tracing)
       = Returns P2
       ∧ (λ k, (caller k, atEntry k)) <$> calls P2
         = [(0%nat, true); (1%nat, false)]
       ∧ FrontendStatsEvent.CounterDelta <$> FrontendStatsEvents (reporter P2) = [7]).
Proof.
  destruct (inert_tracers_never_flush table false) as (Hdefault & Hsource & Hdest).
  split; [| split].
  - destruct (Hdefault tracing
                (result [NewInertTracer 0; Assign "NumSourceLines" 5] tracing)
                0%nat [Assign "NumSourceLines" 5] (at_time 50))
      as (P2 & new & Hrun & HR & HC & _ & _ & _).
    { reflexivity. }
    { repeat constructor. cbn. apply not_elem_of_nil. }
    { vm_compute. reflexivity. }
    exists P2. split; [exact Hrun |]. rewrite HR, HC. split; reflexivity.
  - destruct (Hsource
                (result [GetStatsTracer 0 "parse" (ADecl 1) (entering 20)] tracing)
                (result [GetStatsTracer 0 "parse" (ADecl 1) (entering 20);
                         MoveConstruct 1 0; Assign "NumSourceLines" 7] tracing)
                (MoveConstruct 1 0) 1%nat 0%nat parse
                [Assign "NumSourceLines" 7] (at_time 50))
      as (P2 & new & Hrun & HR & HC & _ & _ & _).
    { by left. }
    { discriminate. }
    { vm_compute. reflexivity. }
    { repeat constructor. cbn. apply not_elem_of_nil. }
    { vm_compute. reflexivity. }
    exists P2. split; [exact Hrun |]. rewrite HC. vm_compute. reflexivity.
  - destruct (Hdest
                (result [GetStatsTracer 0 "parse" (ADecl 1) (entering 20)] tracing)
                (result [GetStatsTracer 0 "parse" (ADecl 1) (entering 20);
                         MoveConstruct 1 0; Assign "NumSourceLines" 7] tracing)
                (MoveConstruct 1 0) 1%nat 0%nat parse
                [Assign "NumSourceLines" 7] (at_time 50))
      as (P2 & Hrun & HR & HC).
    { by left. }
    { discriminate. }
    { vm_compute. reflexivity. }
    { reflexivity. }
    { repeat constructor. cbn. apply not_elem_of_nil. }
    { vm_compute. reflexivity. }
    exists P2. split; [exact Hrun |]. rewrite HR, HC.
    split; vm_compute; reflexivity.
Defined.

(** A move of a tracer onto itself leaves it released: no object makes the
    exit flush of its scope. *)
Lemma self_move_assignment_releases :
  ∃ P1,
    run table false
      [GetStatsTracer 0 "parse" (ADecl 1) (entering 20); MoveAssign 0 0] tracing
    = Returns P1
    ∧ tracers P1 !! 0%nat = Some (released parse).
Proof. eexists. split; vm_compute; reflexivity. Qed.

(** The destructor of a tracing reporter without a source manager. *)
Lemma no_trace_without_source_manager_holds :
  is_Some (LastTracedFrontendCounters (fresh_reporter false true))
  ∧ SourceMgr (fresh_reporter false true) = false
  ∧ ∀ e, e ∈ (destroy table release (world (λ _, true))
                (fresh_reporter false true)).2 →
         stream_of e ≠ Some tstream.
Proof.
  assert (HL : is_Some (LastTracedFrontendCounters (fresh_reporter false true)))
    by (eexists; reflexivity).
  split; [exact HL |]. split; [reflexivity |].
  apply (no_trace_without_source_manager table release (world (λ _, true))
           (fresh_reporter false true) HL eq_refl).
Defined.

(** The destructor of a reporter nobody used. *)
Lemma teardown_allocates_driver_holds :
  FrontendCounters (fresh_reporter false false) = None
  ∧ DriverCounters (fresh_reporter false false) = None
  ∧ currentProcessExitStatus (fresh_reporter false false) ≠ EXIT_SUCCESS
  ∧ ("Driver.NumProcessFailures"%string, 1)
      ∈ snapshot_rows table
          (destroy table release (world (λ _, true)) (fresh_reporter false false)).1.
Proof.
  split; [reflexivity |]. split; [reflexivity |]. split; [discriminate |].
  destruct (teardown_allocates_driver table release (world (λ _, true))
              (fresh_reporter false false) eq_refl eq_refl)
    as (_ & _ & Hrows).
  { discriminate. }
  apply Hrows. apply (bool_decide_unpack _). vm_compute. exact I.
Defined.

(** C1. The destructor of a tracing reporter with a source manager and a
    recorded event, when the stats file cannot be opened and the trace file
    can: the diagnostic names the trace file, and nothing is done on the
    trace stream. *)
Theorem stats_open_failure_names_trace_file :
  is_Some (LastTracedFrontendCounters (reporter traced))
  ∧ SourceMgr (reporter traced) = true
  ∧ length (FrontendStatsEvents (reporter traced)) = 1%nat
  ∧ StatsFilename (reporter traced)
    = "out/stats-1000-swift-m-all-x86_64-o-Onone-7.json"%string
  ∧ TraceFilename (reporter traced)
    = "out/trace-1001-swift-m-all-x86_64-o-Onone-8.csv"%string
  ∧ (destroy table release (world (all_but (StatsFilename (reporter traced))))
       (reporter traced)).2
    = [ Open ostream "out/stats-1000-swift-m-all-x86_64-o-Onone-7.json" false;
        Errs ("Error opening -stats-output-dir file "
                +:+ "'out/trace-1001-swift-m-all-x86_64-o-Onone-8.csv'"
                +:+ " for writing" +:+ newline) ].
Proof.
  split; [eexists; vm_compute; reflexivity |].
  repeat split; vm_compute; reflexivity.
Qed.

End SampleFacts.

(** ** Further properties of the file names *)

Module NameFacts.
Import FileNames FileNamesFacts Further.

Lemma clean_char_fixed (c : ascii) : clean_char c = c ↔ clean c = true.
Proof.
  unfold clean_char, clean, is_underscore. destruct (keeps c) eqn:Hk; [done |].
  cbn [orb]. rewrite bool_decide_eq_true. split; congruence.
Qed.

Lemma clean_char_clean (c : ascii) : clean (clean_char c) = true.
Proof.
  unfold clean_char, clean. destruct (keeps c) eqn:Hk; [by rewrite Hk | done].
Qed.

Lemma map_chars_fixed (s : string) :
  map_chars clean_char s = s ↔ all_chars clean s = true.
Proof.
  induction s as [|c s IH]; [done |]. cbn [map_chars all_chars].
  rewrite andb_true_iff, <- IH, <- clean_char_fixed. split.
  - by intros [= -> ->].
  - by intros [-> ->].
Qed.

Lemma map_chars_all (s : string) : all_chars clean (map_chars clean_char s) = true.
Proof.
  induction s as [|c s IH]; [done |]. cbn [map_chars all_chars].
  by rewrite clean_char_clean, IH.
Qed.

Lemma map_chars_app (f : ascii → ascii) (a b : string) :
  map_chars f (a +:+ b) = map_chars f a +:+ map_chars f b.
Proof.
  induction a as [|c a IH]; [done |].
  rewrite app_cons. cbn [map_chars]. by rewrite IH, app_cons.
Qed.

(** X1. The strings that [cleanName] returns as they are, are the strings of
    letters, digits, dots and underscores, and every result of [cleanName] is
    such a string: cleaning a second time changes nothing. *)
Theorem cleanName_fixed_points (s : string) :
  (cleanName s = s ↔ all_chars clean s = true)
  ∧ all_chars clean (cleanName s) = true
  ∧ cleanName (cleanName s) = cleanName s.
Proof.
  rewrite !cleanName_map. split; [apply map_chars_fixed |].
  split; [apply map_chars_all |]. apply map_chars_fixed, map_chars_all.
Qed.

(** X2. [cleanName] works character by character: the clean name of a
    concatenation is the concatenation of the clean names. *)
Theorem cleanName_app (a b : string) :
  cleanName (a +:+ b) = cleanName a +:+ cleanName b.
Proof. rewrite !cleanName_map. apply map_chars_app. Qed.

Lemma count_chars_app (p : ascii → bool) (a b : string) :
  count_chars p (a +:+ b) = (count_chars p a + count_chars p b)%nat.
Proof.
  induction a as [|c a IH]; [done |].
  rewrite app_cons. cbn [count_chars]. rewrite IH. lia.
Qed.

Lemma all_chars_app (p : ascii → bool) (a b : string) :
  all_chars p (a +:+ b) = all_chars p a && all_chars p b.
Proof.
  induction a as [|c a IH]; [done |].
  rewrite app_cons. cbn [all_chars]. by rewrite IH, andb_assoc.
Qed.

Lemma all_chars_impl (p q : ascii → bool) (s : string) :
  (∀ c, p c = true → q c = true) → all_chars p s = true → all_chars q s = true.
Proof.
  intros Hpq. induction s as [|c s IH]; [done |]. cbn [all_chars].
  rewrite !andb_true_iff. intros [Hc Hs]. split; [by apply Hpq | by apply IH].
Qed.

Lemma count_none (p q : ascii → bool) (s : string) :
  (∀ c, p c = true → q c = false) → all_chars p s = true → count_chars q s = O.
Proof.
  intros Hpq. induction s as [|c s IH]; [done |]. cbn [all_chars count_chars].
  rewrite andb_true_iff. intros [Hc Hs]. by rewrite (Hpq c Hc), IH.
Qed.

Lemma clean_not_hyphen (c : ascii) : clean c = true → is_hyphen c = false.
Proof.
  intros Hc. unfold is_hyphen. apply bool_decide_eq_false. intros ->.
  vm_compute in Hc. discriminate.
Qed.

Lemma clean_not_slash (c : ascii) : clean c = true → is_slash c = false.
Proof.
  intros Hc. unfold is_slash. apply bool_decide_eq_false. intros ->.
  vm_compute in Hc. discriminate.
Qed.

Lemma aux_not_slash (c : ascii) : aux_char c = true → is_slash c = false.
Proof.
  unfold aux_char. intros [Hc | Hh]%orb_true_iff; [by apply clean_not_slash |].
  unfold is_hyphen in Hh. apply bool_decide_eq_true in Hh as ->. done.
Qed.

Lemma cleanName_hyphens (s : string) : count_chars is_hyphen (cleanName s) = O.
Proof.
  apply (count_none clean); [apply clean_not_hyphen |].
  rewrite cleanName_map. apply map_chars_all.
Qed.

Lemma cleanName_aux (s : string) : all_chars aux_char (cleanName s) = true.
Proof.
  apply (all_chars_impl clean).
  - intros c Hc. unfold aux_char. by rewrite Hc.
  - rewrite cleanName_map. apply map_chars_all.
Qed.

(** X3. Whatever the five names and whatever [path::filename] returns, the
    auxiliary name has exactly four hyphens, those that separate its five
    parts, and no slash: its characters are letters, digits, dots,
    underscores and hyphens. *)
Theorem auxName_separators (path_filename : string → string)
    (ModuleName InputName TripleName OutputType OptType : string) :
  let name :=
    auxName path_filename ModuleName InputName TripleName OutputType OptType in
  count_chars is_hyphen name = 4%nat
  ∧ count_chars is_slash name = O
  ∧ all_chars aux_char name = true.
Proof.
  intros name.
  assert (Haux : all_chars aux_char name = true).
  { subst name. unfold auxName.
    rewrite !all_chars_app, !cleanName_aux. reflexivity. }
  split; [| split; [| done]].
  - subst name. unfold auxName.
    rewrite !count_chars_app, !cleanName_hyphens. reflexivity.
  - by apply (count_none aux_char); [apply aux_not_slash |].
Qed.

(** X4. The reporter never gets one name for its two files: the stats name
    and the trace name differ whatever the clock and the random numbers
    give, and so do the two paths when [path::append] keeps different names
    apart. *)
Theorem stats_and_trace_files_differ (path_append : string → string → string)
    (usec1 rnd1 usec2 rnd2 : Z) (Now : TimeRecord)
    (ProgramName AuxName Directory : string) (SM CSM TraceEvents : bool) :
  (∀ a b, path_append Directory a = path_append Directory b → a = b) →
  let R := Reporter.construct path_append usec1 rnd1 usec2 rnd2 Now ProgramName
             AuxName Directory SM CSM TraceEvents in
  makeStatsFileName usec1 rnd1 ProgramName AuxName
    ≠ makeTraceFileName usec2 rnd2 ProgramName AuxName
  ∧ StatsFilename R ≠ TraceFilename R.
Proof.
  intros Hinj R.
  assert (Hne : makeStatsFileName usec1 rnd1 ProgramName AuxName
                ≠ makeTraceFileName usec2 rnd2 ProgramName AuxName).
  { unfold makeStatsFileName, makeTraceFileName, makeFileName.
    rewrite !app_cons. intros [=]. }
  split; [done |]. intros Heq. by apply Hne, Hinj.
Qed.

End NameFacts.

(** ** Further properties of the reporter *)

Module StateFacts.
Import Reporter Tracing Teardown Reading Further.
Import FlushFacts ProcessFacts TeardownFacts.

(** The accessors allocate once. *)
Lemma getFrontendCounters_spec (R : UnifiedStatsReporter) :
  getFrontendCounters R
  = (with_FrontendCounters R (Some (default zeroed (FrontendCounters R))),
     default zeroed (FrontendCounters R))
  ∨ (is_Some (FrontendCounters R)
     ∧ getFrontendCounters R = (R, default zeroed (FrontendCounters R))).
Proof.
  unfold getFrontendCounters. destruct (FrontendCounters R) eqn:HF.
  - right. split; [by eexists | done].
  - by left.
Qed.

(** X5. The two accessors of the counters get or create: the structure
    they return is the one the reporter holds afterwards, a structure that
    was there is returned with the reporter untouched, a new one holds zeros,
    a second call changes nothing, and neither accessor touches the other
    domain. *)
Theorem accessors_get_or_create (R : UnifiedStatsReporter) :
  (let '(R1, C) := getFrontendCounters R in
   FrontendCounters R1 = Some C
   ∧ (∀ C0, FrontendCounters R = Some C0 → R1 = R ∧ C = C0)
   ∧ (FrontendCounters R = None → C = zeroed)
   ∧ getFrontendCounters R1 = (R1, C)
   ∧ DriverCounters R1 = DriverCounters R)
  ∧ (let '(R1, C) := getDriverCounters R in
     DriverCounters R1 = Some C
     ∧ (∀ C0, DriverCounters R = Some C0 → R1 = R ∧ C = C0)
     ∧ (DriverCounters R = None → C = zeroed)
     ∧ getDriverCounters R1 = (R1, C)
     ∧ FrontendCounters R1 = FrontendCounters R).
Proof.
  unfold getFrontendCounters, getDriverCounters. split.
  - destruct (FrontendCounters R) as [C|] eqn:HF; cbn; rewrite ?HF.
    + repeat split; intros; by simplify_eq.
    + repeat split; intros; by simplify_eq.
  - destruct (DriverCounters R) as [C|] eqn:HD; cbn; rewrite ?HD.
    + repeat split; intros; by simplify_eq.
    + repeat split; intros; by simplify_eq.
Qed.

(** The members a flush leaves alone. *)
Lemma save_members (Def : StatisticsDef) (R : UnifiedStatsReporter)
    (T : FrontendStatsTracer.t) (IsEntry : bool) (Now : TimeRecord) :
  let R' := saveAnyFrontendStatsEvents Def R T IsEntry Now in
  same_setup R R'
  ∧ Timer R' = Timer R
  ∧ (is_Some (LastTracedFrontendCounters R')
     ↔ is_Some (LastTracedFrontendCounters R))
  ∧ (is_Some (LastTracedFrontendCounters R) → is_Some (FrontendCounters R'))
  ∧ (LastTracedFrontendCounters R = None → R' = R).
Proof.
  unfold saveAnyFrontendStatsEvents, same_setup.
  destruct (LastTracedFrontendCounters R) as [Last|] eqn:HL.
  - unfold getFrontendCounters.
    destruct (FrontendCounters R) as [C|] eqn:HC;
      match goal with
      | |- context [foldl ?f ?a ?l] => destruct (foldl f a l) as [L' E']
      end; cbn; rewrite ?HC; repeat split; eauto; done.
  - rewrite HL. repeat split; done.
Qed.

Section Steps.

Variable Def : StatisticsDef.
Variable NDEBUG : bool.

Lemma step_members (R R' : UnifiedStatsReporter) :
  reporter_step Def R R' → same_setup R R' ∧ Timer R' = Timer R ∧ keeps_domains R R'.
Proof.
  intros Hs. destruct Hs as [R|R T b now|R f Hf|R f Hf|R st];
    try (unfold same_setup, keeps_domains; cbn; repeat split; eauto; done).
  destruct (save_members Def R T b now) as (Hsetup & Htimer & Hlt & Halloc & _).
  destruct (save_frame Def R T b now) as (_ & _ & Hd & Hfr).
  split; [done |]. split; [done |]. split; [| split; [by rewrite Hd | done]].
  intros [C HC]. destruct (FrontendCounters (saveAnyFrontendStatsEvents _ _ _ _ _))
    as [C'|] eqn:HC'; [by eexists |].
  exfalso. unfold saveAnyFrontendStatsEvents, getFrontendCounters in HC'.
  destruct (LastTracedFrontendCounters R); [| congruence].
  rewrite HC in HC'.
  match type of HC' with
  | context [foldl ?f ?a ?l] => destruct (foldl f a l) as [L' E']
  end. cbn in HC'. congruence.
Qed.

Lemma run_members (cs : list Cmd) (P P' : Process) :
  run Def NDEBUG cs P = Returns P' →
  same_setup (reporter P) (reporter P')
  ∧ Timer (reporter P') = Timer (reporter P)
  ∧ keeps_domains (reporter P) (reporter P').
Proof.
  intros Hrun. apply run_steps in Hrun.
  induction Hrun as [R|R R1 R' Hs _ IH].
  - unfold same_setup, keeps_domains. repeat split; done.
  - destruct (step_members R R1 Hs) as ((S1 & S2 & S3 & S4 & S5) & Ht & D1 & D2 & D3).
    destruct IH as ((I1 & I2 & I3 & I4 & I5) & It & J1 & J2 & J3).
    unfold same_setup, keeps_domains.
    repeat split; try congruence; try tauto.
Qed.

(** X6. No program frees a counter structure, switches tracing on or off,
    or changes the names of the two files, the start time, the timer or the
    two source managers: whatever a program that returns did, these are as it
    found them, and what was allocated is still allocated. *)
Theorem programs_keep_the_setup (cs : list Cmd) (P P' : Process) :
  run Def NDEBUG cs P = Returns P' →
  same_setup (reporter P) (reporter P')
  ∧ Timer (reporter P') = Timer (reporter P)
  ∧ keeps_domains (reporter P) (reporter P').
Proof. apply run_members. Qed.

Lemma step_untraced (R R' : UnifiedStatsReporter) :
  reporter_step Def R R' →
  LastTracedFrontendCounters R = None →
  LastTracedFrontendCounters R' = None
  ∧ FrontendStatsEvents R' = FrontendStatsEvents R.
Proof.
  intros Hs HL. destruct Hs as [R|R T b now|R f Hf|R f Hf|R st]; try done.
  destruct (save_members Def R T b now) as (_ & _ & _ & _ & Hsame).
  by rewrite (Hsame HL).
Qed.

(** X7. A reporter that does not trace never records an event: whatever a
    program does, tracers built directly on the reporter included, the event
    list and the missing baseline stay as they are, and every call of the
    flush appended nothing. *)
Theorem no_tracing_no_events (cs : list Cmd) (P P' : Process) :
  LastTracedFrontendCounters (reporter P) = None →
  run Def NDEBUG cs P = Returns P' →
  LastTracedFrontendCounters (reporter P') = None
  ∧ FrontendStatsEvents (reporter P') = FrontendStatsEvents (reporter P)
  ∧ ∃ new, calls P' = calls P ++ new ∧ events_of new = [].
Proof.
  intros HL Hrun.
  assert (Hkeep : LastTracedFrontendCounters (reporter P') = None
                  ∧ FrontendStatsEvents (reporter P')
                    = FrontendStatsEvents (reporter P)).
  { pose proof (run_steps Def NDEBUG cs P P' Hrun) as Hsteps.
    induction Hsteps as [R|R R1 R' Hs _ IH]; [done |].
    destruct (step_untraced R R1 Hs HL) as [HL1 He1].
    destruct (IH HL1) as [HL' He']. split; [done | congruence]. }
  destruct Hkeep as [HL' He']. split; [done |]. split; [done |].
  destruct (run_extends Def NDEBUG cs P P' Hrun) as (new & Hc & He).
  exists new. split; [done |]. rewrite He' in He.
  rewrite <- (app_nil_r (FrontendStatsEvents (reporter P))) in He at 1.
  by apply app_inv_head in He.
Qed.

End Steps.

(** *** The flush *)

Section FlushAgain.

Variable Def : StatisticsDef.
Hypothesis Hnames : NoDup (FRONTEND_STATISTIC Def).*2.

Lemma synced_settled (C Last : Counters) (stat : string * string) :
  stat ∈ FRONTEND_STATISTIC Def →
  delta_of C (synced (FRONTEND_STATISTIC Def) C Last) stat.2 = 0.
Proof.
  intros Hin. unfold delta_of at 1.
  rewrite synced_present by (done || by apply list_elem_of_fmap_2).
  case_bool_decide as Hd.
  - by rewrite Z.sub_diag.
  - by try apply dec_stable in Hd.
Qed.

(** X8. A flush right after a flush is silent: it appends no event and
    leaves the reporter exactly as the first flush left it, whichever
    tracers make the two flushes and whenever. *)
Theorem flush_twice (R : UnifiedStatsReporter) (T T' : FrontendStatsTracer.t)
    (IsEntry IsEntry' : bool) (Now Now' : TimeRecord) :
  saveAnyFrontendStatsEvents Def
    (saveAnyFrontendStatsEvents Def R T IsEntry Now) T' IsEntry' Now'
  = saveAnyFrontendStatsEvents Def R T IsEntry Now.
Proof.
  destruct (LastTracedFrontendCounters R) as [Last|] eqn:HL.
  - rewrite (save_spec Def R T IsEntry Now Last Hnames HL).
    set (C := default zeroed (FrontendCounters R)).
    set (L1 := synced (FRONTEND_STATISTIC Def) C Last).
    set (R1 := with_trace _ _ _).
    assert (HL1 : LastTracedFrontendCounters R1 = Some L1) by done.
    assert (HC1 : FrontendCounters R1 = Some C).
    { subst R1 C. unfold getFrontendCounters. cbn.
      destruct (FrontendCounters R) eqn:HF; cbn; by rewrite ?HF. }
    rewrite (save_spec Def R1 T' IsEntry' Now' L1 Hnames HL1).
    unfold flush_events, getFrontendCounters. rewrite HL1, HC1. cbn [default fst].
    rewrite changed_none by (intros stat Hin; by apply synced_settled).
    rewrite synced_unchanged by (intros stat Hin; by apply synced_settled).
    by rewrite app_nil_r.
  - by rewrite !save_disabled by (by rewrite ?save_disabled).
Qed.

(** X9. A flush changes no counter.  When the reporter traces it leaves
    the frontend structure allocated, with zeros if it had to allocate it;
    when the reporter does not trace it changes nothing at all.  The driver
    structure, the exit status and the setup stay as they are. *)
Theorem flush_allocates_frontend (R : UnifiedStatsReporter)
    (T : FrontendStatsTracer.t) (IsEntry : bool) (Now : TimeRecord) :
  let R' := saveAnyFrontendStatsEvents Def R T IsEntry Now in
  (∀ NAME, current R' NAME = current R NAME)
  ∧ (is_Some (LastTracedFrontendCounters R) →
     FrontendCounters R' = Some (default zeroed (FrontendCounters R)))
  ∧ (LastTracedFrontendCounters R = None → R' = R)
  ∧ DriverCounters R' = DriverCounters R
  ∧ currentProcessExitStatus R' = currentProcessExitStatus R
  ∧ currentProcessExitStatusSet R' = currentProcessExitStatusSet R
  ∧ same_setup R R'.
Proof.
  intros R'. subst R'.
  destruct (save_frame Def R T IsEntry Now) as (Hst & Hset & Hd & Hfr).
  destruct (save_members Def R T IsEntry Now) as (Hsetup & _ & _ & _ & Hsame).
  split; [intros NAME; unfold current; by rewrite Hfr |].
  split; [| done].
  intros [Last HL]. rewrite (save_spec Def R T IsEntry Now Last Hnames HL).
  unfold getFrontendCounters. destruct (FrontendCounters R) eqn:HF; cbn; by rewrite ?HF.
Qed.

End FlushAgain.

(** *** The event list *)

Section Log.

Variable Def : StatisticsDef.
Variable NDEBUG : bool.

Lemma wrap_positive (z : Z) : wrap z ≠ 0 → 0 < wrap z < 2 ^ size_t_bits.
Proof. intros Hz. pose proof (wrap_in_range z) as Hr. unfold in_range in Hr. lia. Qed.

Lemma trace_loop_logged (NowUS LiveUS : Z) (IsEntry : bool)
    (T : FrontendStatsTracer.t) (C : Counters) (stats : list (string * string))
    (Last : Counters) (Events : list FrontendStatsEvent.t) :
  (IsEntry = true → LiveUS = 0) →
  (∀ stat, stat ∈ stats → stat ∈ FRONTEND_STATISTIC Def) →
  Forall (well_logged Def) Events →
  Forall (well_logged Def)
    (foldl (trace_statistic NowUS LiveUS IsEntry T C) (Last, Events) stats).2.
Proof.
  intros Hlive. revert Last Events.
  induction stats as [|[TY N] stats IH]; intros Last Events Hsub Hlog; [done |].
  cbn [foldl]. unfold trace_statistic at 2.
  assert (Hrest : ∀ stat, stat ∈ stats → stat ∈ FRONTEND_STATISTIC Def)
    by (intros; apply Hsub; by right).
  case_bool_decide as Hd; [| by apply IH].
  apply IH; [done |]. apply Forall_app. split; [done |].
  apply Forall_singleton. split; [by apply wrap_positive |]. split; [| done].
  exists (TY, N). split; [apply Hsub; by left | done].
Qed.

Lemma step_logged (R R' : UnifiedStatsReporter) :
  reporter_step Def R R' →
  Forall (well_logged Def) (FrontendStatsEvents R) →
  Forall (well_logged Def) (FrontendStatsEvents R').
Proof.
  intros Hs Hlog. destruct Hs as [R|R T b now|R f Hf|R f Hf|R st]; try done.
  unfold saveAnyFrontendStatsEvents.
  destruct (LastTracedFrontendCounters R) as [Last|]; [| done].
  destruct (getFrontendCounters R) as [R1 C] eqn:HG.
  assert (HE : FrontendStatsEvents R1 = FrontendStatsEvents R).
  { unfold getFrontendCounters in HG. destruct (FrontendCounters R); by inversion HG. }
  match goal with
  | |- context [foldl ?f ?a ?l] =>
      pose proof (trace_loop_logged (ProcessTimeUS now)
                    (if b then 0
                     else wrap (ProcessTimeUS now
                                - ProcessTimeUS (FrontendStatsTracer.SavedTime T)))
                    b T C l Last (FrontendStatsEvents R1)) as Hloop;
      destruct (foldl f a l) as [L' E'] eqn:Hf
  end.
  cbn. apply Hloop; [by intros -> | done | by rewrite HE].
Qed.

(** X10. The flush never records a zero delta or an unknown counter: in
    the event list of any program that starts from an empty list, every
    event carries a delta that is a [size_t] other than 0 and the printed
    name of a statistic of the table, and every entry event has live time
    0. *)
Theorem log_is_well_formed (cs : list Cmd) (P P' : Process) :
  run Def NDEBUG cs P = Returns P' →
  Forall (well_logged Def) (FrontendStatsEvents (reporter P)) →
  Forall (well_logged Def) (FrontendStatsEvents (reporter P')).
Proof.
  intros Hrun. apply run_steps in Hrun.
  induction Hrun as [R|R R1 R' Hs _ IH]; [done |].
  intros Hlog. by apply IH, (step_logged R).
Qed.

Variable stat : string * string.
Hypothesis Hwf : well_formed Def.
Hypothesis Hin : stat ∈ FRONTEND_STATISTIC Def.

Lemma named_app (name : string) (l1 l2 : list FrontendStatsEvent.t) :
  named name (l1 ++ l2) = named name l1 ++ named name l2.
Proof. unfold named. apply filter_app. Qed.

(** What a step makes of the last value recorded under the name of [stat],
    of its baseline and of the range of both. *)
Lemma step_last_value (R R' : UnifiedStatsReporter) :
  reporter_step Def R R' →
  is_Some (LastTracedFrontendCounters R) →
  counters_in_range R → in_range (baseline R stat.2) →
  last_value (label stat) (FrontendStatsEvents R) = baseline R stat.2 →
  in_range (baseline R' stat.2)
  ∧ last_value (label stat) (FrontendStatsEvents R') = baseline R' stat.2.
Proof.
  intros Hs HL [HC _] Hb Hlast.
  destruct Hs as [R|R T b now|R f Hf|R f Hf|R st]; try done.
  destruct HL as [Last HL].
  rewrite (save_spec Def R T b now Last (proj1 Hwf) HL).
  assert (Hbase : ∀ R1 L evs N,
            baseline (with_trace R1 (Some L) evs) N = field L N) by done.
  rewrite Hbase. cbn [with_trace FrontendStatsEvents].
  rewrite synced_present by (apply Hwf || by apply list_elem_of_fmap_2).
  unfold last_value. rewrite named_app.
  rewrite (named_flush_events Def R T b now Last stat Hwf HL Hin).
  assert (Hd : delta_of (default zeroed (FrontendCounters R)) Last stat.2
               = wrap (current R stat.2 - baseline R stat.2))
    by (unfold delta_of, current, baseline; by rewrite HL).
  rewrite Hd. case_decide as Hz.
  - rewrite bool_decide_eq_true_2 by done. rewrite last_snoc. cbn.
    split; [apply HC | done].
  - rewrite bool_decide_eq_false_2 by (by intros ?). rewrite app_nil_r.
    assert (field Last stat.2 = baseline R stat.2) as ->
      by (unfold baseline; by rewrite HL).
    done.
Qed.

(** X11. The trace tells the baseline: at the end of any program run on a
    tracing reporter from its construction, the deltas recorded under the
    name of a statistic add up, in [size_t] arithmetic, to the baseline of
    the statistic, and the value of its last event is that baseline (0 when
    it has no event). *)
Theorem trace_tells_the_baseline (path_append : string → string → string)
    (usec1 rnd1 usec2 rnd2 : Z) (Now : TimeRecord)
    (ProgramName AuxName Directory : string) (SM CSM : bool)
    (cs : list Cmd) (P : Process) :
  run Def NDEBUG cs
    (start (construct path_append usec1 rnd1 usec2 rnd2 Now ProgramName AuxName
              Directory SM CSM true))
  = Returns P →
  wrap (sum_deltas (label stat) (FrontendStatsEvents (reporter P)))
  = baseline (reporter P) stat.2
  ∧ last_value (label stat) (FrontendStatsEvents (reporter P))
    = baseline (reporter P) stat.2.
Proof.
  intros Hrun.
  set (R0 := construct _ _ _ _ _ _ _ _ _ _ _ _) in Hrun.
  assert (HL0 : is_Some (LastTracedFrontendCounters R0)) by (by eexists).
  pose proof (run_steps Def NDEBUG cs _ P Hrun) as Hsteps.
  cbn [start reporter] in Hsteps.
  destruct (steps_balance Def stat Hwf Hin _ _ Hsteps HL0) as [Hbal _].
  assert (Hinv : in_range (baseline (reporter P) stat.2)
                 ∧ last_value (label stat) (FrontendStatsEvents (reporter P))
                   = baseline (reporter P) stat.2).
  { assert (HR0 : counters_in_range R0) by apply construct_in_range.
    assert (Hb0 : in_range (baseline R0 stat.2)) by done.
    assert (Hl0 : last_value (label stat) (FrontendStatsEvents R0)
                  = baseline R0 stat.2) by done.
    clear Hbal Hrun. revert HL0 HR0 Hb0 Hl0.
    generalize dependent R0. intros R0 Hsteps.
    induction Hsteps as [R|R R1 R' Hs _ IH]; intros HL HR Hb Hl; [done |].
    destruct (step_last_value R R1 Hs HL HR Hb Hl) as [Hb1 Hl1].
    apply IH; try done.
    - by apply (step_enabled Def Hwf R).
    - by apply (step_in_range Def R). }
  destruct Hinv as [Hb Hl]. split; [| done].
  assert (Hzero : balance R0 stat = wrap 0) by done.
  rewrite Hzero in Hbal. unfold balance in Hbal.
  rewrite <- (wrap_small (baseline (reporter P) stat.2)) by done.
  apply wrap_eq in Hbal as [k Hk]. apply wrap_eq. exists k. lia.
Qed.

End Log.

(** *** The exit status *)

Section Notes.

Variable Def : StatisticsDef.
Variable NDEBUG : bool.

Lemma exec_set (c : Cmd) (P P' : Process) :
  exec Def NDEBUG c P = Returns P' →
  match c with
  | NoteExitStatus _ =>
      currentProcessExitStatusSet (reporter P') = true
      ∧ (NDEBUG = false → currentProcessExitStatusSet (reporter P) = false)
  | _ => currentProcessExitStatusSet (reporter P')
         = currentProcessExitStatusSet (reporter P)
  end.
Proof.
  intros H. destruct c as [| | | | | | | | | |status].
  all: try (exec_cases H; cbn;
            rewrite ?mutate_frontend_eq, ?mutate_driver_eq; cbn;
            try done;
            match goal with
            | |- context [saveAnyFrontendStatsEvents ?D ?R ?T ?b ?n] =>
                by destruct (save_frame D R T b n) as (_ & -> & _)
            end).
  unfold exec, noteCurrentProcessExitStatus, assert in H.
  destruct NDEBUG; [by injection H as <- |].
  destruct (currentProcessExitStatusSet (reporter P)); [done |].
  by injection H as <-.
Qed.

(** X12. In a build that checks assertions a program that returns has
    called the setter of the exit status at most once, and not at all on a
    reporter whose status was set.  In every build the status is marked as
    set at the end exactly when it was set at the start or the program
    called the setter. *)
Theorem exit_status_noted_at_most_once (cs : list Cmd) (P P' : Process) :
  run Def NDEBUG cs P = Returns P' →
  currentProcessExitStatusSet (reporter P')
  = currentProcessExitStatusSet (reporter P) || bool_decide (0 < count_notes cs)%nat
  ∧ (NDEBUG = false →
     (count_notes cs
      ≤ if currentProcessExitStatusSet (reporter P) then 0 else 1)%nat).
Proof.
  revert P. induction cs as [|c cs IH]; intros P Hrun.
  - injection Hrun as <-. rewrite orb_false_r. split; [done |].
    intros _. cbn. destruct (currentProcessExitStatusSet _); lia.
  - cbn [run] in Hrun. destruct (exec Def NDEBUG c P) as [P1|] eqn:Hx; [| done].
    destruct (IH P1 Hrun) as [Hset Hcount].
    pose proof (exec_set c P P1 Hx) as Hc.
    destruct c; cbn [count_notes]; try (rewrite <- Hc; done).
    destruct Hc as [Hc1 Hc0]. rewrite Hset, Hc1. split.
    + rewrite orb_true_l, bool_decide_eq_true_2 by lia. by rewrite orb_true_r.
    + intros Hdebug. specialize (Hcount Hdebug). rewrite Hc1 in Hcount.
      rewrite (Hc0 Hdebug). lia.
Qed.

End Notes.

End StateFacts.

(** ** Further properties of the teardown *)

Module DestructorFacts.
Import Reporter Tracing Teardown Reading Further.
Import FileNamesFacts FlushFacts ProcessFacts TeardownFacts StateFacts.

(** Case analysis on the steps of the destructor that change counters. *)
Ltac settle_all R :=
  let HF := fresh "HF" in
  let HD := fresh "HD" in
  destruct (FrontendCounters R) eqn:HF; destruct (DriverCounters R) eqn:HD;
  unfold settle, recordLinesPerSecond, recordChildrenMaxRSS, markFailure,
    getFrontendCounters, getDriverCounters;
  repeat first
    [ progress cbn
    | rewrite HF
    | rewrite HD
    | match goal with
      | |- context [if ?b then _ else _] => destruct b eqn:?
      end ].

Section Destructor.

Variable Def : StatisticsDef.
Variable B : Build.
Variable W : World.

(** X13. The destructor stops the timer and, of the counters, writes three
    at most: [NumProcessFailures], [ChildrenMaxRSS] of the driver and
    [NumSourceLinesPerSecond] of the frontend.  Every other counter, the
    event list, the baseline, the exit status and the setup are as it found
    them, and it frees nothing. *)
Theorem teardown_frame (R : UnifiedStatsReporter) :
  let R' := (destroy Def B W R).1 in
  same_setup R R'
  ∧ Timer R' = None
  ∧ FrontendStatsEvents R' = FrontendStatsEvents R
  ∧ LastTracedFrontendCounters R' = LastTracedFrontendCounters R
  ∧ currentProcessExitStatus R' = currentProcessExitStatus R
  ∧ currentProcessExitStatusSet R' = currentProcessExitStatusSet R
  ∧ (∀ NAME, NAME ≠ "NumProcessFailures"%string →
             NAME ≠ "NumSourceLinesPerSecond"%string →
             current R' NAME = current R NAME)
  ∧ (∀ NAME, NAME ≠ "NumProcessFailures"%string →
             NAME ≠ "ChildrenMaxRSS"%string →
             field (default zeroed (DriverCounters R')) NAME
             = field (default zeroed (DriverCounters R)) NAME)
  ∧ keeps_domains R R'.
Proof.
  intros R'. subst R'. rewrite destroy_reporter.
  unfold same_setup, keeps_domains, current.
  settle_all R; rewrite ?HF, ?HD; cbn.
  all: repeat split; intros; eauto;
    rewrite ?field_set_ne by congruence; try done.
  all: match goal with H : is_Some None |- _ => by destruct H end.
Qed.

(** X14. What the destructor leaves in the two derived counters: the
    driver structure, where there is one at the end, holds in
    [ChildrenMaxRSS] the resident set size read from the system, a [size_t]
    that is 0 where the system has no [getrusage]; the frontend structure
    gets [NumSourceLinesPerSecond] from the lines counted when lines were
    counted and process time elapsed, keeps it otherwise, and is never
    allocated by the destructor. *)
Theorem teardown_derived_counters (R : UnifiedStatsReporter) :
  let R' := (destroy Def B W R).1 in
  (∀ D, DriverCounters R' = Some D →
        field D "ChildrenMaxRSS" = getChildrenMaxResidentSetSize W)
  ∧ in_range (getChildrenMaxResidentSetSize W)
  ∧ (HAVE_GETRUSAGE W = false → getChildrenMaxResidentSetSize W = 0)
  ∧ (FrontendCounters R = None → FrontendCounters R' = None)
  ∧ current R' "NumSourceLines" = current R "NumSourceLines"
  ∧ (∀ C, FrontendCounters R = Some C →
          current R' "NumSourceLinesPerSecond"
          = if bool_decide (field C "NumSourceLines" ≠ 0)
               && ElapsedProcessTimeNonzero W
            then SourceLinesPerSecond W (field C "NumSourceLines")
            else field C "NumSourceLinesPerSecond").
Proof.
  intros R'. subst R'. rewrite destroy_reporter.
  split; [| split; [| split]].
  - settle_all R; rewrite ?HF, ?HD; cbn; intros D [= <-];
      by rewrite field_set_eq.
  - unfold getChildrenMaxResidentSetSize.
    destruct (HAVE_GETRUSAGE W); [apply wrap_in_range | done].
  - unfold getChildrenMaxResidentSetSize. by intros ->.
  - unfold current. settle_all R; rewrite ?HF, ?HD; cbn.
    all: repeat split; intros; simplify_eq;
      rewrite ?field_set_eq; rewrite ?field_set_ne by done;
      rewrite ?field_set_eq; rewrite ?field_set_ne by done; try done.
  all: repeat match goal with
         | H : context [field (set_field _ _ _) _] |- _ =>
             rewrite field_set_ne in H by done
         end.
  all: match goal with H : _ && _ = _ |- _ => by rewrite H end.
Qed.

Lemma trace_loop_rows (CSM : bool) (events : list FrontendStatsEvent.t)
    (OS : string) :
  foldl (λ OS E, OS +:+ trace_row W CSM E) OS events
  = OS +:+ trace_rows W CSM events.
Proof.
  revert OS. induction events as [|E events IH]; intros OS.
  - cbn. by rewrite app_empty_r.
  - cbn [foldl trace_rows foldr]. rewrite IH. apply app_assoc.
Qed.

Lemma writeStats_streams (R : UnifiedStatsReporter) (e : Effect) :
  e ∈ writeStats Def B W R → stream_of e ≠ Some tstream.
Proof.
  unfold writeStats. destruct (negb (NDEBUG B) || LLVM_ENABLE_STATS B).
  - intros [He | ->%list_elem_of_singleton]%elem_of_app; [| done].
    by apply list_elem_of_fmap in He as (st & -> & _).
  - by intros ->%list_elem_of_singleton.
Qed.

Lemma writeStats_writes (R : UnifiedStatsReporter) :
  ∃ text, Write ostream text ∈ writeStats Def B W R.
Proof.
  unfold writeStats. destruct (negb (NDEBUG B) || LLVM_ENABLE_STATS B);
    eexists; [apply elem_of_app; right |]; by left.
Qed.

Lemma writeTrace_cases (R : UnifiedStatsReporter) :
  writeTrace W R
  = if bool_decide (is_Some (LastTracedFrontendCounters R)) && SourceMgr R
    then if OpenSucceeds W (TraceFilename R)
         then [Open tstream (TraceFilename R) true;
               Write tstream
                 (trace_header +:+ trace_rows W (ClangSourceMgr R)
                                     (FrontendStatsEvents R))]
         else [Open tstream (TraceFilename R) false;
               Errs ("Error opening -trace-stats-events file '"
                       +:+ TraceFilename R +:+ "' for writing" +:+ newline)]
    else [].
Proof.
  unfold writeTrace, trace_text. by rewrite trace_loop_rows.
Qed.

Lemma settle_members (R : UnifiedStatsReporter) :
  StatsFilename (settle W R) = StatsFilename R
  ∧ TraceFilename (settle W R) = TraceFilename R
  ∧ SourceMgr (settle W R) = SourceMgr R
  ∧ ClangSourceMgr (settle W R) = ClangSourceMgr R
  ∧ LastTracedFrontendCounters (settle W R) = LastTracedFrontendCounters R
  ∧ FrontendStatsEvents (settle W R) = FrontendStatsEvents R.
Proof. settle_all R; repeat split; done. Qed.

(** X15. The destructor opens the stats file first, whatever else it does,
    and writes the stats when that file opens.  It touches the trace stream
    exactly when the stats file opened, the reporter traces and it has a
    source manager. *)
Theorem teardown_opens_stats_first (R : UnifiedStatsReporter) :
  let out := (destroy Def B W R).2 in
  (∃ rest, out = Open ostream (StatsFilename R) (OpenSucceeds W (StatsFilename R))
                   :: rest)
  ∧ (OpenSucceeds W (StatsFilename R) = true → ∃ text, Write ostream text ∈ out)
  ∧ ((∃ e, e ∈ out ∧ stream_of e = Some tstream)
     ↔ OpenSucceeds W (StatsFilename R) = true
       ∧ is_Some (LastTracedFrontendCounters R)
       ∧ SourceMgr R = true).
Proof.
  intros out. subst out.
  destruct (settle_members R) as (Hsf & Htf & Hsm & Hcsm & Hlt & Hev).
  destruct (OpenSucceeds W (StatsFilename R)) eqn:Hopen.
  - rewrite (destroy_opened Def B W R Hopen).
    split; [by eexists |]. split.
    { intros _. destruct (writeStats_writes (settle W R)) as [text Ht].
      exists text. right. apply elem_of_app. by left. }
    rewrite writeTrace_cases, Hlt, Hsm. split.
    + intros (e & [-> | [He | He]%elem_of_app]%elem_of_cons & Hstream);
        [done | by apply writeStats_streams in He |].
      split; [done |].
      destruct (bool_decide (is_Some (LastTracedFrontendCounters R))) eqn:Hb;
        [| by apply elem_of_nil in He].
      apply bool_decide_eq_true in Hb.
      destruct (SourceMgr R); [done | by apply elem_of_nil in He].
    + intros (_ & HL & ->). rewrite bool_decide_eq_true_2 by done. cbn [andb].
      destruct (OpenSucceeds W (TraceFilename (settle W R)));
        eexists; (split; [right; apply elem_of_app; right; by left | done]).
  - rewrite (destroy_stats_unopened Def B W R Hopen).
    split; [by eexists |]. split; [done |]. split.
    + intros (e & [-> | ->%list_elem_of_singleton]%elem_of_cons & Hstream); done.
    + by intros [? _].
Qed.



End Destructor.

Section Composition.

Variable Def : StatisticsDef.
Variable NDEBUG : bool.
Variable B : Build.
Variable W : World.

Lemma exec_GetStatsTracer_allocates (t : nat) (EventName : string)
    (E : TraceEntity) (Now : Entry) (P P' : Process) :
  is_Some (LastTracedFrontendCounters (reporter P)) →
  exec Def NDEBUG (GetStatsTracer t EventName E Now) P = Returns P' →
  is_Some (FrontendCounters (reporter P')).
Proof.
  intros HL Hx. unfold exec, fresh in Hx.
  destruct (tracers P !! t); [done |].
  rewrite bool_decide_eq_true_2 in Hx by done. injection Hx as <-.
  unfold new_tracer. cbn.
  by destruct (save_members Def (reporter P)
                 {| FrontendStatsTracer.Reporter := true;
                    FrontendStatsTracer.SavedTime := Saved Now;
                    FrontendStatsTracer.EventName := EventName;
                    FrontendStatsTracer.Entity := E |} true (Flushed Now))
    as (_ & _ & _ & Halloc & _); apply Halloc.
Qed.

(** X18. Tracing settles where a failure is counted: at the end of a
    program that asked a tracing reporter for a tracer, the frontend
    structure is allocated, by the entry flush if by nothing else; so the
    destructor of a run that did not succeed counts the failure in the
    frontend structure, and it leaves the driver count, and a missing driver
    structure, as they are. *)
Theorem tracers_send_failures_to_frontend
    (path_append : string → string → string)
    (usec1 rnd1 usec2 rnd2 : Z) (Now : TimeRecord)
    (ProgramName AuxName Directory : string) (SM CSM : bool)
    (cs : list Cmd) (P : Process)
    (t : nat) (EventName : string) (E : TraceEntity) (At : Entry) :
  run Def NDEBUG cs
    (start (construct path_append usec1 rnd1 usec2 rnd2 Now ProgramName AuxName
              Directory SM CSM true))
  = Returns P →
  GetStatsTracer t EventName E At ∈ cs →
  noted_status cs ≠ Some EXIT_SUCCESS →
  let R := reporter P in
  let R' := (destroy Def B W R).1 in
  is_Some (FrontendCounters R)
  ∧ failures_frontend R' = wrap (failures_frontend R + 1)
  ∧ failures_driver R' = failures_driver R
  ∧ (DriverCounters R = None → DriverCounters R' = None).
Proof.
  intros Hrun Hin Hnoted R R'.
  set (P0 := start _) in Hrun.
  assert (HF : is_Some (FrontendCounters R)).
  { apply list_elem_of_split in Hin as (cs1 & cs2 & ->).
    rewrite run_app in Hrun.
    destruct (run Def NDEBUG cs1 P0) as [P1|] eqn:H1; [| done].
    cbn [run] in Hrun.
    destruct (exec Def NDEBUG (GetStatsTracer t EventName E At) P1) as [P2|] eqn:H2;
      [| done].
    destruct (run_members Def NDEBUG cs1 P0 P1 H1) as (_ & _ & _ & _ & HL1).
    destruct (run_members Def NDEBUG cs2 P2 P Hrun) as (_ & _ & Hkeep & _).
    apply Hkeep. eapply exec_GetStatsTracer_allocates; [| done].
    apply HL1. by eexists. }
  split; [done |].
  assert (Hfail : currentProcessExitStatus R ≠ EXIT_SUCCESS).
  { unfold R. rewrite (run_status Def NDEBUG cs P0 P Hrun).
    destruct (noted_status cs); cbn; [congruence | done]. }
  subst R'. rewrite destroy_reporter.
  destruct (settle_failed W R Hfail) as [Hfront _].
  destruct (Hfront HF) as (_ & H1 & H2). split; [done |]. split; [done |].
  intros HD. destruct HF as [C HC]. clear -HD HC Hfail.
  unfold settle, recordLinesPerSecond, recordChildrenMaxRSS, markFailure,
    getFrontendCounters.
  rewrite bool_decide_eq_true_2 by done. rewrite HC. cbn. rewrite HD. cbn.
  by destruct (_ && _).
Qed.

End Composition.

End DestructorFacts.

(** * The further properties on the sample process *)

Module FurtherSamples.
Import Reporter Tracing Teardown Reading Further Sample.
Import FileNames FileNamesFacts FlushFacts ProcessFacts TeardownFacts SampleFacts.
Import NameFacts StateFacts DestructorFacts.

Lemma app_inv_head (p a b : string) : p +:+ a = p +:+ b → a = b.
Proof.
  induction p as [|c p IH].
  - by rewrite !app_nil_l.
  - rewrite !app_cons. intros [= H]. by apply IH.
Defined.

Lemma path_append_inj (Directory a b : string) :
  path_append Directory a = path_append Directory b → a = b.
Proof.
  unfold path_append. intros H.
  first [ by apply app_inv_head in H
        | by do 2 apply app_inv_head in H ].
Defined.

(** The two files of the sample reporter. *)
Lemma stats_and_trace_files_differ_holds :
  (∀ a b, path_append "out" a = path_append "out" b → a = b)
  ∧ StatsFilename (fresh_reporter true true)
    ≠ TraceFilename (fresh_reporter true true).
Proof.
  split; [apply path_append_inj |].
  apply (stats_and_trace_files_differ path_append 1000 7 1001 8 (at_time 10)
           "swift" "m-all-x86_64-o-Onone" "out" true false true).
  apply path_append_inj.
Defined.

(** The scope around 100 lines counted keeps the setup of the reporter. *)
Lemma programs_keep_the_setup_holds :
  run table false
    (scope 0 "parse" (ADecl 1) (entering 20) (at_time 50)
       [Assign "NumSourceLines" 100]) tracing = Returns traced
  ∧ same_setup (reporter tracing) (reporter traced)
  ∧ keeps_domains (reporter tracing) (reporter traced).
Proof.
  assert (Hrun : run table false
                   (scope 0 "parse" (ADecl 1) (entering 20) (at_time 50)
                      [Assign "NumSourceLines" 100]) tracing = Returns traced)
    by (vm_compute; reflexivity).
  split; [exact Hrun |].
  destruct (programs_keep_the_setup table false _ tracing traced Hrun)
    as (Hsame & _ & Hkeep).
  by split.
Defined.

(** The same scope on a reporter that does not trace. *)
Lemma no_tracing_no_events_holds :
  LastTracedFrontendCounters (reporter (start (fresh_reporter true false))) = None
  ∧ FrontendStatsEvents
      (reporter
         (result (scope 0 "parse" (ADecl 1) (entering 20) (at_time 50)
                    [Assign "NumSourceLines" 100])
            (start (fresh_reporter true false))))
    = [].
Proof.
  assert (HL : LastTracedFrontendCounters
                 (reporter (start (fresh_reporter true false))) = None)
    by (vm_compute; reflexivity).
  split; [exact HL |].
  destruct (no_tracing_no_events table false
              (scope 0 "parse" (ADecl 1) (entering 20) (at_time 50)
                 [Assign "NumSourceLines" 100])
              (start (fresh_reporter true false)) _ HL eq_refl)
    as (_ & Hev & _).
  exact Hev.
Defined.

(** Two flushes after 100 lines counted: the second one changes nothing. *)
Lemma flush_twice_holds :
  NoDup (FRONTEND_STATISTIC table).*2
  ∧ saveAnyFrontendStatsEvents table
      (saveAnyFrontendStatsEvents table (reporter parsed) parse true (at_time 21))
      parse false (at_time 50)
    = saveAnyFrontendStatsEvents table (reporter parsed) parse true (at_time 21).
Proof.
  split; [apply table_well_formed |].
  apply (flush_twice table (proj1 table_well_formed)).
Defined.

(** The first flush of a fresh tracing reporter allocates the counters. *)
Lemma flush_allocates_frontend_holds :
  NoDup (FRONTEND_STATISTIC table).*2
  ∧ FrontendCounters (reporter tracing) = None
  ∧ FrontendCounters
      (saveAnyFrontendStatsEvents table (reporter tracing) parse true (at_time 21))
    = Some zeroed.
Proof.
  split; [apply table_well_formed |].
  split; [vm_compute; reflexivity |].
  destruct (flush_allocates_frontend table (proj1 table_well_formed)
              (reporter tracing) parse true (at_time 21))
    as (_ & Halloc & _).
  apply Halloc. eexists. vm_compute. reflexivity.
Defined.

(** The log of the scope around 100 lines counted. *)
Lemma log_is_well_formed_holds :
  run table false
    (scope 0 "parse" (ADecl 1) (entering 20) (at_time 50)
       [Assign "NumSourceLines" 100]) tracing = Returns traced
  ∧ Forall (well_logged table) (FrontendStatsEvents (reporter tracing))
  ∧ Forall (well_logged table) (FrontendStatsEvents (reporter traced)).
Proof.
  assert (Hrun : run table false
                   (scope 0 "parse" (ADecl 1) (entering 20) (at_time 50)
                      [Assign "NumSourceLines" 100]) tracing = Returns traced)
    by (vm_compute; reflexivity).
  assert (H0 : Forall (well_logged table) (FrontendStatsEvents (reporter tracing)))
    by apply Forall_nil_2.
  split; [exact Hrun |]. split; [exact H0 |].
  exact (log_is_well_formed table false _ tracing traced Hrun H0).
Defined.

(** The trace of the scope around 100 lines counted sums to 100, the
    baseline at its end. *)
Lemma trace_tells_the_baseline_holds :
  well_formed table
  ∧ lines ∈ FRONTEND_STATISTIC table
  ∧ run table false
      (scope 0 "parse" (ADecl 1) (entering 20) (at_time 50)
         [Assign "NumSourceLines" 100]) (start (fresh_reporter true true))
    = Returns traced
  ∧ wrap (sum_deltas "Frontend.NumSourceLines"
            (FrontendStatsEvents (reporter traced)))
    = baseline (reporter traced) "NumSourceLines"
  ∧ last_value "Frontend.NumSourceLines" (FrontendStatsEvents (reporter traced))
    = baseline (reporter traced) "NumSourceLines".
Proof.
  assert (Hrun : run table false
                   (scope 0 "parse" (ADecl 1) (entering 20) (at_time 50)
                      [Assign "NumSourceLines" 100])
                   (start (fresh_reporter true true)) = Returns traced)
    by (vm_compute; reflexivity).
  split; [apply table_well_formed |]. split; [apply lines_in_table |].
  split; [exact Hrun |].
  exact (trace_tells_the_baseline table false lines table_well_formed
           lines_in_table path_append 1000 7 1001 8 (at_time 10) "swift"
           "m-all-x86_64-o-Onone" "out" true false _ traced Hrun).
Defined.

(** One note of the exit status in a build that checks assertions. *)
Lemma exit_status_noted_at_most_once_holds :
  ∃ P',
    run table false [NoteExitStatus 1] tracing = Returns P'
    ∧ currentProcessExitStatusSet (reporter P') = true.
Proof.
  exists (result [NoteExitStatus 1] tracing).
  assert (Hrun : run table false [NoteExitStatus 1] tracing
                 = Returns (result [NoteExitStatus 1] tracing))
    by (vm_compute; reflexivity).
  split; [exact Hrun |].
  destruct (exit_status_noted_at_most_once table false _ tracing _ Hrun) as [Hset _].
  rewrite Hset. vm_compute. reflexivity.
Defined.


(** A failed run of the scope counts its failure in the frontend. *)
Lemma tracers_send_failures_to_frontend_holds :
  run table false
    (scope 0 "parse" (ADecl 1) (entering 20) (at_time 50)
       [Assign "NumSourceLines" 100]) (start (fresh_reporter true true))
  = Returns traced
  ∧ failures_frontend
      (destroy table release (world (λ _, true)) (reporter traced)).1 = 1
  ∧ DriverCounters
      (destroy table release (world (λ _, true)) (reporter traced)).1 = None.
Proof.
  assert (Hrun : run table false
                   (scope 0 "parse" (ADecl 1) (entering 20) (at_time 50)
                      [Assign "NumSourceLines" 100])
                   (start (fresh_reporter true true)) = Returns traced)
    by (vm_compute; reflexivity).
  split; [exact Hrun |].
  destruct (tracers_send_failures_to_frontend table false release
              (world (λ _, true)) path_append 1000 7 1001 8 (at_time 10) "swift"
              "m-all-x86_64-o-Onone" "out" true false _ traced
              0%nat "parse" (ADecl 1) (entering 20) Hrun)
    as (_ & Hf & _ & Hd).
  - unfold scope. apply list_elem_of_here.
  - vm_compute. discriminate.
  - split; [rewrite Hf; vm_compute; reflexivity |].
    apply Hd. vm_compute. reflexivity.
Defined.

End FurtherSamples.
